(** * Caelum weather station: acquisition core

    A shallow embedding of the battery monitor (battery_monitor.c), the
    anemometer pulse counter (anemometer.c), the chip-identity probes
    of the DPS368 and BME280/BMP280 drivers (dps368.c, bme280_app.c)
    and the sensor drivers on the two I2C buses (dps368.c, as5600.c,
    sht41.c, veml7700.c), with the properties of the acquisition core
    they satisfy.

    C integers are [Z] with the wrap-around of their width written out,
    [float] is IEEE 754 binary32 ([spec_float] at precision 24), the
    file-scope [static] variables of a driver are a record that every
    function takes and returns, and the ESP-IDF calls a driver makes are
    oracles that give the status (and data) the call comes back with. *)

From Stdlib Require Import ZArith Bool List Lia.
From Stdlib Require Import Floats.SpecFloat.
Import ListNotations.
Local Open Scope Z_scope.

Set Implicit Arguments.

(** ** C integer types *)

Module CInt.

Definition uint8 (z : Z) : Z := z mod 2 ^ 8.
Definition uint16 (z : Z) : Z := z mod 2 ^ 16.
Definition uint32 (z : Z) : Z := z mod 2 ^ 32.

(** Two's complement value of the low [w] bits of [z].  Arithmetic on
    [int] is taken to wrap, as the compiled code does; the values the
    drivers compute from a 12-bit ADC stay far inside the range. *)
Definition sint (w : Z) (z : Z) : Z :=
  (z + 2 ^ (w - 1)) mod 2 ^ w - 2 ^ (w - 1).

Definition int32 : Z -> Z := sint 32.
Definition int64 : Z -> Z := sint 64.

End CInt.

(** ** esp_err_t and early returns *)

Module Esp.

Definition esp_err_t := Z.
Definition ESP_OK : esp_err_t := 0.
Definition ESP_FAIL : esp_err_t := -1.
Definition ESP_ERR_INVALID_ARG : esp_err_t := 0x102.
Definition ESP_ERR_INVALID_STATE : esp_err_t := 0x103.

(** A C function body over the statics [S]: it either runs on with a
    value ([inr]) or has executed [return r] ([inl r]); the statics
    written before the [return] are kept. *)
Definition body (S A : Type) : Type := S -> (esp_err_t + A) * S.

Section Body.
Context {S : Type}.

Definition ret {A} (a : A) : body S A := fun s => (inr a, s).

Definition bind {A B} (m : body S A) (k : A -> body S B) : body S B :=
  fun s =>
    match m s with
    | (inl r, s') => (inl r, s')
    | (inr a, s') => k a s'
    end.

(** [return r;] *)
Definition leave {A} (r : esp_err_t) : body S A := fun s => (inl r, s).

Definition get : body S S := fun s => (inr s, s).
Definition modify (f : S -> S) : body S unit := fun s => (inr tt, f s).

(** [if (ret != ESP_OK) return ret;] *)
Definition check (r : esp_err_t) : body S unit :=
  if r =? ESP_OK then ret tt else leave r.

(** The status a body returns, where falling off its end is its
    final [return]. *)
Definition status (m : body S esp_err_t) (s : S) : esp_err_t * S :=
  match m s with
  | (inl r, s') => (r, s')
  | (inr r, s') => (r, s')
  end.

(** A call of another function of the driver: it runs to its own
    [return], and the caller goes on with the status. *)
Definition call (m : body S esp_err_t) : body S esp_err_t :=
  fun s => let '(r, s') := status m s in (inr r, s').
End Body.

End Esp.

Declare Scope body_scope.
Delimit Scope body_scope with body.
Notation "x <- c ;; k" := (Esp.bind c (fun x => k))
  (at level 61, c at next level, right associativity) : body_scope.
Notation "c ;; k" := (Esp.bind c (fun _ => k))
  (at level 61, right associativity) : body_scope.

(** ** Battery monitor (battery_monitor.c) *)

Module Battery.
Import CInt Esp.

(** esp_zb_weather.h *)
Definition BATTERY_VOLTAGE_DIVIDER_R1 : Z := 100000.
Definition BATTERY_VOLTAGE_DIVIDER_R2 : Z := 100000.

(** The statics of the driver and the pin it drives.  [gate] is the
    level on BATTERY_ENABLE_GPIO and [gate_writes] every level written
    to it, oldest first; [adc_reads] counts the conversions requested
    so far and selects the outcome of the next one. *)
Record state := {
  adc_calibrated : bool;
  last_voltage_mv : Z;
  last_percentage : Z;
  gate : bool;
  gate_writes : list bool;
  adc_reads : nat
}.

(** What the ESP-IDF calls of the driver come back with. *)
Record hal := {
  gpio_config : esp_err_t;
  adc_oneshot_new_unit : esp_err_t;
  adc_oneshot_config_channel : esp_err_t;
  (** [None]: no calibration scheme is compiled in. *)
  adc_cali_create_scheme : option esp_err_t;
  (** status and raw value of the n-th conversion *)
  adc_oneshot_read : nat -> esp_err_t * Z;
  adc_cali_raw_to_voltage : Z -> esp_err_t * Z
}.

(** The initialisers of the statics; the pin is an input until
    battery_monitor_init configures it. *)
Definition boot : state :=
  {| adc_calibrated := false; last_voltage_mv := 0; last_percentage := 0;
     gate := false; gate_writes := []; adc_reads := 0%nat |}.

Definition gpio_set_level (level : bool) (st : state) : state :=
  {| adc_calibrated := adc_calibrated st;
     last_voltage_mv := last_voltage_mv st;
     last_percentage := last_percentage st;
     gate := level;
     gate_writes := gate_writes st ++ [level];
     adc_reads := adc_reads st |}.

Definition set_calibrated (st : state) : state :=
  {| adc_calibrated := true;
     last_voltage_mv := last_voltage_mv st;
     last_percentage := last_percentage st;
     gate := gate st;
     gate_writes := gate_writes st;
     adc_reads := adc_reads st |}.

Definition count_read (st : state) : state :=
  {| adc_calibrated := adc_calibrated st;
     last_voltage_mv := last_voltage_mv st;
     last_percentage := last_percentage st;
     gate := gate st;
     gate_writes := gate_writes st;
     adc_reads := S (adc_reads st) |}.

Definition set_last (mv pct : Z) (st : state) : state :=
  {| adc_calibrated := adc_calibrated st;
     last_voltage_mv := mv;
     last_percentage := pct;
     gate := gate st;
     gate_writes := gate_writes st;
     adc_reads := adc_reads st |}.

Definition battery_voltage_to_percentage (voltage_mv : Z) : Z :=
  let v_min := 2700 in
  let v_max := 4200 in
  if voltage_mv <=? v_min then 0
  else if voltage_mv >=? v_max then 100
  else uint8 (Z.quot ((voltage_mv - v_min) * 100) (v_max - v_min)).

Definition battery_get_zigbee_voltage (st : state) : Z :=
  uint8 (Z.quot (last_voltage_mv st) 100).

Definition battery_get_zigbee_percentage (st : state) : Z :=
  uint8 (last_percentage st * 2).

Section Driver.
Variable io : hal.
Local Open Scope body_scope.

Definition battery_monitor_init_body : body state esp_err_t :=
  check (gpio_config io) ;;
  modify (gpio_set_level false) ;;
  check (adc_oneshot_new_unit io) ;;
  check (adc_oneshot_config_channel io) ;;
  match adc_cali_create_scheme io with
  | Some r => if r =? ESP_OK then modify set_calibrated else ret tt
  | None => ret tt
  end ;;
  ret ESP_OK.

Definition battery_monitor_init : state -> esp_err_t * state :=
  status battery_monitor_init_body.

(** The sampling loop with [todo] iterations left. *)
Fixpoint sample_loop (todo : nat) (adc_raw_sum : Z) : body state Z :=
  match todo with
  | O => ret adc_raw_sum
  | S todo' =>
      st <- get ;;
      let '(r, adc_raw) := adc_oneshot_read io (adc_reads st) in
      modify count_read ;;
      if negb (r =? ESP_OK)
      then modify (gpio_set_level false) ;; leave r
      else sample_loop todo' (int32 (adc_raw_sum + adc_raw))
  end.

(** [inr mv] is the value stored through the pointer. *)
Definition battery_read_voltage_body : body state Z :=
  modify (gpio_set_level true) ;;
  let num_samples := 3 in
  adc_raw_sum <- sample_loop (Z.to_nat num_samples) 0 ;;
  modify (gpio_set_level false) ;;
  let adc_raw_avg := Z.quot adc_raw_sum num_samples in
  st <- get ;;
  voltage_divider_mv <-
    (if adc_calibrated st then
       let '(r, mv) := adc_cali_raw_to_voltage io adc_raw_avg in
       check r ;; ret mv
     else ret (Z.quot (int32 (adc_raw_avg * 3300)) 4095)) ;;
  let battery_mv :=
    uint32 (Z.quot
              (int32 (voltage_divider_mv *
                      (BATTERY_VOLTAGE_DIVIDER_R1 + BATTERY_VOLTAGE_DIVIDER_R2)))
              BATTERY_VOLTAGE_DIVIDER_R2) in
  let mv := uint16 battery_mv in
  modify (set_last mv (battery_voltage_to_percentage mv)) ;;
  ret mv.

(** [voltage_mv] is the caller's cell, [None] for a null pointer;
    the result carries the cell as the call leaves it. *)
Definition battery_read_voltage (voltage_mv : option Z) (st : state)
  : esp_err_t * option Z * state :=
  match voltage_mv with
  | None => (ESP_ERR_INVALID_ARG, None, st)
  | Some _ =>
      match battery_read_voltage_body st with
      | (inl r, st') => (r, voltage_mv, st')
      | (inr mv, st') => (ESP_OK, Some mv, st')
      end
  end.

(** The calls of the application on the driver. *)
Inductive call :=
| Init
| Read (voltage_mv : option Z).

Definition step (st : state) (c : call) : state :=
  match c with
  | Init => snd (battery_monitor_init st)
  | Read p => snd (battery_read_voltage p st)
  end.

Definition run (cs : list call) : state := fold_left step cs boot.

End Driver.

(** The stored sample and the calibration flag are the same. *)
Definition same_sample (st st' : state) : Prop :=
  last_voltage_mv st' = last_voltage_mv st /\
  last_percentage st' = last_percentage st /\
  adc_calibrated st' = adc_calibrated st.

(** The stored percentage is the one of the stored voltage. *)
Definition consistent (st : state) : Prop :=
  last_percentage st = battery_voltage_to_percentage (last_voltage_mv st).

End Battery.

(** ** binary32 *)

Module Float32.

Definition float : Type := spec_float.
Definition prec : Z := 24.
Definition emax : Z := 128.

Definition mul : float -> float -> float := SFmul prec emax.
Definition div : float -> float -> float := SFdiv prec emax.

(** Conversion of an integer to [float], to nearest even. *)
Definition of_int (z : Z) : float := binary_normalize prec emax z 0 false.

(** The decimal literal [num / den], for [num] and [den] that
    binary32 holds exactly: the quotient rounded once. *)
Definition literal (num den : Z) : float := div (of_int num) (of_int den).

Definition zero : float := S754_zero false.

(** Number of bits of a mantissa. *)
Definition digits (m : positive) : Z := Zpos (digits2_pos m).

(** [x] is positive and not below [2 ^ (L - 1)]: a finite number with
    [L <= digits m + e], or plus infinity. *)
Definition positive_at_least (L : Z) (x : float) : Prop :=
  match x with
  | S754_finite s m e => s = false /\ L <= digits m + e
  | S754_infinity s => s = false
  | _ => False
  end.

End Float32.

(** ** Anemometer (anemometer.h, anemometer.c) *)

Module Anemometer.
Import CInt Esp Float32.

(** anemometer.h *)
Definition ANEMOMETER_RADIUS_M : float := literal 7 100.
Definition ANEMOMETER_PULSES_PER_REV : Z := 1.
Definition ANEMOMETER_CALIBRATION : float := literal 118 100.

Record state := {
  pulse_count : Z;
  last_measurement_time_us : Z;
  interrupts_enabled : bool
}.

Definition boot : state :=
  {| pulse_count := 0; last_measurement_time_us := 0;
     interrupts_enabled := false |}.

Definition set_pulse_count (n : Z) (st : state) : state :=
  {| pulse_count := n;
     last_measurement_time_us := last_measurement_time_us st;
     interrupts_enabled := interrupts_enabled st |}.

Definition set_last_measurement_time_us (t : Z) (st : state) : state :=
  {| pulse_count := pulse_count st;
     last_measurement_time_us := t;
     interrupts_enabled := interrupts_enabled st |}.

Definition set_interrupts_enabled (b : bool) (st : state) : state :=
  {| pulse_count := pulse_count st;
     last_measurement_time_us := last_measurement_time_us st;
     interrupts_enabled := b |}.

Definition anemometer_isr_handler (st : state) : state :=
  set_pulse_count (uint32 (pulse_count st + 1)) st.

(** What the GPIO driver calls of anemometer_init come back with. *)
Record hal := {
  gpio_config : esp_err_t;
  gpio_install_isr_service : esp_err_t;
  gpio_isr_handler_add : esp_err_t
}.

(** [now] is what esp_timer_get_time() reads. *)
Definition anemometer_init (io : hal) (now : Z) (st : state)
  : esp_err_t * state :=
  let ret := gpio_config io in
  if negb (ret =? ESP_OK) then (ret, st) else
  let ret := gpio_install_isr_service io in
  if negb (ret =? ESP_OK) && negb (ret =? ESP_ERR_INVALID_STATE)
  then (ret, st) else
  let ret := gpio_isr_handler_add io in
  if negb (ret =? ESP_OK) then (ret, st) else
  let st := set_interrupts_enabled true st in
  let st := set_last_measurement_time_us now st in
  let st := set_pulse_count 0 st in
  (ESP_OK, st).

(** The line the function logs: speed, pulses, elapsed seconds. *)
Record wind_log := {
  log_speed : float;
  log_pulses : Z;
  log_elapsed_s : float
}.

(** What a call hands back: its status, the caller's cell ([None]
    for a null pointer) and the line logged, if any. *)
Record outcome := {
  ret : esp_err_t;
  speed_ms : option float;
  logged : option wind_log
}.

(** Lines 84-89: the speed from the pulses taken and the window. *)
Definition wind_speed (pulses elapsed_us : Z) : float :=
  let elapsed_s := div (of_int elapsed_us) (of_int 1000000) in
  let rotations_per_sec :=
    div (of_int pulses) (mul (of_int ANEMOMETER_PULSES_PER_REV) elapsed_s) in
  let circumference :=
    mul (mul (of_int 2) (literal 314159 100000)) ANEMOMETER_RADIUS_M in
  mul (mul rotations_per_sec circumference) ANEMOMETER_CALIBRATION.

(** The locals that are live after line 80. *)
Record frame := {
  pulses : Z;
  current_time_us : Z;
  elapsed_us : Z
}.

(** Lines 68-80: the argument check, the window test and the read of
    [pulse_count]; [inl] when the function has returned already. *)
Definition take (cell : option float) (now : Z) (st : state)
  : outcome + frame :=
  match cell with
  | None =>
      inl {| ret := ESP_ERR_INVALID_ARG; speed_ms := None; logged := None |}
  | Some _ =>
      let current_time_us := now in
      let elapsed_us := int64 (current_time_us - last_measurement_time_us st) in
      if elapsed_us <=? 0
      then inl {| ret := ESP_OK; speed_ms := Some zero; logged := None |}
      else inr {| pulses := pulse_count st;
                  current_time_us := current_time_us;
                  elapsed_us := elapsed_us |}
  end.

(** Lines 81-94: the reset of [pulse_count] and of the window, and
    the speed. *)
Definition clear (fr : frame) (st : state) : outcome * state :=
  let st := set_pulse_count 0 st in
  let st := set_last_measurement_time_us (current_time_us fr) st in
  let speed := wind_speed (pulses fr) (elapsed_us fr) in
  ({| ret := ESP_OK;
      speed_ms := Some speed;
      logged := Some {| log_speed := speed;
                        log_pulses := pulses fr;
                        log_elapsed_s :=
                          div (of_int (elapsed_us fr)) (of_int 1000000) |} |},
   st).

Definition anemometer_get_wind_speed (cell : option float) (now : Z)
  (st : state) : outcome * state :=
  match take cell now st with
  | inl out => (out, st)
  | inr fr => clear fr st
  end.

Definition anemometer_reset (now : Z) (st : state) : state :=
  set_last_measurement_time_us now (set_pulse_count 0 st).

Definition anemometer_enable (now : Z) (st : state) : state :=
  if negb (interrupts_enabled st)
  then anemometer_reset now (set_interrupts_enabled true st)
  else st.

Definition anemometer_disable (st : state) : state :=
  if interrupts_enabled st then set_interrupts_enabled false st else st.

(** *** The interrupt and the main context together

    The handler runs to completion whenever an edge arrives; the main
    context is either outside anemometer_get_wind_speed or inside it,
    and an edge can arrive between any two of its statements.  The
    only place where that matters is between the read of
    [pulse_count] (line 80) and its reset (line 81). *)

Inductive context :=
| Idle
| Taken (fr : frame).

(** [deltas] are the pulses each completed call has taken, newest
    first, and [edges] the number of times the handler has run. *)
Record system := {
  mem : state;
  main : context;
  deltas : list Z;
  edges : Z
}.

Inductive event :=
| Edge
| Call (now : Z)
| Resume.

Definition fire (sys : system) (ev : event) : system :=
  match ev, main sys with
  | Edge, _ =>
      {| mem := anemometer_isr_handler (mem sys); main := main sys;
         deltas := deltas sys; edges := edges sys + 1 |}
  | Call now, Idle =>
      match take (Some zero) now (mem sys) with
      | inl _ => sys
      | inr fr =>
          {| mem := mem sys; main := Taken fr;
             deltas := deltas sys; edges := edges sys |}
      end
  | Resume, Taken fr =>
      {| mem := snd (clear fr (mem sys)); main := Idle;
         deltas := pulses fr :: deltas sys; edges := edges sys |}
  | _, _ => sys
  end.

Definition start (st : state) : system :=
  {| mem := st; main := Idle; deltas := []; edges := 0 |}.

Definition schedule (evs : list event) (sys : system) : system :=
  fold_left fire evs sys.

Definition sum (l : list Z) : Z := fold_right Z.add 0 l.

(** A schedule in which no edge arrives inside a call. *)
Inductive step :=
| Pulse
| Flush (now : Z).

Definition events_of (s : step) : list event :=
  match s with
  | Pulse => [Edge]
  | Flush now => [Call now; Resume]
  end.

Definition atomic (ss : list step) : list event := flat_map events_of ss.

(** *** The rate in physical units

    Edge count over elapsed time: the pulses divided by (pulses per
    revolution x elapsed seconds), times the circumference
    2 pi x radius, times the calibration factor. *)

Definition elapsed_seconds (elapsed_us : Z) : float :=
  div (of_int elapsed_us) (of_int 1000000).

Definition pi : float := literal 314159 100000.

Definition circumference : float :=
  mul (mul (of_int 2) pi) ANEMOMETER_RADIUS_M.

Definition edge_rate_speed (pulses elapsed_us : Z) : float :=
  let revolutions_per_second :=
    div (of_int pulses)
        (mul (of_int ANEMOMETER_PULSES_PER_REV) (elapsed_seconds elapsed_us)) in
  mul (mul revolutions_per_second circumference) ANEMOMETER_CALIBRATION.

End Anemometer.

(** ** DPS368 pressure sensor (dps368.c) *)

Module Dps368.
Import CInt Esp.

Definition DPS368_REG_PRS_CFG : Z := 0x06.
Definition DPS368_REG_TMP_CFG : Z := 0x07.
Definition DPS368_REG_MEAS_CFG : Z := 0x08.
Definition DPS368_REG_PROD_ID : Z := 0x0D.
Definition DPS368_REG_COEF : Z := 0x10.

Definition DPS368_PM_RATE_8 : Z := 0x30.
Definition DPS368_PM_PRC_8 : Z := 0x03.
Definition DPS368_TMP_RATE_1 : Z := 0x00.
Definition DPS368_TMP_PRC_1 : Z := 0x00.
Definition DPS368_MEAS_CONT_BOTH : Z := 0x07.

(** The calibration coefficients c0 .. c30. *)
Record coefficients := {
  c0 : Z; c1 : Z; c00 : Z; c10 : Z; c01 : Z;
  c11 : Z; c20 : Z; c21 : Z; c30 : Z
}.

(** [dps368_dev] is [true] for a handle that is not null. *)
Record state := {
  dps368_dev : bool;
  coef : coefficients;
  calibrated : bool
}.

Definition boot : state :=
  {| dps368_dev := false;
     coef := {| c0 := 0; c1 := 0; c00 := 0; c10 := 0; c01 := 0;
                c11 := 0; c20 := 0; c21 := 0; c30 := 0 |};
     calibrated := false |}.

(** What the i2c_bus component comes back with: whether a device
    handle is created, the status of a read of [len] bytes at [reg]
    with the buffer it fills (by index), the status of a write. *)
Record hal := {
  i2c_bus_device_create : bool;
  i2c_bus_read_bytes : Z -> nat -> esp_err_t * (nat -> Z);
  i2c_bus_write_byte : Z -> Z -> esp_err_t
}.

Definition set_dev (h : bool) (st : state) : state :=
  {| dps368_dev := h; coef := coef st; calibrated := calibrated st |}.

Definition set_coef (c : coefficients) (st : state) : state :=
  {| dps368_dev := dps368_dev st; coef := c; calibrated := true |}.

(** [if (c & sign) c -= span;] on an int32_t *)
Definition sign_extend (sign span c : Z) : Z :=
  if negb (Z.land c sign =? 0) then int32 (c - span) else c.

Section Driver.
Variable io : hal.
Local Open Scope body_scope.

Definition dps368_read_reg (reg : Z) (len : nat) : esp_err_t * (nat -> Z) :=
  let '(r, data) := i2c_bus_read_bytes io reg len in
  (r, fun i => uint8 (data i)).

Definition dps368_write_reg (reg value : Z) : esp_err_t :=
  i2c_bus_write_byte io reg value.

Definition parse_coefficients (b : nat -> Z) : coefficients :=
  let u i := uint32 (b i) in
  {| c0 := sign_extend 0x800 0x1000
             (int32 (Z.lor (uint32 (Z.shiftl (u 0%nat) 4))
                           (Z.land (Z.shiftr (u 1%nat) 4) 0x0F)));
     c1 := sign_extend 0x800 0x1000
             (int32 (Z.lor (uint32 (Z.shiftl (Z.land (u 1%nat) 0x0F) 8))
                           (u 2%nat)));
     c00 := sign_extend 0x80000 0x100000
              (int32 (Z.lor (Z.lor (uint32 (Z.shiftl (u 3%nat) 12))
                                   (uint32 (Z.shiftl (u 4%nat) 4)))
                            (Z.land (Z.shiftr (u 5%nat) 4) 0x0F)));
     c10 := sign_extend 0x80000 0x100000
              (int32 (Z.lor (Z.lor (uint32 (Z.shiftl (Z.land (u 5%nat) 0x0F) 16))
                                   (uint32 (Z.shiftl (u 6%nat) 8)))
                            (u 7%nat)));
     c01 := sign_extend 0x8000 0x10000
              (int32 (Z.lor (uint32 (Z.shiftl (u 8%nat) 8)) (u 9%nat)));
     c11 := sign_extend 0x8000 0x10000
              (int32 (Z.lor (uint32 (Z.shiftl (u 10%nat) 8)) (u 11%nat)));
     c20 := sign_extend 0x8000 0x10000
              (int32 (Z.lor (uint32 (Z.shiftl (u 12%nat) 8)) (u 13%nat)));
     c21 := sign_extend 0x8000 0x10000
              (int32 (Z.lor (uint32 (Z.shiftl (u 14%nat) 8)) (u 15%nat)));
     c30 := sign_extend 0x8000 0x10000
              (int32 (Z.lor (uint32 (Z.shiftl (u 16%nat) 8)) (u 17%nat))) |}.

Definition dps368_read_calibration : body state esp_err_t :=
  let '(r, coef) := dps368_read_reg DPS368_REG_COEF 18 in
  check r ;;
  modify (set_coef (parse_coefficients coef)) ;;
  ret ESP_OK.

(** [i2c_bus] is [true] for a bus handle that is not null. *)
Definition dps368_init_body (i2c_bus : bool) : body state esp_err_t :=
  (if negb i2c_bus then leave ESP_ERR_INVALID_ARG else ret tt) ;;
  modify (set_dev (i2c_bus_device_create io)) ;;
  st <- get ;;
  (if negb (dps368_dev st) then leave ESP_FAIL else ret tt) ;;
  let '(r, data) := dps368_read_reg DPS368_REG_PROD_ID 1 in
  check r ;;
  let prod_id := data 0%nat in
  (if negb (prod_id =? 0x10) then leave ESP_FAIL else ret tt) ;;
  r <- call dps368_read_calibration ;;
  check r ;;
  check (dps368_write_reg DPS368_REG_PRS_CFG
           (Z.lor DPS368_PM_RATE_8 DPS368_PM_PRC_8)) ;;
  check (dps368_write_reg DPS368_REG_TMP_CFG
           (Z.lor DPS368_TMP_RATE_1 DPS368_TMP_PRC_1)) ;;
  check (dps368_write_reg DPS368_REG_MEAS_CFG DPS368_MEAS_CONT_BOTH) ;;
  ret ESP_OK.

Definition dps368_init (i2c_bus : bool) : state -> esp_err_t * state :=
  status (dps368_init_body i2c_bus).

(** The product ID the device answers with. *)
Definition product_id : Z :=
  snd (dps368_read_reg DPS368_REG_PROD_ID 1) 0%nat.

End Driver.

End Dps368.

(** ** BME280 / BMP280 (bme280_app.c) *)

Module Bme280App.
Import CInt Esp.

(** bme280.h of the sensor component *)
Definition BME280_REGISTER_CHIPID : Z := 0xD0.

(** The lines the probe logs. *)
Inductive log_line :=
| ErrNullBus
| ErrCreateFailed
| ErrChipIdRead
| InfoDetectedBme280 (chip_id : Z)
| WarnDetectedBmp280 (chip_id : Z)
| WarnUnknownSensor (chip_id : Z)
| ErrForcedMode
| ErrCalibrationRead
| InfoInitialized.

(** [g_bme280] is [true] for a handle that is not null; [log] holds
    the lines logged, oldest first. *)
Record state := {
  g_bme280 : bool;
  is_bmp280 : bool;
  log : list log_line
}.

Definition boot : state :=
  {| g_bme280 := false; is_bmp280 := false; log := [] |}.

Record hal := {
  bme280_create : bool;
  i2c_bus_read_byte : Z -> esp_err_t * Z;
  bme280_set_sampling : esp_err_t;
  bme280_read_coefficients : esp_err_t
}.

Definition esp_log (l : log_line) (st : state) : state :=
  {| g_bme280 := g_bme280 st; is_bmp280 := is_bmp280 st;
     log := log st ++ [l] |}.

Definition set_handle (h : bool) (st : state) : state :=
  {| g_bme280 := h; is_bmp280 := is_bmp280 st; log := log st |}.

Definition set_is_bmp280 (b : bool) (st : state) : state :=
  {| g_bme280 := g_bme280 st; is_bmp280 := b; log := log st |}.

Definition bme280_app_is_bmp280 (st : state) : bool := is_bmp280 st.

(** The identity a probe reports in its log. *)
Inductive identity :=
| Bme280
| Bmp280
| Unknown.

Definition identity_of (l : log_line) : list identity :=
  match l with
  | InfoDetectedBme280 _ => [Bme280]
  | WarnDetectedBmp280 _ => [Bmp280]
  | WarnUnknownSensor _ => [Unknown]
  | _ => []
  end.

Definition identities (st : state) : list identity :=
  flat_map identity_of (log st).

Section Driver.
Variable io : hal.
Local Open Scope body_scope.

Definition bme280_app_init_body (i2c_bus : bool) : body state esp_err_t :=
  (if negb i2c_bus
   then modify (esp_log ErrNullBus) ;; leave ESP_ERR_INVALID_ARG
   else ret tt) ;;
  modify (set_handle (bme280_create io)) ;;
  st <- get ;;
  (if negb (g_bme280 st)
   then modify (esp_log ErrCreateFailed) ;; leave ESP_FAIL
   else ret tt) ;;
  let '(err, byte) := i2c_bus_read_byte io BME280_REGISTER_CHIPID in
  (if negb (err =? ESP_OK)
   then modify (esp_log ErrChipIdRead) ;; leave err
   else ret tt) ;;
  let chip_id := uint8 byte in
  (if chip_id =? 0x60 then
     modify (esp_log (InfoDetectedBme280 chip_id)) ;;
     modify (set_is_bmp280 false)
   else if chip_id =? 0x58 then
     modify (esp_log (WarnDetectedBmp280 chip_id)) ;;
     modify (set_is_bmp280 true)
   else
     modify (esp_log (WarnUnknownSensor chip_id)) ;;
     modify (set_is_bmp280 false)) ;;
  (let err := bme280_set_sampling io in
   if negb (err =? ESP_OK)
   then modify (esp_log ErrForcedMode) ;; leave err
   else ret tt) ;;
  (let err := bme280_read_coefficients io in
   if negb (err =? ESP_OK)
   then modify (esp_log ErrCalibrationRead) ;; leave err
   else ret tt) ;;
  modify (esp_log InfoInitialized) ;;
  ret ESP_OK.

Definition bme280_app_init (i2c_bus : bool) : state -> esp_err_t * state :=
  status (bme280_app_init_body i2c_bus).

(** The chip ID the device answers with. *)
Definition chip_id : Z := uint8 (snd (i2c_bus_read_byte io BME280_REGISTER_CHIPID)).

End Driver.

End Bme280App.

(** ** Boards

    Concrete hardware for the examples. *)

Module Boards.
Import Esp.

(** An ADC whose second conversion fails; the calibration maps a raw
    value to itself. *)
Definition flaky_adc : Battery.hal :=
  {| Battery.gpio_config := ESP_OK;
     Battery.adc_oneshot_new_unit := ESP_OK;
     Battery.adc_oneshot_config_channel := ESP_OK;
     Battery.adc_cali_create_scheme := Some ESP_OK;
     Battery.adc_oneshot_read :=
       fun n => if Nat.eqb n 1 then (ESP_FAIL, 0) else (ESP_OK, 1850);
     Battery.adc_cali_raw_to_voltage := fun raw => (ESP_OK, raw) |}.

(** An ADC that reads 1850 mV at the divider every time. *)
Definition steady_adc : Battery.hal :=
  {| Battery.gpio_config := ESP_OK;
     Battery.adc_oneshot_new_unit := ESP_OK;
     Battery.adc_oneshot_config_channel := ESP_OK;
     Battery.adc_cali_create_scheme := Some ESP_OK;
     Battery.adc_oneshot_read := fun _ => (ESP_OK, 1850);
     Battery.adc_cali_raw_to_voltage := fun raw => (ESP_OK, raw) |}.

(** The monitor after a sample of 3700 mV. *)
Definition charged : Battery.state :=
  {| Battery.adc_calibrated := true;
     Battery.last_voltage_mv := 3700;
     Battery.last_percentage := 66;
     Battery.gate := false;
     Battery.gate_writes := [];
     Battery.adc_reads := 0%nat |}.

(** A GPIO driver on which every call succeeds. *)
Definition gpio_ok : Anemometer.hal :=
  {| Anemometer.gpio_config := ESP_OK;
     Anemometer.gpio_install_isr_service := ESP_OK;
     Anemometer.gpio_isr_handler_add := ESP_OK |}.

(** A DPS368 on the bus: every transfer succeeds and every register
    reads 0x10, the product ID. *)
Definition dps368_present : Dps368.hal :=
  {| Dps368.i2c_bus_device_create := true;
     Dps368.i2c_bus_read_bytes := fun _ _ => (ESP_OK, fun _ => 0x10);
     Dps368.i2c_bus_write_byte := fun _ _ => ESP_OK |}.

(** A device at the BME280 address that answers every call and whose
    chip-ID register reads [id]: 0x60 is a BME280, 0x58 a BMP280 and
    0x61 a BME680. *)
Definition chip (id : Z) : Bme280App.hal :=
  {| Bme280App.bme280_create := true;
     Bme280App.i2c_bus_read_byte := fun _ => (ESP_OK, id);
     Bme280App.bme280_set_sampling := ESP_OK;
     Bme280App.bme280_read_coefficients := ESP_OK |}.

End Boards.

(** ** More of esp_err.h and of binary32 *)

Module EspCodes.
Import Esp.

Definition ESP_ERR_NOT_FOUND : esp_err_t := 0x105.
Definition ESP_ERR_INVALID_CRC : esp_err_t := 0x109.

End EspCodes.

Module Float32Arith.
Import Float32.

Definition add : float -> float -> float := SFadd prec emax.
Definition sub : float -> float -> float := SFsub prec emax.
Definition opp : float -> float := SFopp.

(** [x < y] and [x <= y] as C compares: false when either is a NaN. *)
Definition ltb : float -> float -> bool := SFltb.
Definition leb : float -> float -> bool := SFleb.

Definition is_nan (x : float) : bool :=
  match x with
  | S754_nan => true
  | _ => false
  end.

(** [x] times [2 ^ k], when [x] is finite and that is an integer. *)
Definition scaled (k : Z) (x : float) : option Z :=
  match x with
  | S754_zero _ => Some 0
  | S754_finite s m e =>
      let v := if s then Z.neg m else Z.pos m in
      if 0 <=? e + k then Some (v * 2 ^ (e + k))
      else if v mod 2 ^ (- (e + k)) =? 0 then Some (v / 2 ^ (- (e + k)))
      else None
  | _ => None
  end.

(** [x] is zero, a positive finite number or plus infinity. *)
Definition nonnegative (x : float) : bool :=
  match x with
  | S754_zero false | S754_finite false _ _ | S754_infinity false => true
  | _ => false
  end.

(** The same float, bit for bit. *)
Definition same (x y : float) : bool :=
  match x, y with
  | S754_zero s, S754_zero s' => Bool.eqb s s'
  | S754_infinity s, S754_infinity s' => Bool.eqb s s'
  | S754_nan, S754_nan => true
  | S754_finite s m e, S754_finite s' m' e' =>
      Bool.eqb s s' && Pos.eqb m m' && Z.eqb e e'
  | _, _ => false
  end.

(** [p z] for the [count] integers from [z] on. *)
Fixpoint all_from (count : nat) (z : Z) (p : Z -> bool) : bool :=
  match count with
  | O => true
  | S k => p z && all_from k (z + 1) p
  end.

End Float32Arith.

(** ** DPS368: readings (dps368.c) *)

Module Dps368Read.
Import CInt Esp Float32 Float32Arith Dps368.

Definition DPS368_REG_PSR_B2 : Z := 0x00.
Definition DPS368_REG_TMP_B2 : Z := 0x03.

(** The three bytes of a reading as a signed 24-bit value. *)
Definition raw24 (data : nat -> Z) : Z :=
  sign_extend 0x800000 0x1000000
    (int32 (Z.lor (Z.lor (uint32 (Z.shiftl (uint32 (data 0%nat)) 16))
                         (uint32 (Z.shiftl (uint32 (data 1%nat)) 8)))
                  (uint32 (data 2%nat)))).

Section Driver.
Variable io : hal.

(** [temperature] is the caller's cell, [None] for a null pointer. *)
Definition dps368_read_temperature (temperature : option float) (st : state)
  : esp_err_t * option float :=
  match temperature with
  | None => (ESP_ERR_INVALID_ARG, None)
  | Some _ =>
      if negb (dps368_dev st) then (ESP_ERR_INVALID_ARG, temperature) else
      if negb (calibrated st) then (ESP_ERR_INVALID_STATE, temperature) else
      let '(ret, data) := dps368_read_reg io DPS368_REG_TMP_B2 3 in
      if negb (ret =? ESP_OK) then (ret, temperature) else
      let temp_raw := raw24 data in
      let temp_scaled := div (of_int temp_raw) (of_int 524288) in
      (ESP_OK,
       Some (add (mul (of_int (c0 (coef st))) (literal 5 10))
                 (mul (of_int (c1 (coef st))) temp_scaled)))
  end.

Definition dps368_read_pressure (pressure : option float) (st : state)
  : esp_err_t * option float :=
  match pressure with
  | None => (ESP_ERR_INVALID_ARG, None)
  | Some _ =>
      if negb (dps368_dev st) then (ESP_ERR_INVALID_ARG, pressure) else
      if negb (calibrated st) then (ESP_ERR_INVALID_STATE, pressure) else
      let '(ret, prs_data) := dps368_read_reg io DPS368_REG_PSR_B2 3 in
      if negb (ret =? ESP_OK) then (ret, pressure) else
      let '(ret, tmp_data) := dps368_read_reg io DPS368_REG_TMP_B2 3 in
      if negb (ret =? ESP_OK) then (ret, pressure) else
      let prs_raw := raw24 prs_data in
      let tmp_raw := raw24 tmp_data in
      let prs_scaled := div (of_int prs_raw) (of_int 253952) in
      let tmp_scaled := div (of_int tmp_raw) (of_int 524288) in
      let c := coef st in
      let prs_comp :=
        add (add (add (of_int (c00 c))
                      (mul prs_scaled
                           (add (of_int (c10 c))
                                (mul prs_scaled
                                     (add (of_int (c20 c))
                                          (mul prs_scaled (of_int (c30 c))))))))
                 (mul tmp_scaled (of_int (c01 c))))
            (mul (mul tmp_scaled prs_scaled)
                 (add (of_int (c11 c)) (mul prs_scaled (of_int (c21 c))))) in
      (ESP_OK, Some (div prs_comp (of_int 100)))
  end.

Definition dps368_trigger_measurement : esp_err_t := ESP_OK.

(** The eighteen coefficient bytes the device answers with. *)
Definition coefficient_bytes : nat -> Z :=
  snd (dps368_read_reg io DPS368_REG_COEF 18).

End Driver.

(** The value of the low [bits] bits of [raw] in two's complement. *)
Definition signed (bits raw : Z) : Z :=
  if raw <? 2 ^ (bits - 1) then raw else raw - 2 ^ bits.

End Dps368Read.

(** ** AS5600 wind vane (as5600.c) *)

Module As5600.
Import CInt Esp Float32 Float32Arith.

Definition AS5600_REG_STATUS : Z := 0x0B.
Definition AS5600_REG_ANGLE_H : Z := 0x0E.

Definition AS5600_STATUS_MH : Z := Z.shiftl 1 3.
Definition AS5600_STATUS_ML : Z := Z.shiftl 1 4.
Definition AS5600_STATUS_MD : Z := Z.shiftl 1 5.

Definition WIND_DIRECTION_OFFSET_DEG : float := zero.

(** The lines as5600_init logs. *)
Inductive log_line :=
| ErrCreate
| ErrStatusRead
| WarnNotDetected (status : Z)
| WarnTooStrong (status : Z)
| WarnTooWeak (status : Z)
| InfoFieldOk
| InfoInitialized.

(** [as5600_dev] is [true] for a handle that is not null. *)
Record state := {
  as5600_dev : bool;
  log : list log_line
}.

Definition boot : state := {| as5600_dev := false; log := [] |}.

Record hal := {
  i2c_bus_device_create : bool;
  i2c_bus_read_bytes : Z -> nat -> esp_err_t * (nat -> Z)
}.

Definition set_dev (h : bool) (st : state) : state :=
  {| as5600_dev := h; log := log st |}.

Definition esp_log (l : log_line) (st : state) : state :=
  {| as5600_dev := as5600_dev st; log := log st ++ [l] |}.

Section Driver.
Variable io : hal.
Local Open Scope body_scope.

Definition as5600_read_reg (reg : Z) (len : nat) : esp_err_t * (nat -> Z) :=
  let '(r, data) := i2c_bus_read_bytes io reg len in
  (r, fun i => uint8 (data i)).

Definition as5600_init_body (i2c_bus : bool) : body state esp_err_t :=
  (if negb i2c_bus then leave ESP_ERR_INVALID_ARG else ret tt) ;;
  modify (set_dev (i2c_bus_device_create io)) ;;
  st <- get ;;
  (if negb (as5600_dev st)
   then modify (esp_log ErrCreate) ;; leave ESP_FAIL
   else ret tt) ;;
  let '(r, data) := as5600_read_reg AS5600_REG_STATUS 1 in
  (if negb (r =? ESP_OK)
   then modify (esp_log ErrStatusRead) ;; leave r
   else ret tt) ;;
  let status := data 0%nat in
  (if Z.land status AS5600_STATUS_MD =? 0 then
     modify (esp_log (WarnNotDetected status))
   else if negb (Z.land status AS5600_STATUS_MH =? 0) then
     modify (esp_log (WarnTooStrong status))
   else if negb (Z.land status AS5600_STATUS_ML =? 0) then
     modify (esp_log (WarnTooWeak status))
   else
     modify (esp_log InfoFieldOk)) ;;
  modify (esp_log InfoInitialized) ;;
  ret ESP_OK.

Definition as5600_init (i2c_bus : bool) : state -> esp_err_t * state :=
  status (as5600_init_body i2c_bus).

(** [angle] is the caller's cell, [None] for a null pointer. *)
Definition as5600_read_angle_raw (angle : option Z) (st : state)
  : esp_err_t * option Z :=
  match angle with
  | None => (ESP_ERR_INVALID_ARG, None)
  | Some _ =>
      if negb (as5600_dev st) then (ESP_ERR_INVALID_ARG, angle) else
      let '(ret, data) := as5600_read_reg AS5600_REG_ANGLE_H 2 in
      if negb (ret =? ESP_OK) then (ret, angle) else
      let a := uint16 (Z.lor (Z.shiftl (uint16 (data 0%nat)) 8) (data 1%nat)) in
      let a := uint16 (Z.land a 0x0FFF) in
      (ESP_OK, Some a)
  end.

Definition as5600_read_angle_degrees (degrees : option float) (st : state)
  : esp_err_t * option float :=
  match degrees with
  | None => (ESP_ERR_INVALID_ARG, None)
  | Some _ =>
      match as5600_read_angle_raw (Some 0) st with
      | (ret, Some raw_angle) =>
          if negb (ret =? ESP_OK) then (ret, degrees) else
          (ESP_OK, Some (div (mul (of_int raw_angle) (of_int 360)) (of_int 4096)))
      | (ret, None) => (ret, degrees)
      end
  end.

(** [while ( *direction < 0) *direction += 360.0f;] with [fuel] tests
    of the condition left; [None] when they run out. *)
Fixpoint raise_from_negative (fuel : nat) (direction : float) : option float :=
  match fuel with
  | O => None
  | S fuel' =>
      if ltb direction (of_int 0)
      then raise_from_negative fuel' (add direction (of_int 360))
      else Some direction
  end.

(** [while ( *direction >= 360.0f) *direction -= 360.0f;] *)
Fixpoint lower_from_360 (fuel : nat) (direction : float) : option float :=
  match fuel with
  | O => None
  | S fuel' =>
      if leb (of_int 360) direction
      then lower_from_360 fuel' (sub direction (of_int 360))
      else Some direction
  end.

(** [None] when a loop does not end within [fuel] tests. *)
Definition as5600_get_wind_direction (fuel : nat) (direction : option float)
  (st : state) : option (esp_err_t * option float) :=
  match direction with
  | None => Some (ESP_ERR_INVALID_ARG, None)
  | Some _ =>
      match as5600_read_angle_degrees (Some zero) st with
      | (ret, Some angle_deg) =>
          if negb (ret =? ESP_OK) then Some (ret, direction) else
          let d := add angle_deg WIND_DIRECTION_OFFSET_DEG in
          match raise_from_negative fuel d with
          | None => None
          | Some d =>
              match lower_from_360 fuel d with
              | None => None
              | Some d => Some (ESP_OK, Some d)
              end
          end
      | (ret, None) => Some (ret, direction)
      end
  end.

Definition as5600_check_magnet (detected : option bool) (st : state)
  : esp_err_t * option bool :=
  match detected with
  | None => (ESP_ERR_INVALID_ARG, None)
  | Some _ =>
      if negb (as5600_dev st) then (ESP_ERR_INVALID_ARG, detected)
      else (ESP_OK, Some true)
  end.

(** The twelve angle bits the device answers with. *)
Definition angle_bits : Z :=
  let data := snd (as5600_read_reg AS5600_REG_ANGLE_H 2) in
  (data 0%nat * 256 + data 1%nat) mod 4096.

End Driver.

(** The degrees as5600_read_angle_degrees makes of a raw angle. *)
Definition degrees_of (raw_angle : Z) : float :=
  div (mul (of_int raw_angle) (of_int 360)) (of_int 4096).

(** What holds of the degrees of one raw angle: they are exactly
    [raw_angle * 360 / 4096], within [0, 360), and adding the offset
    0.0f changes nothing. *)
Definition degrees_checked (raw_angle : Z) : bool :=
  let x := degrees_of raw_angle in
  match scaled 12 x with
  | Some v => v =? raw_angle * 360
  | None => false
  end
  && leb (of_int 0) x && ltb x (of_int 360)
  && negb (ltb x (of_int 0)) && negb (leb (of_int 360) x)
  && same (add x WIND_DIRECTION_OFFSET_DEG) x.

(** The line as5600_init logs for a status byte is "field strength OK"
    exactly when, of the bits MD, ML and MH, only MD is set. *)
Definition field_ok_checked (status : Z) : bool :=
  Bool.eqb
    (negb (Z.land status AS5600_STATUS_MD =? 0)
     && (Z.land status AS5600_STATUS_MH =? 0)
     && (Z.land status AS5600_STATUS_ML =? 0))
    (Z.land status 0x38 =? 0x20).

End As5600.

(** ** SHT41 temperature and humidity sensor (sht41.c) *)

Module Sht41.
Import CInt Esp EspCodes Float32 Float32Arith.

Definition SHT41_CMD_MEASURE_HIGH_PRECISION : Z := 0xFD.
Definition SHT41_CMD_SOFT_RESET : Z := 0x94.

(** A value of a uint8_t. *)
Definition byte (b : Z) : Prop := 0 <= b < 256.

(** One turn of the inner loop of sht41_crc8. *)
Definition crc8_bit (crc : Z) : Z :=
  if negb (Z.land crc 0x80 =? 0)
  then uint8 (Z.lxor (Z.shiftl crc 1) 0x31)
  else uint8 (Z.shiftl crc 1).

(** One turn of the outer loop: a byte goes in. *)
Definition crc8_byte (crc byte : Z) : Z :=
  Nat.iter 8 crc8_bit (Z.lxor crc byte).

Definition sht41_crc8 (data : list Z) : Z :=
  fold_left crc8_byte data 0xFF.

(** One turn of the inner loop undone: the low bit of its result
    tells which branch was taken. *)
Definition crc8_unbit (crc : Z) : Z :=
  if Z.testbit crc 0
  then Z.shiftr (Z.lxor crc 0x31) 1 + 0x80
  else Z.shiftr crc 1.

(** [s_dev] is [true] for a handle that is not null; [handles] counts
    the device handles created and not deleted. *)
Record state := {
  s_dev : bool;
  s_last_temperature : float;
  s_last_humidity : float;
  handles : nat
}.

Definition boot : state :=
  {| s_dev := false; s_last_temperature := zero; s_last_humidity := zero;
     handles := 0%nat |}.

(** What the i2c_bus component comes back with: whether a device
    handle is created, the status of the write of a command byte, the
    status of a read of [len] bytes with the buffer it fills. *)
Record hal := {
  i2c_bus_device_create : bool;
  i2c_bus_write_bytes : Z -> esp_err_t;
  i2c_bus_read_bytes : nat -> esp_err_t * (nat -> Z)
}.

Definition set_s_dev (h : bool) (st : state) : state :=
  {| s_dev := h; s_last_temperature := s_last_temperature st;
     s_last_humidity := s_last_humidity st; handles := handles st |}.

Definition set_handles (n : nat) (st : state) : state :=
  {| s_dev := s_dev st; s_last_temperature := s_last_temperature st;
     s_last_humidity := s_last_humidity st; handles := n |}.

Definition set_last (t h : float) (st : state) : state :=
  {| s_dev := s_dev st; s_last_temperature := t;
     s_last_humidity := h; handles := handles st |}.

Definition i2c_bus_device_delete (st : state) : state :=
  set_handles (Nat.pred (handles st)) st.

(** Lines 114-115 and 118-119: the two conversions. *)
Definition temperature_of (temp_raw : Z) : float :=
  add (opp (of_int 45))
      (mul (of_int 175) (div (of_int temp_raw) (of_int 65535))).

Definition humidity_of (hum_raw : Z) : float :=
  add (opp (of_int 6))
      (mul (of_int 125) (div (of_int hum_raw) (of_int 65535))).

(** Lines 122-123: the clamp to 0 .. 100. *)
Definition clamp_humidity (h : float) : float :=
  let h := if ltb h (of_int 0) then of_int 0 else h in
  if ltb (of_int 100) h then of_int 100 else h.

Section Driver.
Variable io : hal.
Local Open Scope body_scope.

Definition sht41_init_body (i2c_bus : bool) : body state esp_err_t :=
  (if negb i2c_bus then leave ESP_ERR_INVALID_ARG else ret tt) ;;
  let dev := i2c_bus_device_create io in
  (if negb dev then leave ESP_ERR_NOT_FOUND else ret tt) ;;
  st <- get ;;
  modify (set_handles (S (handles st))) ;;
  (let r := i2c_bus_write_bytes io SHT41_CMD_SOFT_RESET in
   if negb (r =? ESP_OK)
   then modify i2c_bus_device_delete ;; leave ESP_ERR_NOT_FOUND
   else ret tt) ;;
  (let r := i2c_bus_write_bytes io SHT41_CMD_MEASURE_HIGH_PRECISION in
   if negb (r =? ESP_OK)
   then modify i2c_bus_device_delete ;; leave ESP_ERR_NOT_FOUND
   else ret tt) ;;
  modify (set_s_dev dev) ;;
  ret ESP_OK.

Definition sht41_init (i2c_bus : bool) : state -> esp_err_t * state :=
  status (sht41_init_body i2c_bus).

Definition sht41_trigger_measurement_body : body state esp_err_t :=
  st <- get ;;
  (if negb (s_dev st) then leave ESP_ERR_NOT_FOUND else ret tt) ;;
  check (i2c_bus_write_bytes io SHT41_CMD_MEASURE_HIGH_PRECISION) ;;
  let '(r, data) := i2c_bus_read_bytes io 6 in
  check r ;;
  let raw i := uint8 (data i) in
  let temp_crc := sht41_crc8 [raw 0%nat; raw 1%nat] in
  (if negb (temp_crc =? raw 2%nat) then leave ESP_ERR_INVALID_CRC else ret tt) ;;
  let hum_crc := sht41_crc8 [raw 3%nat; raw 4%nat] in
  (if negb (hum_crc =? raw 5%nat) then leave ESP_ERR_INVALID_CRC else ret tt) ;;
  let temp_raw := uint16 (Z.lor (Z.shiftl (raw 0%nat) 8) (raw 1%nat)) in
  let hum_raw := uint16 (Z.lor (Z.shiftl (raw 3%nat) 8) (raw 4%nat)) in
  modify (set_last (temperature_of temp_raw)
                   (clamp_humidity (humidity_of hum_raw))) ;;
  ret ESP_OK.

Definition sht41_trigger_measurement : state -> esp_err_t * state :=
  status sht41_trigger_measurement_body.

(** The six bytes of a measurement, and the two 16-bit words in them. *)
Definition frame : nat -> Z := fun i => uint8 (snd (i2c_bus_read_bytes io 6) i).

Definition temp_word : Z :=
  uint16 (Z.lor (Z.shiftl (frame 0%nat) 8) (frame 1%nat)).

Definition hum_word : Z :=
  uint16 (Z.lor (Z.shiftl (frame 3%nat) 8) (frame 4%nat)).

End Driver.

(** [out_c] is the caller's cell, [None] for a null pointer. *)
Definition sht41_read_temperature (out_c : option float) (st : state)
  : esp_err_t * option float :=
  match out_c with
  | None => (ESP_ERR_INVALID_ARG, None)
  | Some _ =>
      if negb (s_dev st) then (ESP_ERR_NOT_FOUND, out_c)
      else (ESP_OK, Some (s_last_temperature st))
  end.

Definition sht41_read_humidity (out_percent : option float) (st : state)
  : esp_err_t * option float :=
  match out_percent with
  | None => (ESP_ERR_INVALID_ARG, None)
  | Some _ =>
      if negb (s_dev st) then (ESP_ERR_NOT_FOUND, out_percent)
      else (ESP_OK, Some (s_last_humidity st))
  end.

(** The calls of the driver that write its statics, each with what
    the bus does during it. *)
Inductive call :=
| Init (i2c_bus : bool)
| Trigger.

Definition step (st : state) (c : hal * call) : state :=
  match c with
  | (io, Init i2c_bus) => snd (sht41_init io i2c_bus st)
  | (io, Trigger) => snd (sht41_trigger_measurement io st)
  end.

Definition run (calls : list (hal * call)) (st : state) : state :=
  fold_left step calls st.

(** [h] is a number from 0 to 100. *)
Definition percent (h : float) : bool :=
  leb (of_int 0) h && leb h (of_int 100).

(** [t] is a temperature the sensor can report: from -45 to 130. *)
Definition sensor_range (t : float) : bool :=
  leb (opp (of_int 45)) t && leb t (of_int 130).

(** The temperature of one raw word is in the range of the sensor. *)
Definition temperature_checked (temp_raw : Z) : bool :=
  sensor_range (temperature_of temp_raw).

(** What every call keeps: the humidity is a percentage and the
    temperature is in the range of the sensor. *)
Definition plausible (st : state) : Prop :=
  percent (s_last_humidity st) = true /\
  sensor_range (s_last_temperature st) = true.

End Sht41.

(** ** VEML7700 light sensor (veml7700.c) *)

Module Veml7700.
Import CInt Esp Float32 Float32Arith.

Definition VEML7700_REG_ALS_CONF : Z := 0x00.
Definition VEML7700_REG_ALS : Z := 0x04.

Definition VEML7700_ALS_GAIN_1 : Z := 0x0000.
Definition VEML7700_ALS_IT_100MS : Z := 0x0000.
Definition VEML7700_ALS_PERS_1 : Z := 0x0000.
Definition VEML7700_ALS_SD : Z := 0x0001.

(** A write on the bus: the register and the two bytes sent. *)
Record transfer := {
  to_reg : Z;
  byte0 : Z;
  byte1 : Z
}.

(** [veml7700_dev] is [true] for a handle that is not null; [sent]
    holds the writes issued on the bus, oldest first. *)
Record state := {
  veml7700_dev : bool;
  current_resolution : float;
  sent : list transfer
}.

Definition boot : state :=
  {| veml7700_dev := false; current_resolution := literal 36 10000;
     sent := [] |}.

(** What the i2c_bus component comes back with: whether a device
    handle is created, the status of a write, the status of a read of
    two bytes at a register with the buffer it fills. *)
Record hal := {
  i2c_bus_device_create : bool;
  i2c_bus_write_bytes : transfer -> esp_err_t;
  i2c_bus_read_bytes : Z -> esp_err_t * (nat -> Z)
}.

Definition set_dev (h : bool) (st : state) : state :=
  {| veml7700_dev := h; current_resolution := current_resolution st;
     sent := sent st |}.

Definition set_resolution (r : float) (st : state) : state :=
  {| veml7700_dev := veml7700_dev st; current_resolution := r;
     sent := sent st |}.

Definition send (t : transfer) (st : state) : state :=
  {| veml7700_dev := veml7700_dev st;
     current_resolution := current_resolution st;
     sent := sent st ++ [t] |}.

(** The two bytes of veml7700_write_reg, low byte first. *)
Definition word_bytes (reg value : Z) : transfer :=
  {| to_reg := reg;
     byte0 := uint8 (Z.land value 0xFF);
     byte1 := uint8 (Z.land (Z.shiftr value 8) 0xFF) |}.

(** The buffer a read fills when the device answers with the two
    bytes of a transfer. *)
Definition answer (t : transfer) : nat -> Z :=
  fun i => match i with
           | O => byte0 t
           | _ => byte1 t
           end.

(** The word veml7700_read_reg makes of two bytes. *)
Definition bytes_word (data : nat -> Z) : Z :=
  uint16 (Z.lor (uint8 (data 0%nat)) (Z.shiftl (uint8 (data 1%nat)) 8)).

Section Driver.
Variable io : hal.
Local Open Scope body_scope.

Definition veml7700_write_reg (reg value : Z) : body state esp_err_t :=
  modify (send (word_bytes reg value)) ;;
  ret (i2c_bus_write_bytes io (word_bytes reg value)).

(** The status, and the word stored through the pointer when the
    status is ESP_OK. *)
Definition veml7700_read_reg (reg : Z) : esp_err_t * option Z :=
  let '(r, data) := i2c_bus_read_bytes io reg in
  if r =? ESP_OK then (r, Some (bytes_word data)) else (r, None).

Definition veml7700_init_body (i2c_bus : bool) : body state esp_err_t :=
  (if negb i2c_bus then leave ESP_ERR_INVALID_ARG else ret tt) ;;
  modify (set_dev (i2c_bus_device_create io)) ;;
  st <- get ;;
  (if negb (veml7700_dev st) then leave ESP_FAIL else ret tt) ;;
  let config :=
    uint16 (Z.lor (Z.lor VEML7700_ALS_GAIN_1 VEML7700_ALS_IT_100MS)
                  VEML7700_ALS_PERS_1) in
  r <- veml7700_write_reg VEML7700_REG_ALS_CONF config ;;
  check r ;;
  modify (set_resolution (literal 36 10000)) ;;
  ret ESP_OK.

Definition veml7700_init (i2c_bus : bool) : state -> esp_err_t * state :=
  status (veml7700_init_body i2c_bus).

(** [als_raw] is the caller's cell, [None] for a null pointer. *)
Definition veml7700_read_als_raw (als_raw : option Z) (st : state)
  : esp_err_t * option Z :=
  match als_raw with
  | None => (ESP_ERR_INVALID_ARG, None)
  | Some _ =>
      if negb (veml7700_dev st) then (ESP_ERR_INVALID_ARG, als_raw) else
      match veml7700_read_reg VEML7700_REG_ALS with
      | (r, Some v) => (r, Some v)
      | (r, None) => (r, als_raw)
      end
  end.

Definition veml7700_read_lux (lux : option float) (st : state)
  : esp_err_t * option float :=
  match lux with
  | None => (ESP_ERR_INVALID_ARG, None)
  | Some _ =>
      match veml7700_read_als_raw (Some 0) st with
      | (ret, Some als_raw) =>
          if negb (ret =? ESP_OK) then (ret, lux) else
          (ESP_OK, Some (mul (of_int als_raw) (current_resolution st)))
      | (ret, None) => (ret, lux)
      end
  end.

Definition veml7700_power_down_body : body state esp_err_t :=
  st <- get ;;
  (if negb (veml7700_dev st) then leave ESP_ERR_INVALID_STATE else ret tt) ;;
  match veml7700_read_reg VEML7700_REG_ALS_CONF with
  | (r, None) => leave r
  | (_, Some config) =>
      let config := uint16 (Z.lor config VEML7700_ALS_SD) in
      veml7700_write_reg VEML7700_REG_ALS_CONF config
  end.

Definition veml7700_power_down : state -> esp_err_t * state :=
  status veml7700_power_down_body.

Definition veml7700_power_up_body : body state esp_err_t :=
  st <- get ;;
  (if negb (veml7700_dev st) then leave ESP_ERR_INVALID_STATE else ret tt) ;;
  match veml7700_read_reg VEML7700_REG_ALS_CONF with
  | (r, None) => leave r
  | (_, Some config) =>
      let config := uint16 (Z.land config (Z.lnot VEML7700_ALS_SD)) in
      veml7700_write_reg VEML7700_REG_ALS_CONF config
  end.

Definition veml7700_power_up : state -> esp_err_t * state :=
  status veml7700_power_up_body.

(** The configuration word the device answers with. *)
Definition configuration : Z :=
  bytes_word (snd (i2c_bus_read_bytes io VEML7700_REG_ALS_CONF)).

End Driver.

(** The calls of the driver that write its statics, each with what
    the bus does during it. *)
Inductive call :=
| Init (i2c_bus : bool)
| PowerDown
| PowerUp.

Definition step (st : state) (c : hal * call) : state :=
  match c with
  | (io, Init i2c_bus) => snd (veml7700_init io i2c_bus st)
  | (io, PowerDown) => snd (veml7700_power_down io st)
  | (io, PowerUp) => snd (veml7700_power_up io st)
  end.

Definition run (calls : list (hal * call)) (st : state) : state :=
  fold_left step calls st.

(** The last write issued on the bus. *)
Definition last_sent (st : state) : option transfer := last (map Some (sent st)) None.

End Veml7700.

(** ** Sample devices *)

Module Bench.
Import Esp.

(** A device at the DPS368 address that answers every transfer and
    whose registers all read 0x00: not a DPS368. *)
Definition not_a_dps368 : Dps368.hal :=
  {| Dps368.i2c_bus_device_create := true;
     Dps368.i2c_bus_read_bytes := fun _ _ => (ESP_OK, fun _ => 0x00);
     Dps368.i2c_bus_write_byte := fun _ _ => ESP_OK |}.

(** A wind vane whose status register reads [status] and whose angle
    registers read [hi] and [lo]. *)
Definition vane (status hi lo : Z) : As5600.hal :=
  {| As5600.i2c_bus_device_create := true;
     As5600.i2c_bus_read_bytes :=
       fun reg _ =>
         (ESP_OK,
          fun i => if reg =? As5600.AS5600_REG_STATUS then status
                   else match i with
                        | O => hi
                        | _ => lo
                        end) |}.

(** An SHT41 that takes every command and answers a read with the
    bytes of [data]. *)
Definition sht41_answering (data : list Z) : Sht41.hal :=
  {| Sht41.i2c_bus_device_create := true;
     Sht41.i2c_bus_write_bytes := fun _ => ESP_OK;
     Sht41.i2c_bus_read_bytes := fun _ => (ESP_OK, fun i => nth i data 0) |}.

(** The data sheet's example: the word 0xBEEF has the checksum 0x92. *)
Definition beef : list Z := [0xBE; 0xEF; 0x92; 0xBE; 0xEF; 0x92].

(** The same frame with one bit of its second byte flipped. *)
Definition bent_beef : list Z := [0xBE; 0xEE; 0x92; 0xBE; 0xEF; 0x92].

(** A VEML7700 that takes every write and whose registers all read
    [word]. *)
Definition light (word : Z) : Veml7700.hal :=
  {| Veml7700.i2c_bus_device_create := true;
     Veml7700.i2c_bus_write_bytes := fun _ => ESP_OK;
     Veml7700.i2c_bus_read_bytes :=
       fun reg => (ESP_OK, Veml7700.answer (Veml7700.word_bytes reg word)) |}.

(** An ADC with no calibration that reads 2296 at every conversion. *)
Definition raw_adc : Battery.hal :=
  {| Battery.gpio_config := ESP_OK;
     Battery.adc_oneshot_new_unit := ESP_OK;
     Battery.adc_oneshot_config_channel := ESP_OK;
     Battery.adc_cali_create_scheme := None;
     Battery.adc_oneshot_read := fun _ => (ESP_OK, 2296);
     Battery.adc_cali_raw_to_voltage := fun raw => (ESP_FAIL, 0) |}.

End Bench.

(** ** Battery monitor: the gate over time, the statics after a sample *)

Module GateHistory.
Import Battery.



(** The statics after a read that stored [mv]. *)
Definition sampled (mv : Z) (st : state) : state :=
  set_last mv (battery_voltage_to_percentage mv)
    (gpio_set_level false
       (count_read (count_read (count_read (gpio_set_level true st))))).

End GateHistory.

(** * Properties *)

(** ** C integer types *)

Module CIntFacts.
Import CInt.

Lemma uint8_small z : 0 <= z < 256 -> uint8 z = z.
Proof. intros H. unfold uint8. apply Z.mod_small. lia. Qed.

Lemma uint8_range z : 0 <= uint8 z < 256.
Proof. unfold uint8. apply Z.mod_pos_bound. lia. Qed.

Lemma uint32_small z : 0 <= z < 2 ^ 32 -> uint32 z = z.
Proof. intros H. unfold uint32. apply Z.mod_small. lia. Qed.

Lemma uint32_range z : 0 <= uint32 z < 2 ^ 32.
Proof. unfold uint32. apply Z.mod_pos_bound. lia. Qed.

Lemma int64_small z : - 2 ^ 63 <= z < 2 ^ 63 -> int64 z = z.
Proof.
  intros H. unfold int64, sint.
  rewrite Z.mod_small; lia.
Qed.

End CIntFacts.

(** ** binary32: rounding keeps a positive number positive *)

Module Float32Facts.
Import Float32.

Lemma digits_bounds m : 2 ^ (digits m - 1) <= Zpos m < 2 ^ digits m.
Proof.
  unfold digits.
  induction m as [m IH|m IH|]; cbn [digits2_pos].
  - rewrite Pos2Z.inj_succ.
    replace (Z.succ (Zpos (digits2_pos m)) - 1)
      with (Z.succ (Zpos (digits2_pos m) - 1)) by lia.
    rewrite !Z.pow_succ_r by lia. lia.
  - rewrite Pos2Z.inj_succ.
    replace (Z.succ (Zpos (digits2_pos m)) - 1)
      with (Z.succ (Zpos (digits2_pos m) - 1)) by lia.
    rewrite !Z.pow_succ_r by lia. lia.
  - simpl. lia.
Qed.

Lemma digits_pos m : 1 <= digits m.
Proof. unfold digits. lia. Qed.

Lemma digits_lower m k : 0 <= k -> 2 ^ k <= Zpos m -> k + 1 <= digits m.
Proof.
  intros Hk H.
  destruct (Z.le_gt_cases (k + 1) (digits m)) as [|G]; [assumption|].
  exfalso.
  pose proof (digits_bounds m) as [_ B].
  assert (2 ^ digits m <= 2 ^ k) by (apply Z.pow_le_mono_r; lia).
  lia.
Qed.

Lemma shr_1_half mrs : 0 <= shr_m mrs -> shr_m (shr_1 mrs) = shr_m mrs / 2.
Proof.
  destruct mrs as [m r s]. simpl. intros H.
  destruct m as [|p|p]; [reflexivity| |lia].
  destruct p as [p|p|]; simpl.
  - rewrite Pos2Z.inj_xI. apply Z.div_unique with 1; lia.
  - rewrite Pos2Z.inj_xO. apply Z.div_unique with 0; lia.
  - reflexivity.
Qed.

Lemma shr_1_nonneg mrs : 0 <= shr_m mrs -> 0 <= shr_m (shr_1 mrs).
Proof.
  intros H. rewrite shr_1_half by assumption. apply Z.div_pos; lia.
Qed.

Lemma iter_shr_1 n : forall mrs,
  0 <= shr_m mrs ->
  shr_m (iter_pos shr_1 n mrs) = shr_m mrs / 2 ^ Zpos n.
Proof.
  assert (P : forall k, 0 < 2 ^ Zpos k) by (intros; apply Z.pow_pos_nonneg; lia).
  induction n as [n IH|n IH|]; intros mrs H; cbn [iter_pos].
  - pose proof (shr_1_nonneg mrs H) as H1.
    pose proof (IH _ H1) as E1.
    assert (H2 : 0 <= shr_m (iter_pos shr_1 n (shr_1 mrs))).
    { rewrite E1. apply Z.div_pos; [assumption | apply P]. }
    rewrite (IH _ H2), E1, shr_1_half by assumption.
    pose proof (P n).
    rewrite !Z.div_div by lia.
    f_equal.
    replace (Zpos n~1) with (1 + Zpos n + Zpos n) by lia.
    rewrite !Z.pow_add_r, Z.pow_1_r by lia. ring.
  - pose proof (IH _ H) as E1.
    assert (H2 : 0 <= shr_m (iter_pos shr_1 n mrs)).
    { rewrite E1. apply Z.div_pos; [assumption | apply P]. }
    rewrite (IH _ H2), E1.
    pose proof (P n).
    rewrite !Z.div_div by lia.
    f_equal.
    replace (Zpos n~0) with (Zpos n + Zpos n) by lia.
    rewrite !Z.pow_add_r by lia. ring.
  - rewrite shr_1_half by assumption. reflexivity.
Qed.

Lemma fexp_eq x : fexp prec emax x = Z.max (x - 24) (-149).
Proof. reflexivity. Qed.

(** Shifting to the exponent of the format keeps a positive mantissa
    positive and the magnitude at least [L], when [L] is above the
    smallest exponent. *)
Lemma shr_fexp_keeps (m : positive) (e : Z) (l : location) (L : Z) :
  -149 < L -> L <= digits m + e ->
  exists m' e',
    shr_m (fst (shr_fexp prec emax (Zpos m) e l)) = Zpos m' /\
    snd (shr_fexp prec emax (Zpos m) e l) = e' /\
    L <= digits m' + e'.
Proof.
  intros HL Hm.
  unfold shr_fexp. rewrite fexp_eq.
  cbn [Zdigits2]. fold (digits m).
  set (n := Z.max (digits m + e - 24) (-149) - e).
  assert (Hn : n <= digits m - 1) by (unfold n; lia).
  assert (R : shr_m (shr_record_of_loc (Zpos m) l) = Zpos m).
  { destruct l as [|[| |]]; reflexivity. }
  unfold shr.
  destruct n as [|p|p] eqn:En.
  - exists m, e. simpl. auto.
  - cbn [fst snd].
    rewrite iter_shr_1 by (rewrite R; lia).
    rewrite R.
    pose proof (digits_bounds m) as [B _].
    assert (Q : 2 ^ (digits m - 1 - Zpos p) <= Zpos m / 2 ^ Zpos p).
    { apply Z.div_le_lower_bound; [apply Z.pow_pos_nonneg; lia|].
      rewrite <- Z.pow_add_r by lia.
      replace (Zpos p + (digits m - 1 - Zpos p)) with (digits m - 1) by lia.
      exact B. }
    assert (0 < 2 ^ (digits m - 1 - Zpos p)) by (apply Z.pow_pos_nonneg; lia).
    destruct (Zpos m / 2 ^ Zpos p) as [|q|q] eqn:Eq; [lia| |lia].
    exists q, (e + Zpos p). split; [reflexivity|]. split; [reflexivity|].
    pose proof (@digits_lower q (digits m - 1 - Zpos p) ltac:(lia) Q).
    lia.
  - exists m, e. simpl. auto.
Qed.

Lemma round_nearest_even_pos (m : positive) (l : location) :
  exists m', round_nearest_even (Zpos m) l = Zpos m' /\ digits m <= digits m'.
Proof.
  assert (S : digits m <= digits (m + 1)).
  { pose proof (digits_bounds m) as [B _].
    pose proof (@digits_lower (m + 1) (digits m - 1)
                  ltac:(pose proof (digits_pos m); lia) ltac:(lia)).
    lia. }
  destruct l as [|[| |]]; simpl.
  - exists m. split; [reflexivity | lia].
  - destruct m; simpl; eexists; (split; [reflexivity|]); try lia.
    + exact S.
    + exact S.
  - exists m. split; [reflexivity | lia].
  - exists (m + 1)%positive. split; [reflexivity | exact S].
Qed.

(** Rounding a positive number whose magnitude is at least [L], above
    the smallest exponent, gives a positive number of magnitude at least
    [L], or overflows to infinity; it never gives zero or NaN. *)
Lemma binary_round_aux_keeps (m : positive) (e : Z) (l : location) (L : Z) :
  -149 < L -> L <= digits m + e ->
  positive_at_least L (binary_round_aux prec emax false (Zpos m) e l).
Proof.
  intros HL Hm.
  unfold binary_round_aux.
  destruct (@shr_fexp_keeps m e l L HL Hm) as (m1 & e1 & E1 & F1 & B1).
  destruct (shr_fexp prec emax (Zpos m) e l) as [mrs1 e1'].
  cbn [fst snd] in E1, F1. subst e1'. rewrite E1.
  destruct (@round_nearest_even_pos m1 (loc_of_shr_record mrs1)) as (m2 & E2 & B2).
  rewrite E2.
  destruct (@shr_fexp_keeps m2 e1 loc_Exact L HL ltac:(lia)) as (m3 & e3 & E3 & F3 & B3).
  destruct (shr_fexp prec emax (Zpos m2) e1 loc_Exact) as [mrs3 e3'].
  cbn [fst snd] in E3, F3. subst e3'. rewrite E3.
  destruct (Z.leb e3 (emax - prec)); simpl; auto.
Qed.

Lemma iter_xO (m d : positive) : Zpos (Pos.iter xO m d) = Zpos m * 2 ^ Zpos d.
Proof.
  induction d as [|d IH] using Pos.peano_ind.
  - simpl. lia.
  - rewrite Pos.iter_succ, Pos2Z.inj_xO, IH, Pos2Z.inj_succ, Z.pow_succ_r by lia.
    ring.
Qed.

Lemma shl_align_keeps (m : positive) (e e' : Z) :
  digits m + e <= digits (fst (shl_align m e e')) + snd (shl_align m e e').
Proof.
  unfold shl_align.
  destruct (e' - e) as [|d|d] eqn:E; cbn [fst snd]; try lia.
  pose proof (digits_bounds m) as [B _].
  pose proof (digits_pos m).
  assert (Q : 2 ^ (digits m - 1 + Zpos d) <= Zpos (Pos.iter xO m d)).
  { rewrite iter_xO, Z.pow_add_r by lia.
    apply Z.mul_le_mono_nonneg_r; [apply Z.pow_nonneg; lia | exact B]. }
  pose proof (@digits_lower (Pos.iter xO m d) (digits m - 1 + Zpos d)
                ltac:(lia) Q) as K.
  change (PosDef.Pos.iter xO m d) with (Pos.iter xO m d).
  lia.
Qed.

(** A positive integer converts to a number that is at least 1. *)
Lemma of_int_keeps (p : positive) : positive_at_least 1 (of_int (Zpos p)).
Proof.
  unfold of_int, binary_normalize, binary_round.
  pose proof (@shl_align_keeps p 0 (fexp prec emax (Zpos (digits2_pos p) + 0))) as K.
  destruct (shl_align p 0 (fexp prec emax (Zpos (digits2_pos p) + 0))) as [mz ez].
  cbn [fst snd] in K.
  apply binary_round_aux_keeps; [lia|].
  pose proof (digits_pos p). lia.
Qed.

(** Dividing by a positive finite number below [2 ^ U]. *)
Lemma div_keeps (x : float) (m2 : positive) (e2 L U : Z) :
  positive_at_least L x ->
  digits m2 + e2 <= U ->
  -125 <= L - U ->
  positive_at_least (L - U) (div x (S754_finite false m2 e2)).
Proof.
  intros Hx HU HL.
  destruct x as [s|s|
                 |s m1 e1]; cbn [positive_at_least] in Hx; try contradiction.
  - subst s. reflexivity.
  - destruct Hx as [-> Hx].
    unfold div, SFdiv, SFdiv_core_binary.
    cbn [Zdigits2 xorb]. fold (digits m1) (digits m2).
    rewrite fexp_eq.
    set (e' := Z.min (Z.max (digits m1 + e1 - (digits m2 + e2) - 24) (-149)) (e1 - e2)).
    set (s := e1 - e2 - e').
    assert (Hs : digits m2 - digits m1 + 24 <= s) by (unfold s, e'; lia).
    match goal with
    | |- context [IntDef.Z.div_eucl ?a _] => set (m' := a)
    end.
    assert (Em : m' = Zpos m1 * 2 ^ s).
    { unfold m'. destruct s as [|q|q] eqn:Es.
      - simpl. lia.
      - apply Z.shiftl_mul_pow2. lia.
      - lia. }
    clearbody m'.
    pose proof (digits_bounds m1) as [B1 _].
    pose proof (digits_bounds m2) as [_ B2].
    pose proof (digits_pos m1). pose proof (digits_pos m2).
    assert (Hq : 2 ^ (digits m1 - 1 + s - digits m2) <= m' / Zpos m2).
    { apply Z.div_le_lower_bound; [lia|].
      apply Z.le_trans with (2 ^ digits m2 * 2 ^ (digits m1 - 1 + s - digits m2)).
      - apply Z.mul_le_mono_nonneg_r; [apply Z.pow_nonneg; lia | lia].
      - rewrite <- Z.pow_add_r by lia.
        replace (digits m2 + (digits m1 - 1 + s - digits m2))
          with (digits m1 - 1 + s) by lia.
        rewrite Em, Z.pow_add_r by lia.
        apply Z.mul_le_mono_nonneg_r; [apply Z.pow_nonneg; lia | exact B1]. }
    assert (0 < 2 ^ (digits m1 - 1 + s - digits m2))
      by (apply Z.pow_pos_nonneg; lia).
    unfold Z.div in Hq.
    change (IntDef.Z.div_eucl m' (Zpos m2)) with (Z.div_eucl m' (Zpos m2)).
    destruct (Z.div_eucl m' (Zpos m2)) as [q r].
    destruct q as [|q|q]; [lia| |lia].
    apply binary_round_aux_keeps; [lia|].
    pose proof (@digits_lower q (digits m1 - 1 + s - digits m2) ltac:(lia) Hq).
    unfold s in *. lia.
Qed.

(** Multiplying a positive finite number by a positive one. *)
Lemma mul_keeps (m1 : positive) (e1 : Z) (y : float) (L1 L2 : Z) :
  L1 <= digits m1 + e1 ->
  positive_at_least L2 y ->
  -149 < L1 + L2 - 1 ->
  positive_at_least (L1 + L2 - 1) (mul (S754_finite false m1 e1) y).
Proof.
  intros H1 Hy HL.
  destruct y as [s|s|
                 |s m2 e2]; cbn [positive_at_least] in Hy; try contradiction.
  - subst s. reflexivity.
  - destruct Hy as [-> Hy].
    unfold mul, SFmul. cbn [xorb].
    apply binary_round_aux_keeps; [lia|].
    pose proof (digits_bounds m1) as [B1 _].
    pose proof (digits_bounds m2) as [B2 _].
    pose proof (digits_pos m1). pose proof (digits_pos m2).
    assert (Q : 2 ^ (digits m1 - 1 + (digits m2 - 1)) <= Zpos (m1 * m2)).
    { rewrite Z.pow_add_r, Pos2Z.inj_mul by lia.
      apply Z.mul_le_mono_nonneg; try (apply Z.pow_nonneg; lia); assumption. }
    pose proof (@digits_lower (m1 * m2) (digits m1 - 1 + (digits m2 - 1))
                  ltac:(lia) Q).
    lia.
Qed.

(** The literals of the drivers are the binary32 numbers a C compiler
    gives them. *)
Example literals :
  literal 7 100 = S754_finite false 9395241 (-27) /\
  literal 118 100 = S754_finite false 9898557 (-23) /\
  literal 314159 100000 = S754_finite false 13176784 (-22) /\
  of_int 1000000 = S754_finite false 16000000 (-4).
Proof. repeat split. Qed.

End Float32Facts.

(** ** Battery monitor *)

Module BatteryFacts.
Import CInt Esp Battery CIntFacts.

(** *** The percentage curve *)

Lemma percentage_between v :
  2700 < v < 4200 ->
  battery_voltage_to_percentage v = (v - 2700) * 100 / 1500.
Proof.
  intros H. unfold battery_voltage_to_percentage.
  destruct (Z.leb_spec v 2700); [lia|].
  destruct (Z.geb_spec v 4200); [lia|].
  replace (4200 - 2700) with 1500 by reflexivity.
  rewrite Z.quot_div_nonneg by lia.
  apply uint8_small.
  assert (0 <= (v - 2700) * 100 / 1500) by (apply Z.div_pos; lia).
  assert ((v - 2700) * 100 / 1500 < 100)
    by (apply Z.div_lt_upper_bound; lia).
  lia.
Qed.

Lemma percentage_low v : v <= 2700 -> battery_voltage_to_percentage v = 0.
Proof.
  intros H. unfold battery_voltage_to_percentage.
  destruct (Z.leb_spec v 2700); lia.
Qed.

Lemma percentage_high v : 4200 <= v -> battery_voltage_to_percentage v = 100.
Proof.
  intros H. unfold battery_voltage_to_percentage.
  destruct (Z.leb_spec v 2700); [lia|].
  destruct (Z.geb_spec v 4200); lia.
Qed.

Lemma percentage_range v : 0 <= battery_voltage_to_percentage v <= 100.
Proof.
  destruct (Z.le_gt_cases v 2700) as [Hlo|Hlo].
  { rewrite (percentage_low Hlo). lia. }
  destruct (Z.le_gt_cases 4200 v) as [Hhi|Hhi].
  { rewrite (percentage_high Hhi). lia. }
  rewrite percentage_between by lia.
  assert (0 <= (v - 2700) * 100 / 1500) by (apply Z.div_pos; lia).
  assert ((v - 2700) * 100 / 1500 < 100)
    by (apply Z.div_lt_upper_bound; lia).
  lia.
Qed.

Lemma percentage_monotone v1 v2 :
  v1 <= v2 ->
  battery_voltage_to_percentage v1 <= battery_voltage_to_percentage v2.
Proof.
  intros H.
  destruct (Z.le_gt_cases v1 2700) as [H1|H1].
  { rewrite (percentage_low H1). apply percentage_range. }
  destruct (Z.le_gt_cases 4200 v2) as [H2|H2].
  { rewrite (percentage_high H2). apply percentage_range. }
  rewrite !percentage_between by lia.
  apply Z.div_le_mono; lia.
Qed.

(** C3, as the code has it: at 3700 mV the interpolation
    (3700-2700)*100/(4200-2700) = 66.7 is cut down to 66 by the integer
    division; it is not rounded to 67. *)
Theorem percentage_3700_truncated :
  battery_voltage_to_percentage 3700 = 66 /\
  66 * (4200 - 2700) <= (3700 - 2700) * 100 < 67 * (4200 - 2700).
Proof. split; [reflexivity | lia]. Qed.

(** C3, as stated, fails: the percentage at 3700 mV is not 67. *)
Lemma percentage_3700_not_67 : battery_voltage_to_percentage 3700 <> 67.
Proof. discriminate. Qed.

(** C4: battery_voltage_to_percentage is a function of the voltage
    alone, monotonic non-decreasing; it is 0 up to 2700 mV, 100 from
    4200 mV on, and in between the linear interpolation
    (v-2700)*100/(4200-2700) in whole percent. *)
Theorem percentage_piecewise_linear_monotone :
  (forall v1 v2, v1 <= v2 ->
     battery_voltage_to_percentage v1 <= battery_voltage_to_percentage v2) /\
  (forall v, v <= 2700 -> battery_voltage_to_percentage v = 0) /\
  (forall v, 4200 <= v -> battery_voltage_to_percentage v = 100) /\
  (forall v, 2700 < v < 4200 ->
     let p := battery_voltage_to_percentage v in
     p = (v - 2700) * 100 / (4200 - 2700) /\
     p * (4200 - 2700) <= (v - 2700) * 100 < (p + 1) * (4200 - 2700)).
Proof.
  split; [exact percentage_monotone|].
  split; [exact percentage_low|].
  split; [exact percentage_high|].
  intros v H p. subst p.
  rewrite (percentage_between H).
  replace (4200 - 2700) with 1500 by reflexivity.
  split; [reflexivity|].
  pose proof (Z.div_mod ((v - 2700) * 100) 1500 ltac:(lia)) as E.
  pose proof (Z.mod_pos_bound ((v - 2700) * 100) 1500 ltac:(lia)) as B.
  lia.
Qed.

(** The curve at 2000, 3000, 3450, 3700 and 5000 mV. *)
Lemma percentage_piecewise_linear_monotone_witness :
  battery_voltage_to_percentage 3000 <= battery_voltage_to_percentage 3700 /\
  battery_voltage_to_percentage 2000 = 0 /\
  battery_voltage_to_percentage 5000 = 100 /\
  battery_voltage_to_percentage 3450 = 50.
Proof.
  destruct percentage_piecewise_linear_monotone as (Hm & Hlo & Hhi & Hmid).
  split; [apply Hm; lia|].
  split; [apply Hlo; lia|].
  split; [apply Hhi; lia|].
  destruct (Hmid 3450 ltac:(lia)) as (E & _).
  exact E.
Defined.

(** *** battery_read_voltage *)

Lemma sample_loop_exits io todo : forall sum st,
  match sample_loop io todo sum st with
  | (inl r, st') =>
      r <> ESP_OK /\ gate st' = false /\
      gate_writes st' = gate_writes st ++ [false] /\ same_sample st st'
  | (inr _, st') =>
      gate st' = gate st /\ gate_writes st' = gate_writes st /\
      same_sample st st'
  end.
Proof.
  induction todo as [|todo IH]; intros sum st; simpl.
  - unfold ret, same_sample. repeat split; reflexivity.
  - unfold bind, get, modify.
    destruct (adc_oneshot_read io (adc_reads st)) as [r raw].
    destruct (Z.eqb_spec r ESP_OK) as [E|E]; simpl.
    + specialize (IH (int32 (sum + raw)) (count_read st)).
      destruct (sample_loop io todo (int32 (sum + raw)) (count_read st))
        as [[r'|v] st'];
        simpl in IH; exact IH.
    + unfold leave, same_sample. simpl.
      repeat split; assumption || reflexivity.
Qed.

(** Every way through the body: the gate is switched on once and off
    once, and the stored sample changes only when the body runs to its
    end, where it becomes the new sample. *)
Lemma read_body_exits io st :
  match battery_read_voltage_body io st with
  | (inl r, st') =>
      r <> ESP_OK /\ gate st' = false /\
      gate_writes st' = gate_writes st ++ [true; false] /\
      same_sample st st'
  | (inr mv, st') =>
      gate st' = false /\
      gate_writes st' = gate_writes st ++ [true; false] /\
      last_voltage_mv st' = mv /\
      last_percentage st' = battery_voltage_to_percentage mv
  end.
Proof.
  unfold battery_read_voltage_body, bind, modify.
  pose proof (sample_loop_exits io (Z.to_nat 3) 0 (gpio_set_level true st)) as L.
  destruct (sample_loop io (Z.to_nat 3) 0 (gpio_set_level true st))
    as [[r|sum] st1].
  - destruct L as (Hr & Hg & Hw & Hs). simpl in Hw, Hs.
    rewrite <- app_assoc in Hw. simpl in Hw.
    repeat split; try assumption; apply Hs.
  - destruct L as (Hg & Hw & Hs). simpl in Hg, Hw, Hs.
    unfold get.
    cbn [gpio_set_level adc_calibrated].
    destruct (adc_calibrated st1).
    + destruct (adc_cali_raw_to_voltage io (Z.quot sum 3)) as [r mv].
      unfold check.
      destruct (Z.eqb_spec r ESP_OK) as [E|E]; simpl.
      * rewrite Hw, <- app_assoc. auto.
      * rewrite Hw, <- app_assoc. unfold same_sample in *. simpl. tauto.
    + simpl. rewrite Hw, <- app_assoc. auto.
Qed.

(** Init and one read on a steady ADC: 1850 mV at the divider is
    3700 mV at the battery, 66 %, reported as 37 and 132. *)
Example steady_read :
  let st := snd (battery_monitor_init Boards.steady_adc boot) in
  let '(r, cell, st') := battery_read_voltage Boards.steady_adc (Some 0) st in
  r = ESP_OK /\ cell = Some 3700 /\
  last_voltage_mv st' = 3700 /\ last_percentage st' = 66 /\
  battery_get_zigbee_voltage st' = 37 /\
  battery_get_zigbee_percentage st' = 132 /\
  gate_writes st' = [false; true; false].
Proof. vm_compute. repeat split. Qed.

(** C5: on every path of battery_read_voltage that enables the gate
    (any call with a pointer that is not null: the success path, the
    ADC failure and the calibration failure), the gate is low when the
    function returns; the call writes it high once and then low. *)
Theorem gate_low_on_every_exit (io : hal) (cell : Z) (st : state) :
  let st' := snd (battery_read_voltage io (Some cell) st) in
  gate st' = false /\ gate_writes st' = gate_writes st ++ [true; false].
Proof.
  unfold battery_read_voltage.
  pose proof (read_body_exits io st) as B.
  destruct (battery_read_voltage_body io st) as [[r|mv] st']; simpl; tauto.
Qed.

(** C6: when battery_read_voltage returns an error, the stored sample
    is the one of the last successful call: last_voltage_mv and
    last_percentage are unchanged, and so are the two Zigbee values
    read from them. *)
Theorem failed_read_keeps_sample (io : hal) (p : option Z) (st : state) :
  fst (fst (battery_read_voltage io p st)) <> ESP_OK ->
  let st' := snd (battery_read_voltage io p st) in
  last_voltage_mv st' = last_voltage_mv st /\
  last_percentage st' = last_percentage st /\
  battery_get_zigbee_voltage st' = battery_get_zigbee_voltage st /\
  battery_get_zigbee_percentage st' = battery_get_zigbee_percentage st.
Proof.
  unfold battery_read_voltage, battery_get_zigbee_voltage,
    battery_get_zigbee_percentage.
  destruct p as [cell|]; simpl; [|auto].
  pose proof (read_body_exits io st) as B.
  destruct (battery_read_voltage_body io st) as [[r|mv] st']; simpl.
  - intros _. destruct B as (_ & _ & _ & (Hv & Hp & _)).
    rewrite Hv, Hp. auto.
  - intros H. exfalso. apply H. reflexivity.
Qed.

(** A read whose second conversion fails, after a sample of 3700 mV. *)
Lemma failed_read_keeps_sample_witness :
  let call := battery_read_voltage Boards.flaky_adc (Some 0) Boards.charged in
  fst (fst call) = ESP_FAIL /\
  last_voltage_mv (snd call) = 3700 /\
  last_percentage (snd call) = 66.
Proof.
  split; [reflexivity|].
  destruct (@failed_read_keeps_sample Boards.flaky_adc (Some 0) Boards.charged)
    as (Hv & Hp & _).
  - discriminate.
  - split; [exact Hv | exact Hp].
Defined.

(** *** The stored percentage *)

Lemma init_keeps_sample io st :
  last_voltage_mv (snd (battery_monitor_init io st)) = last_voltage_mv st /\
  last_percentage (snd (battery_monitor_init io st)) = last_percentage st.
Proof.
  unfold battery_monitor_init, battery_monitor_init_body, status, bind,
    check, modify, ret, leave.
  destruct (gpio_config io =? ESP_OK); simpl; [|auto].
  destruct (adc_oneshot_new_unit io =? ESP_OK); simpl; [|auto].
  destruct (adc_oneshot_config_channel io =? ESP_OK); simpl; [|auto].
  destruct (adc_cali_create_scheme io) as [r|]; simpl; [|auto].
  destruct (r =? ESP_OK); simpl; auto.
Qed.

Lemma step_consistent io st c : consistent st -> consistent (step io st c).
Proof.
  unfold consistent. intros H.
  destruct c as [|p]; simpl.
  - destruct (init_keeps_sample io st) as (Hv & Hp).
    rewrite Hv, Hp. exact H.
  - unfold battery_read_voltage.
    destruct p as [cell|]; simpl; [|exact H].
    pose proof (read_body_exits io st) as B.
    destruct (battery_read_voltage_body io st) as [[r|mv] st']; simpl.
    + destruct B as (_ & _ & _ & (Hv & Hp & _)). rewrite Hv, Hp. exact H.
    + destruct B as (_ & _ & Hv & Hp). rewrite Hv, Hp. reflexivity.
Qed.

Lemma run_consistent io cs : forall st,
  consistent st -> consistent (fold_left (step io) cs st).
Proof.
  induction cs as [|c cs IH]; intros st H; simpl.
  - exact H.
  - apply IH, step_consistent, H.
Qed.

(** C9: after any sequence of battery_monitor_init and
    battery_read_voltage calls, failed or not, the stored percentage is
    battery_voltage_to_percentage of the stored voltage; so
    battery_get_zigbee_percentage is exactly twice that percentage and
    at most 200, with no wrap-around in uint8. *)
Theorem stored_percentage_invariant (io : hal) (cs : list call) :
  let st := run io cs in
  last_percentage st = battery_voltage_to_percentage (last_voltage_mv st) /\
  battery_get_zigbee_percentage st =
    2 * battery_voltage_to_percentage (last_voltage_mv st) /\
  battery_get_zigbee_percentage st <= 200.
Proof.
  intros st.
  assert (H : consistent st).
  { apply run_consistent. reflexivity. }
  unfold consistent in H.
  pose proof (percentage_range (last_voltage_mv st)) as R.
  unfold battery_get_zigbee_percentage. rewrite H.
  rewrite uint8_small by lia.
  repeat split; lia.
Qed.

End BatteryFacts.

(** ** Anemometer *)

Module AnemometerFacts.
Import CInt Esp Float32 Anemometer CIntFacts Float32Facts.

(** *** The speed *)

Lemma wind_speed_is_edge_rate pulses elapsed_us :
  wind_speed pulses elapsed_us = edge_rate_speed pulses elapsed_us.
Proof. reflexivity. Qed.

(** Ten pulses in one second: 5.1899066 m/s, within 1e-6 of
    10 x 2 x 3.14159 x 0.07 x 1.18. *)
Example wind_speed_ten_pulses_in_a_second :
  wind_speed 10 1000000 = S754_finite false 10884023 (-21) /\
  Z.abs (10884023 * 10 ^ 9 - (10 * 2 * 314159 * 7 * 118) * 2 ^ 21)
    < 2 ^ 21 * 10 ^ 3.
Proof. split; [reflexivity | vm_compute; reflexivity]. Qed.

(** With no pulse the speed is +0, whatever the window: the divisor
    (pulses per revolution x elapsed seconds) is never zero or NaN. *)
Lemma wind_speed_no_pulses (elapsed_us : Z) :
  0 < elapsed_us -> wind_speed 0 elapsed_us = zero.
Proof.
  intros H. unfold wind_speed.
  destruct elapsed_us as [|p|p]; try lia.
  set (d := mul (of_int ANEMOMETER_PULSES_PER_REV)
                (div (of_int (Zpos p)) (of_int 1000000))).
  assert (Hd : positive_at_least (-19) d).
  { unfold d.
    change (of_int ANEMOMETER_PULSES_PER_REV) with (S754_finite false 8388608 (-23)).
    change (of_int 1000000) with (S754_finite false 16000000 (-4)).
    apply (@mul_keeps 8388608 (-23) _ 1 (-19)); [vm_compute; discriminate| |lia].
    apply (@div_keeps _ 16000000 (-4) 1 20);
      [apply of_int_keeps | vm_compute; discriminate | lia]. }
  assert (R : div (of_int 0) d = zero).
  { destruct d as [s|s| |s m e]; cbn [positive_at_least] in Hd; try contradiction.
    - subst s. reflexivity.
    - destruct Hd as [-> _]. reflexivity. }
  rewrite R. vm_compute. reflexivity.
Qed.

(** *** One call *)

Lemma call_with_window (cell : float) (now : Z) (st : state) :
  0 < int64 (now - last_measurement_time_us st) ->
  anemometer_get_wind_speed (Some cell) now st =
  clear {| pulses := pulse_count st;
           current_time_us := now;
           elapsed_us := int64 (now - last_measurement_time_us st) |} st.
Proof.
  intros H. unfold anemometer_get_wind_speed, take.
  destruct (Z.leb_spec (int64 (now - last_measurement_time_us st)) 0); [lia|].
  reflexivity.
Qed.

Lemma call_without_window (cell : float) (now : Z) (st : state) :
  int64 (now - last_measurement_time_us st) <= 0 ->
  anemometer_get_wind_speed (Some cell) now st =
  ({| ret := ESP_OK; speed_ms := Some zero; logged := None |}, st).
Proof.
  intros H. unfold anemometer_get_wind_speed, take.
  destruct (Z.leb_spec (int64 (now - last_measurement_time_us st)) 0); [|lia].
  reflexivity.
Qed.

Lemma fire_call_idle (now : Z) (sys : system) :
  main sys = Idle ->
  fire sys (Call now) =
  match take (Some zero) now (mem sys) with
  | inl _ => sys
  | inr fr => {| mem := mem sys; main := Taken fr;
                 deltas := deltas sys; edges := edges sys |}
  end.
Proof. intros H. unfold fire. rewrite H. reflexivity. Qed.

Lemma fire_resume_idle (sys : system) : main sys = Idle -> fire sys Resume = sys.
Proof. intros H. unfold fire. rewrite H. reflexivity. Qed.

(** A call with no edge inside it. *)
Lemma flush_idle (now : Z) (sys : system) :
  main sys = Idle ->
  schedule [Call now; Resume] sys =
  match take (Some zero) now (mem sys) with
  | inl _ => sys
  | inr fr => {| mem := snd (clear fr (mem sys)); main := Idle;
                 deltas := pulses fr :: deltas sys; edges := edges sys |}
  end.
Proof.
  intros H. unfold schedule. cbn [fold_left].
  rewrite (@fire_call_idle now sys H).
  destruct (take (Some zero) now (mem sys)) as [out|fr].
  - apply fire_resume_idle, H.
  - reflexivity.
Qed.

(** The main context running a call with no edge inside it is the
    function. *)
Lemma call_resume_is_the_function (now : Z) (sys : system) :
  main sys = Idle ->
  mem (schedule [Call now; Resume] sys) =
  snd (anemometer_get_wind_speed (Some zero) now (mem sys)) /\
  main (schedule [Call now; Resume] sys) = Idle.
Proof.
  intros H. rewrite (@flush_idle now sys H).
  unfold anemometer_get_wind_speed.
  destruct (take (Some zero) now (mem sys)) as [out|fr]; auto.
Qed.

(** *** The interrupt against the call *)

(** C1, on the code: an edge that arrives between the read of
    pulse_count (line 80) and its reset (line 81) is counted by the
    handler and taken by no call.  After init, one edge, a call that is
    interrupted by a second edge after its read, and the end of that
    call: the handler has run twice, the call took 1 and the counter is
    0; the next call takes 0. *)
Theorem edge_lost_between_read_and_reset :
  let sys :=
    schedule [Edge; Call 1000; Edge; Resume]
      (start (snd (anemometer_init Boards.gpio_ok 0 boot))) in
  edges sys = 2 /\ deltas sys = [1] /\
  pulse_count (mem sys) = 0 /\ main sys = Idle /\
  deltas (schedule [Call 2000; Resume] sys) = [0; 1].
Proof. vm_compute. repeat split. Qed.

Lemma schedule_app evs1 evs2 sys :
  schedule (evs1 ++ evs2) sys = schedule evs2 (schedule evs1 sys).
Proof. unfold schedule. apply fold_left_app. Qed.

(** When no edge arrives inside a call, and the counter does not wrap,
    every edge is taken once: what the calls took and what is pending
    add up to the edges counted. *)
Lemma atomic_schedule_conserves (ss : list step) : forall sys,
  main sys = Idle ->
  0 <= pulse_count (mem sys) ->
  pulse_count (mem sys) + Z.of_nat (length ss) < 2 ^ 32 ->
  let sys' := schedule (atomic ss) sys in
  main sys' = Idle /\
  sum (deltas sys') + pulse_count (mem sys') - edges sys' =
  sum (deltas sys) + pulse_count (mem sys) - edges sys.
Proof.
  induction ss as [|s ss IH]; intros sys Hm Hp Hb.
  - simpl. auto.
  - cbn [atomic flat_map]. fold (atomic ss).
    cbv zeta. rewrite schedule_app.
    cbn [length] in Hb. rewrite Nat2Z.inj_succ in Hb.
    destruct s as [|now].
    + cbn [events_of schedule fold_left fire].
      set (sys1 := {| mem := anemometer_isr_handler (mem sys); main := main sys;
                      deltas := deltas sys; edges := edges sys + 1 |}).
      assert (E : pulse_count (mem sys1) = pulse_count (mem sys) + 1).
      { simpl. apply uint32_small. lia. }
      destruct (IH sys1) as (I1 & I2).
      * exact Hm.
      * rewrite E. lia.
      * rewrite E. lia.
      * split; [exact I1|]. rewrite I2, E. simpl. lia.
    + cbn [events_of]. rewrite (@flush_idle now sys Hm).
      destruct (take (Some zero) now (mem sys)) as [out|fr] eqn:T.
      * destruct (IH sys Hm Hp ltac:(lia)) as (I1 & I2).
        split; [exact I1 | exact I2].
      * assert (F : pulses fr = pulse_count (mem sys)).
        { unfold take in T.
          destruct (int64 (now - last_measurement_time_us (mem sys)) <=? 0);
            [discriminate|].
          injection T as <-. reflexivity. }
        set (sys1 := {| mem := snd (clear fr (mem sys)); main := Idle;
                        deltas := pulses fr :: deltas sys; edges := edges sys |}).
        destruct (IH sys1) as (I1 & I2).
        -- reflexivity.
        -- simpl. lia.
        -- simpl. lia.
        -- split; [exact I1|]. rewrite I2. simpl. lia.
Qed.

(** *** Two calls in a row *)

(** C2, as stated, fails: after init at time 100 and three edges, a
    first call that reads the timer at 100 finds no elapsed time and
    leaves the three pulses; the second call, with no edge in between,
    takes them and reports a speed that is not 0. *)
Lemma second_call_after_empty_window_takes_pulses :
  let st0 := snd (anemometer_init Boards.gpio_ok 100 boot) in
  let st1 :=
    anemometer_isr_handler (anemometer_isr_handler (anemometer_isr_handler st0)) in
  let st2 := snd (anemometer_get_wind_speed (Some zero) 100 st1) in
  let out := fst (anemometer_get_wind_speed (Some zero) 1000100 st2) in
  option_map log_pulses (logged out) = Some 3 /\
  speed_ms out = Some (S754_finite false 13060827 (-23)) /\
  speed_ms out <> Some zero.
Proof.
  vm_compute. split; [reflexivity|]. split; [reflexivity | discriminate].
Qed.

(** C2, as the code has it: when the first call had a window (positive
    elapsed time), so that it took and zeroed the pulse count, a second
    call with no edge in between returns ESP_OK with a speed of 0, takes
    no pulse and leaves the count at 0. *)
Theorem second_call_takes_nothing
  (cell1 cell2 : float) (now1 now2 : Z) (st : state) :
  0 < int64 (now1 - last_measurement_time_us st) ->
  let st1 := snd (anemometer_get_wind_speed (Some cell1) now1 st) in
  let out2 := fst (anemometer_get_wind_speed (Some cell2) now2 st1) in
  let st2 := snd (anemometer_get_wind_speed (Some cell2) now2 st1) in
  pulse_count st1 = 0 /\
  ret out2 = ESP_OK /\
  speed_ms out2 = Some zero /\
  (forall l, logged out2 = Some l -> log_pulses l = 0) /\
  pulse_count st2 = 0.
Proof.
  intros H1. rewrite (@call_with_window cell1 now1 st H1).
  cbn [clear snd pulses current_time_us elapsed_us].
  set (st1 := set_last_measurement_time_us now1 (set_pulse_count 0 st)).
  cbv zeta.
  split; [reflexivity|].
  destruct (Z.le_gt_cases (int64 (now2 - last_measurement_time_us st1)) 0)
    as [H2|H2].
  - rewrite (@call_without_window cell2 now2 st1 H2). simpl.
    repeat split. intros l Hl. discriminate.
  - rewrite (@call_with_window cell2 now2 st1 H2).
    cbn [clear fst snd ret speed_ms logged pulses elapsed_us].
    change (pulse_count st1) with 0.
    rewrite (@wind_speed_no_pulses (int64 (now2 - last_measurement_time_us st1)) H2).
    repeat split.
    intros l Hl. injection Hl as <-. reflexivity.
Qed.

(** Three pulses, a call after one second and a call after two. *)
Lemma second_call_takes_nothing_witness :
  let st := set_pulse_count 3 (snd (anemometer_init Boards.gpio_ok 0 boot)) in
  let st1 := snd (anemometer_get_wind_speed (Some zero) 1000000 st) in
  pulse_count st1 = 0 /\
  speed_ms (fst (anemometer_get_wind_speed (Some zero) 2000000 st1)) = Some zero.
Proof.
  intros st st1.
  destruct (@second_call_takes_nothing zero zero 1000000 2000000 st)
    as (H1 & _ & H3 & _).
  - vm_compute. reflexivity.
  - split; [exact H1 | exact H3].
Defined.

(** *** The window *)

Lemma edges_all_counted (n : nat) : forall sys,
  0 <= pulse_count (mem sys) ->
  pulse_count (mem sys) + Z.of_nat n < 2 ^ 32 ->
  pulse_count (mem (schedule (repeat Edge n) sys)) =
    pulse_count (mem sys) + Z.of_nat n /\
  last_measurement_time_us (mem (schedule (repeat Edge n) sys)) =
    last_measurement_time_us (mem sys).
Proof.
  induction n as [|n IH]; intros sys Hp Hb.
  - simpl. split; [lia | reflexivity].
  - rewrite Nat2Z.inj_succ in Hb.
    cbn [repeat schedule fold_left].
    fold (schedule (repeat Edge n) (fire sys Edge)).
    assert (E : pulse_count (mem (fire sys Edge)) = pulse_count (mem sys) + 1).
    { simpl. apply uint32_small. lia. }
    destruct (IH (fire sys Edge)) as (I1 & I2).
    + rewrite E. lia.
    + rewrite E. lia.
    + rewrite I1, I2, E, Nat2Z.inj_succ. split; [lia | reflexivity].
Qed.

(** C7: the handler counts every edge, however close to the one
    before: it reads no clock and adds one to the 32-bit count, so n
    edges add n.  A call with positive elapsed time returns the edge
    count over the elapsed time in physical units, the pulses divided
    by (pulses per revolution x elapsed seconds), times the
    circumference 2 pi x radius and the calibration factor, then zeroes
    the pulse count and restarts the window at the time read. *)
Theorem edge_rate_over_window :
  (forall st : state,
     pulse_count (anemometer_isr_handler st) = uint32 (pulse_count st + 1) /\
     last_measurement_time_us (anemometer_isr_handler st) =
       last_measurement_time_us st) /\
  (forall (n : nat) (st : state),
     0 <= pulse_count st -> pulse_count st + Z.of_nat n < 2 ^ 32 ->
     let st' := mem (schedule (repeat Edge n) (start st)) in
     pulse_count st' = pulse_count st + Z.of_nat n /\
     last_measurement_time_us st' = last_measurement_time_us st) /\
  (forall (cell : float) (now : Z) (st : state),
     let elapsed := int64 (now - last_measurement_time_us st) in
     0 < elapsed ->
     let out := fst (anemometer_get_wind_speed (Some cell) now st) in
     let st' := snd (anemometer_get_wind_speed (Some cell) now st) in
     ret out = ESP_OK /\
     speed_ms out = Some (edge_rate_speed (pulse_count st) elapsed) /\
     pulse_count st' = 0 /\
     last_measurement_time_us st' = now).
Proof.
  split; [|split].
  - intros st. split; reflexivity.
  - intros n st Hp Hb. apply (@edges_all_counted n (start st)); assumption.
  - intros cell now st elapsed H.
    rewrite (@call_with_window cell now st H).
    repeat split.
Qed.

(** Ten edges after init, then a call after one second. *)
Lemma edge_rate_over_window_witness :
  let st0 := snd (anemometer_init Boards.gpio_ok 0 boot) in
  let st1 := mem (schedule (repeat Edge 10) (start st0)) in
  pulse_count st1 = 10 /\
  speed_ms (fst (anemometer_get_wind_speed (Some zero) 1000000 st1)) =
    Some (edge_rate_speed 10 1000000) /\
  pulse_count (snd (anemometer_get_wind_speed (Some zero) 1000000 st1)) = 0.
Proof.
  intros st0 st1.
  destruct edge_rate_over_window as (_ & Hedges & Hcall).
  destruct (Hedges 10%nat st0) as (Hc & _);
    [vm_compute; discriminate | vm_compute; reflexivity |].
  destruct (Hcall zero 1000000 st1) as (_ & Hs & Hz & _);
    [vm_compute; reflexivity |].
  split; [exact Hc|]. split; [exact Hs | exact Hz].
Defined.

(** C10: a call that finds no elapsed time since the window start
    (elapsed <= 0) returns ESP_OK with a speed of 0 and changes neither
    the pulse count nor the window start; the pending pulses are taken
    by the next call that has a window. *)
Theorem empty_window_keeps_pulses (cell : float) (now : Z) (st : state) :
  int64 (now - last_measurement_time_us st) <= 0 ->
  anemometer_get_wind_speed (Some cell) now st =
    ({| ret := ESP_OK; speed_ms := Some zero; logged := None |}, st) /\
  (forall (cell' : float) (now' : Z),
     0 < int64 (now' - last_measurement_time_us st) ->
     option_map log_pulses
       (logged (fst (anemometer_get_wind_speed (Some cell') now'
                       (snd (anemometer_get_wind_speed (Some cell) now st))))) =
     Some (pulse_count st)).
Proof.
  intros H. rewrite (@call_without_window cell now st H).
  split; [reflexivity|].
  intros cell' now' H'. cbn [snd].
  rewrite (@call_with_window cell' now' st H'). reflexivity.
Qed.

(** Three pulses pending and a call at the time of init. *)
Lemma empty_window_keeps_pulses_witness :
  let st := set_pulse_count 3 (snd (anemometer_init Boards.gpio_ok 100 boot)) in
  anemometer_get_wind_speed (Some zero) 100 st =
    ({| ret := ESP_OK; speed_ms := Some zero; logged := None |}, st).
Proof.
  intros st.
  destruct (@empty_window_keeps_pulses zero 100 st) as (H & _).
  - vm_compute. discriminate.
  - exact H.
Defined.

End AnemometerFacts.

(** ** Chip identities *)

Module SensorFacts.
Import CInt Esp CIntFacts.

(** All coefficient bytes 0xFF: every coefficient sign-extends to -1. *)
Example coefficients_sign_extend :
  Dps368.parse_coefficients (fun _ => 0xFF) =
  {| Dps368.c0 := -1; Dps368.c1 := -1; Dps368.c00 := -1; Dps368.c10 := -1;
     Dps368.c01 := -1; Dps368.c11 := -1; Dps368.c20 := -1; Dps368.c21 := -1;
     Dps368.c30 := -1 |}.
Proof. reflexivity. Qed.

(** dps368_init returns ESP_OK only for a bus handle that is not null,
    a device handle that is created, and a product ID of 0x10. *)
Lemma dps368_init_ok (io : Dps368.hal) (i2c_bus : bool) (st : Dps368.state) :
  fst (Dps368.dps368_init io i2c_bus st) = ESP_OK ->
  i2c_bus = true /\
  Dps368.i2c_bus_device_create io = true /\
  Dps368.product_id io = 0x10.
Proof.
  unfold Dps368.dps368_init, Dps368.dps368_init_body, Dps368.product_id,
    Dps368.dps368_read_calibration, Dps368.dps368_read_reg,
    call, status, bind, check, modify, get, ret, leave.
  destruct i2c_bus; simpl; [|discriminate].
  destruct (Dps368.i2c_bus_device_create io); simpl; [|discriminate].
  destruct (Dps368.i2c_bus_read_bytes io Dps368.DPS368_REG_PROD_ID 1)
    as [r data]; simpl.
  destruct (Z.eqb_spec r ESP_OK) as [Er|Er]; simpl; [|intros E; contradiction].
  destruct (Z.eqb_spec (uint8 (data 0%nat)) 16) as [Ep|Ep]; simpl;
    [|discriminate].
  intros _. repeat split. exact Ep.
Qed.

(** The rest of bme280_app_init, after the chip ID: the two
    configuration calls, each of which succeeds or not. *)
Ltac configure io :=
  destruct (Z.eqb_spec (Bme280App.bme280_set_sampling io) ESP_OK); simpl;
  [destruct (Z.eqb_spec (Bme280App.bme280_read_coefficients io) ESP_OK); simpl|];
  repeat split; intros; try reflexivity; try contradiction.

(** What bme280_app_init does once it has read the chip ID. *)
Lemma bme280_app_init_identifies (io : Bme280App.hal) :
  Bme280App.bme280_create io = true ->
  fst (Bme280App.i2c_bus_read_byte io Bme280App.BME280_REGISTER_CHIPID) = ESP_OK ->
  let id := Bme280App.chip_id io in
  let st' := snd (Bme280App.bme280_app_init io true Bme280App.boot) in
  Bme280App.identities st' =
    [if id =? 0x60 then Bme280App.Bme280
     else if id =? 0x58 then Bme280App.Bmp280
     else Bme280App.Unknown] /\
  Bme280App.is_bmp280 st' = (id =? 0x58) /\
  (Bme280App.bme280_set_sampling io = ESP_OK ->
   Bme280App.bme280_read_coefficients io = ESP_OK ->
   fst (Bme280App.bme280_app_init io true Bme280App.boot) = ESP_OK).
Proof.
  unfold Bme280App.bme280_app_init, Bme280App.bme280_app_init_body,
    Bme280App.chip_id, Bme280App.identities,
    status, bind, check, modify, get, ret, leave.
  intros Hc. simpl. rewrite Hc. simpl.
  destruct (Bme280App.i2c_bus_read_byte io Bme280App.BME280_REGISTER_CHIPID)
    as [err byte]; simpl.
  intros ->. simpl.
  destruct (Z.eqb_spec (uint8 byte) 96) as [E60|E60]; simpl.
  - rewrite E60. simpl. configure io.
  - destruct (Z.eqb_spec (uint8 byte) 88) as [E58|E58]; simpl; configure io.
Qed.

(** C8, as stated, fails: a device whose chip-ID register reads 0x61
    (a BME680) matches neither signature, and the probe still returns
    ESP_OK and treats it like a BME280 (is_bmp280 is false). *)
Lemma unknown_chip_accepted :
  let io := Boards.chip 0x61 in
  let probe := Bme280App.bme280_app_init io true Bme280App.boot in
  fst probe = ESP_OK /\
  Bme280App.bme280_app_is_bmp280 (snd probe) = false /\
  Bme280App.identities (snd probe) = [Bme280App.Unknown] /\
  Bme280App.chip_id io <> 0x60 /\
  Bme280App.chip_id io <> 0x58.
Proof. vm_compute. repeat split; discriminate. Qed.

(** C8, as the code has it: dps368_init returns ESP_OK only when the
    product ID reads 0x10; bme280_app_init, once it has read the chip
    ID, reports a BME280 exactly for 0x60 and a BMP280 (and sets
    is_bmp280) exactly for 0x58, so one device never gets two
    identities; but it rejects no chip ID: whether it returns ESP_OK
    depends on the two configuration calls only. *)
Theorem probes_identify_by_signature :
  (forall (io : Dps368.hal) (i2c_bus : bool) (st : Dps368.state),
     fst (Dps368.dps368_init io i2c_bus st) = ESP_OK ->
     Dps368.product_id io = 0x10) /\
  (forall io : Bme280App.hal,
     Bme280App.bme280_create io = true ->
     fst (Bme280App.i2c_bus_read_byte io Bme280App.BME280_REGISTER_CHIPID) = ESP_OK ->
     let id := Bme280App.chip_id io in
     let probe := Bme280App.bme280_app_init io true Bme280App.boot in
     (Bme280App.identities (snd probe) = [Bme280App.Bme280] <-> id = 0x60) /\
     (Bme280App.identities (snd probe) = [Bme280App.Bmp280] <-> id = 0x58) /\
     (Bme280App.bme280_app_is_bmp280 (snd probe) = true <-> id = 0x58) /\
     (Bme280App.bme280_set_sampling io = ESP_OK ->
      Bme280App.bme280_read_coefficients io = ESP_OK ->
      fst probe = ESP_OK)).
Proof.
  split.
  - intros io bus st H. apply (dps368_init_ok io bus st H).
  - intros io Hc Hr id probe.
    destruct (@bme280_app_init_identifies io Hc Hr) as (Hi & Hb & Hok).
    fold id in Hi, Hb. fold probe in Hi, Hb, Hok.
    unfold Bme280App.bme280_app_is_bmp280.
    rewrite Hi, Hb.
    destruct (Z.eqb_spec id 96) as [E60|E60];
      destruct (Z.eqb_spec id 88) as [E58|E58];
      repeat split; intros; try assumption; try reflexivity;
      try discriminate; try lia.
Qed.

(** A DPS368, a BME280 and a BMP280 on the bus. *)
Lemma probes_identify_by_signature_witness :
  Dps368.product_id Boards.dps368_present = 0x10 /\
  Bme280App.identities
    (snd (Bme280App.bme280_app_init (Boards.chip 0x60) true Bme280App.boot)) =
    [Bme280App.Bme280] /\
  Bme280App.bme280_app_is_bmp280
    (snd (Bme280App.bme280_app_init (Boards.chip 0x58) true Bme280App.boot)) =
    true.
Proof.
  destruct probes_identify_by_signature as (Hd & Hb).
  split.
  - apply (Hd Boards.dps368_present true Dps368.boot). reflexivity.
  - split.
    + destruct (Hb (Boards.chip 0x60)) as ((_ & H) & _);
        [reflexivity | reflexivity |].
      apply H. reflexivity.
    + destruct (Hb (Boards.chip 0x58)) as (_ & _ & (_ & H) & _);
        [reflexivity | reflexivity |].
      apply H. reflexivity.
Defined.

End SensorFacts.

(** ** Bits as arithmetic *)

Module BitFacts.
Import CInt CIntFacts.

Lemma land_shifted_low (hi lo k : Z) :
  0 <= k -> 0 <= lo < 2 ^ k -> Z.land (hi * 2 ^ k) lo = 0.
Proof.
  intros Hk Hlo. apply Z.bits_inj'. intros n Hn.
  rewrite Z.land_spec, Z.bits_0.
  destruct (Z.lt_ge_cases n k) as [L|G].
  - rewrite Z.mul_pow2_bits_low by assumption. reflexivity.
  - assert (Z.testbit lo n = false) as ->; [|apply andb_false_r].
    destruct (Z.eq_dec lo 0) as [->|Nz]; [apply Z.bits_0|].
    apply Z.bits_above_log2; [lia|].
    apply Z.lt_le_trans with k; [|assumption].
    apply Z.log2_lt_pow2; lia.
Qed.

Lemma lor_shiftl (hi lo k : Z) :
  0 <= k -> 0 <= lo < 2 ^ k -> Z.lor (Z.shiftl hi k) lo = hi * 2 ^ k + lo.
Proof.
  intros Hk Hlo. rewrite Z.shiftl_mul_pow2 by assumption.
  pose proof (Z.add_lor_land (hi * 2 ^ k) lo) as E.
  rewrite land_shifted_low in E by assumption. lia.
Qed.

Lemma land_sign_bit (c n : Z) :
  0 <= n -> 0 <= c < 2 ^ (n + 1) ->
  (Z.land c (2 ^ n) =? 0) = (c <? 2 ^ n).
Proof.
  intros Hn Hc.
  destruct (Z.ltb_spec c (2 ^ n)) as [L|G].
  - apply Z.eqb_eq. apply Z.bits_inj'. intros m Hm.
    rewrite Z.land_spec, Z.bits_0, Z.pow2_bits_eqb by assumption.
    destruct (Z.eqb_spec n m) as [<-|]; [|apply andb_false_r].
    rewrite andb_true_r.
    destruct (Z.eq_dec c 0) as [->|Nz]; [apply Z.bits_0|].
    apply Z.bits_above_log2; [lia|].
    apply Z.log2_lt_pow2; lia.
  - apply Z.eqb_neq. intros E.
    assert (T : Z.testbit (Z.land c (2 ^ n)) n = true).
    { rewrite Z.land_spec, Z.pow2_bits_true, andb_true_r by assumption.
      apply Z.testbit_true; [assumption|].
      assert (c / 2 ^ n = 1) as ->; [|reflexivity].
      symmetry. apply Z.div_unique with (c - 2 ^ n).
      - rewrite Z.pow_add_r in Hc by lia. lia.
      - lia. }
    rewrite E, Z.bits_0 in T. discriminate.
Qed.

Lemma int32_fits z : 0 <= z < 2 ^ 31 -> int32 z = z.
Proof. intros H. unfold int32, sint. rewrite Z.mod_small; lia. Qed.

Lemma int32_small z : - 2 ^ 31 <= z < 2 ^ 31 -> int32 z = z.
Proof.
  intros H. unfold int32, sint.
  rewrite Z.mod_small; lia.
Qed.

Lemma uint16_small z : 0 <= z < 2 ^ 16 -> uint16 z = z.
Proof. intros H. unfold uint16. apply Z.mod_small. lia. Qed.

Lemma uint16_range z : 0 <= uint16 z < 65536.
Proof. unfold uint16. apply Z.mod_pos_bound. lia. Qed.

End BitFacts.

(** ** Anemometer: init, enable and disable, and a whole window *)

Module AnemometerCalls.
Import CInt Esp Float32 Anemometer CIntFacts AnemometerFacts.

(** X1: anemometer_init returns ESP_OK exactly when the pin is configured,
    the ISR service is installed or was installed before
    (ESP_ERR_INVALID_STATE), and the handler is added; then the count
    is 0, the window starts at the time read and interrupts are marked
    enabled.  On any error the statics are untouched. *)
Theorem init_all_or_nothing (io : hal) (now : Z) (st : state) :
  let r := fst (anemometer_init io now st) in
  let st' := snd (anemometer_init io now st) in
  (r = ESP_OK <->
     gpio_config io = ESP_OK /\
     (gpio_install_isr_service io = ESP_OK \/
      gpio_install_isr_service io = ESP_ERR_INVALID_STATE) /\
     gpio_isr_handler_add io = ESP_OK) /\
  (r = ESP_OK ->
     st' = {| pulse_count := 0; last_measurement_time_us := now;
              interrupts_enabled := true |}) /\
  (r <> ESP_OK -> st' = st).
Proof.
  unfold anemometer_init.
  destruct (Z.eqb_spec (gpio_config io) ESP_OK) as [E1|E1];
    destruct (Z.eqb_spec (gpio_install_isr_service io) ESP_OK) as [E2|E2];
    destruct (Z.eqb_spec (gpio_install_isr_service io) ESP_ERR_INVALID_STATE)
      as [E2'|E2'];
    destruct (Z.eqb_spec (gpio_isr_handler_add io) ESP_OK) as [E3|E3];
    cbn [negb andb fst snd];
    intuition (try congruence; try reflexivity).
Qed.

(** X2: Disabling keeps the pending pulses; enabling again discards them
    and restarts the window, while enabling what is enabled changes
    nothing. *)
Theorem enable_after_disable_restarts (now : Z) (st : state) :
  interrupts_enabled st = true ->
  anemometer_enable now st = st /\
  pulse_count (anemometer_disable st) = pulse_count st /\
  interrupts_enabled (anemometer_disable st) = false /\
  anemometer_disable (anemometer_disable st) = anemometer_disable st /\
  anemometer_enable now (anemometer_disable st) =
    {| pulse_count := 0; last_measurement_time_us := now;
       interrupts_enabled := true |}.
Proof.
  intros H. unfold anemometer_enable, anemometer_disable. rewrite H.
  cbn. repeat split.
Qed.

(** Five pulses pending at time 7000: they are gone after a disable
    and an enable. *)
Lemma enable_after_disable_restarts_witness :
  let st := {| pulse_count := 5; last_measurement_time_us := 7000;
               interrupts_enabled := true |} in
  pulse_count (anemometer_disable st) = 5 /\
  anemometer_enable 9000 (anemometer_disable st) =
    {| pulse_count := 0; last_measurement_time_us := 9000;
       interrupts_enabled := true |}.
Proof.
  intros st.
  destruct (@enable_after_disable_restarts 9000 st) as (_ & H1 & _ & _ & H2).
  - reflexivity.
  - split; [exact H1 | exact H2].
Defined.

(** X3: A whole window: after a reset at [t0], [n] edges and a call at a
    later time [t1], the call reports the speed of exactly these [n]
    pulses over exactly [t1 - t0] microseconds, and the next window
    starts empty at [t1]. *)
Theorem window_after_reset (cell : float) (t0 t1 : Z) (n : nat) (st : state) :
  0 <= t0 -> t0 < t1 -> t1 < 2 ^ 63 -> Z.of_nat n < 2 ^ 32 ->
  let st1 := mem (schedule (repeat Edge n) (start (anemometer_reset t0 st))) in
  let out := fst (anemometer_get_wind_speed (Some cell) t1 st1) in
  let st2 := snd (anemometer_get_wind_speed (Some cell) t1 st1) in
  ret out = ESP_OK /\
  speed_ms out = Some (edge_rate_speed (Z.of_nat n) (t1 - t0)) /\
  option_map log_pulses (logged out) = Some (Z.of_nat n) /\
  pulse_count st2 = 0 /\
  last_measurement_time_us st2 = t1.
Proof.
  intros H0 H01 H1 Hn st1 out st2.
  destruct (@edges_all_counted n (start (anemometer_reset t0 st)))
    as (Hc & Hl); [simpl; lia | simpl; lia |].
  fold st1 in Hc, Hl. cbn in Hc, Hl.
  assert (E : int64 (t1 - last_measurement_time_us st1) = t1 - t0).
  { rewrite Hl. apply int64_small. lia. }
  assert (W : 0 < int64 (t1 - last_measurement_time_us st1)) by lia.
  subst out st2.
  rewrite (@call_with_window cell t1 st1 W).
  cbn [clear fst snd ret speed_ms logged option_map log_pulses pulses
       elapsed_us current_time_us].
  rewrite E, Hc. repeat split.
Qed.

(** Reset at 1 s, twelve edges, a call at 3 s. *)
Lemma window_after_reset_witness :
  let st1 :=
    mem (schedule (repeat Edge 12) (start (anemometer_reset 1000000 boot))) in
  speed_ms (fst (anemometer_get_wind_speed (Some zero) 3000000 st1)) =
  Some (edge_rate_speed 12 2000000).
Proof.
  intros st1.
  destruct (@window_after_reset zero 1000000 3000000 12 boot)
    as (_ & H & _); [lia | lia | lia | vm_compute; reflexivity |].
  exact H.
Defined.

End AnemometerCalls.

(** ** Battery monitor: init, the value of a sample, the gate *)

Module BatterySamples.
Import CInt Esp Battery GateHistory CIntFacts BatteryFacts BitFacts.

(** X4: battery_monitor_init returns ESP_OK exactly when the pin and the
    ADC are configured; a missing or failed calibration scheme is no
    error.  Once the pin is configured the gate is driven low.  The
    stored sample is untouched, and the calibration flag is set only
    by a scheme that is created. *)
Theorem init_gate_low (io : hal) (st : state) :
  let r := fst (battery_monitor_init io st) in
  let st' := snd (battery_monitor_init io st) in
  (r = ESP_OK <->
     gpio_config io = ESP_OK /\ adc_oneshot_new_unit io = ESP_OK /\
     adc_oneshot_config_channel io = ESP_OK) /\
  (gpio_config io = ESP_OK -> gate st' = false) /\
  (gpio_config io <> ESP_OK -> st' = st) /\
  last_voltage_mv st' = last_voltage_mv st /\
  last_percentage st' = last_percentage st /\
  (adc_calibrated st' = true <->
     adc_calibrated st = true \/
     (r = ESP_OK /\ adc_cali_create_scheme io = Some ESP_OK)).
Proof.
  unfold battery_monitor_init, battery_monitor_init_body, status, bind,
    check, modify, ret, leave.
  destruct (Z.eqb_spec (gpio_config io) ESP_OK) as [E1|E1];
    destruct (Z.eqb_spec (adc_oneshot_new_unit io) ESP_OK) as [E2|E2];
    destruct (Z.eqb_spec (adc_oneshot_config_channel io) ESP_OK) as [E3|E3];
    destruct (adc_cali_create_scheme io) as [c|];
    try destruct (Z.eqb_spec c ESP_OK) as [E4|E4];
    cbn;
    intuition (try congruence; try reflexivity).
Qed.

(** Three conversions that succeed, from 12-bit readings. *)
Lemma three_reads (io : hal) (st : state) (r0 r1 r2 : Z) :
  adc_oneshot_read io (adc_reads st) = (ESP_OK, r0) ->
  adc_oneshot_read io (S (adc_reads st)) = (ESP_OK, r1) ->
  adc_oneshot_read io (S (S (adc_reads st))) = (ESP_OK, r2) ->
  0 <= r0 <= 4095 -> 0 <= r1 <= 4095 -> 0 <= r2 <= 4095 ->
  sample_loop io 3 0 (gpio_set_level true st) =
  (inr (r0 + r1 + r2),
   count_read (count_read (count_read (gpio_set_level true st)))).
Proof.
  intros H0 H1 H2 B0 B1 B2.
  cbn [sample_loop]. unfold bind, get, modify, ret.
  cbn [gpio_set_level adc_reads count_read].
  rewrite H0. cbn. rewrite H1. cbn. rewrite H2. cbn.
  rewrite (@int32_small r0) by lia.
  rewrite (@int32_small (r0 + r1)) by lia.
  rewrite (@int32_small (r0 + r1 + r2)) by lia.
  reflexivity.
Qed.

Lemma calibrated_call (io : hal) (st : state) (cell r0 r1 r2 mv : Z) :
  adc_calibrated st = true ->
  adc_oneshot_read io (adc_reads st) = (ESP_OK, r0) ->
  adc_oneshot_read io (S (adc_reads st)) = (ESP_OK, r1) ->
  adc_oneshot_read io (S (S (adc_reads st))) = (ESP_OK, r2) ->
  0 <= r0 <= 4095 -> 0 <= r1 <= 4095 -> 0 <= r2 <= 4095 ->
  adc_cali_raw_to_voltage io ((r0 + r1 + r2) / 3) = (ESP_OK, mv) ->
  0 <= mv <= 10737 ->
  battery_read_voltage io (Some cell) st =
  (ESP_OK, Some (2 * mv), sampled (2 * mv) st).
Proof.
  intros Hc H0 H1 H2 B0 B1 B2 Hv Bv.
  unfold battery_read_voltage, battery_read_voltage_body.
  change (Z.to_nat 3) with 3%nat.
  unfold bind at 1. unfold modify at 1.
  unfold bind at 1.
  rewrite (@three_reads io st r0 r1 r2 H0 H1 H2 B0 B1 B2).
  unfold bind, modify, get, check, ret.
  cbn [gpio_set_level count_read adc_calibrated].
  rewrite Hc.
  rewrite Z.quot_div_nonneg by lia.
  rewrite Hv. cbn [Z.eqb ESP_OK].
  unfold BATTERY_VOLTAGE_DIVIDER_R1, BATTERY_VOLTAGE_DIVIDER_R2.
  replace (100000 + 100000) with 200000 by reflexivity.
  rewrite int32_small by lia.
  rewrite Z.quot_div_nonneg by lia.
  replace (mv * 200000 / 100000) with (2 * mv)
    by (apply Z.div_unique with 0; lia).
  rewrite uint32_small by lia.
  rewrite uint16_small by lia.
  reflexivity.
Qed.

(** X5: With the ADC calibrated, three conversions that succeed and a
    divider voltage of at most 10737 mV: the sample stored and handed
    back is exactly twice the calibrated voltage of the truncated mean
    of the readings. *)
Theorem calibrated_sample_is_twice_divider
  (io : hal) (st : state) (cell r0 r1 r2 mv : Z) :
  adc_calibrated st = true ->
  adc_oneshot_read io (adc_reads st) = (ESP_OK, r0) ->
  adc_oneshot_read io (S (adc_reads st)) = (ESP_OK, r1) ->
  adc_oneshot_read io (S (S (adc_reads st))) = (ESP_OK, r2) ->
  0 <= r0 <= 4095 -> 0 <= r1 <= 4095 -> 0 <= r2 <= 4095 ->
  adc_cali_raw_to_voltage io ((r0 + r1 + r2) / 3) = (ESP_OK, mv) ->
  0 <= mv <= 10737 ->
  let call := battery_read_voltage io (Some cell) st in
  fst (fst call) = ESP_OK /\
  snd (fst call) = Some (2 * mv) /\
  last_voltage_mv (snd call) = 2 * mv /\
  last_percentage (snd call) = battery_voltage_to_percentage (2 * mv) /\
  battery_get_zigbee_voltage (snd call) = 2 * mv / 100.
Proof.
  intros Hc H0 H1 H2 B0 B1 B2 Hv Bv call. subst call.
  rewrite (@calibrated_call io st cell r0 r1 r2 mv) by assumption.
  unfold battery_get_zigbee_voltage.
  cbn [fst snd sampled set_last last_voltage_mv last_percentage].
  rewrite Z.quot_div_nonneg by lia.
  assert (0 <= 2 * mv / 100 < 256).
  { split; [apply Z.div_pos; lia | apply Z.div_lt_upper_bound; lia]. }
  rewrite uint8_small by lia.
  repeat split.
Qed.

Lemma calibrated_sample_is_twice_divider_witness :
  let call :=
    battery_read_voltage Boards.steady_adc (Some 0) Boards.charged in
  fst (fst call) = ESP_OK /\ snd (fst call) = Some 3700.
Proof.
  destruct (@calibrated_sample_is_twice_divider
              Boards.steady_adc Boards.charged 0 1850 1850 1850 1850)
    as (H1 & H2 & _);
    [reflexivity | reflexivity | reflexivity | reflexivity
    | lia | lia | lia | reflexivity | lia |].
  split; [exact H1 | exact H2].
Defined.

Lemma uncalibrated_call (io : hal) (st : state) (cell r0 r1 r2 : Z) :
  adc_calibrated st = false ->
  adc_oneshot_read io (adc_reads st) = (ESP_OK, r0) ->
  adc_oneshot_read io (S (adc_reads st)) = (ESP_OK, r1) ->
  adc_oneshot_read io (S (S (adc_reads st))) = (ESP_OK, r2) ->
  0 <= r0 <= 4095 -> 0 <= r1 <= 4095 -> 0 <= r2 <= 4095 ->
  let mv := 2 * ((r0 + r1 + r2) / 3 * 3300 / 4095) in
  0 <= mv <= 6600 /\
  battery_read_voltage io (Some cell) st = (ESP_OK, Some mv, sampled mv st).
Proof.
  intros Hc H0 H1 H2 B0 B1 B2 mv.
  assert (Ba : 0 <= (r0 + r1 + r2) / 3 <= 4095).
  { split; [apply Z.div_pos; lia | apply Z.div_le_upper_bound; lia]. }
  set (avg := (r0 + r1 + r2) / 3) in *.
  assert (Bd : 0 <= avg * 3300 / 4095 <= 3300).
  { split; [apply Z.div_pos; lia | apply Z.div_le_upper_bound; lia]. }
  split; [subst mv; lia|].
  unfold battery_read_voltage, battery_read_voltage_body.
  change (Z.to_nat 3) with 3%nat.
  unfold bind at 1. unfold modify at 1.
  unfold bind at 1.
  rewrite (@three_reads io st r0 r1 r2 H0 H1 H2 B0 B1 B2).
  unfold bind, modify, get, check, ret.
  cbn [gpio_set_level count_read adc_calibrated].
  rewrite Hc.
  rewrite (Z.quot_div_nonneg (r0 + r1 + r2) 3) by lia. fold avg.
  rewrite (@int32_small (avg * 3300)) by lia.
  rewrite (Z.quot_div_nonneg (avg * 3300) 4095) by lia.
  set (d := avg * 3300 / 4095) in *.
  unfold BATTERY_VOLTAGE_DIVIDER_R1, BATTERY_VOLTAGE_DIVIDER_R2.
  replace (100000 + 100000) with 200000 by reflexivity.
  rewrite (@int32_small (d * 200000)) by lia.
  rewrite (Z.quot_div_nonneg (d * 200000) 100000) by lia.
  replace (d * 200000 / 100000) with (2 * d)
    by (apply Z.div_unique with 0; lia).
  rewrite uint32_small by lia.
  rewrite uint16_small by lia.
  reflexivity.
Qed.

(** X6: Without calibration, three conversions that succeed on a 12-bit
    ADC: the sample is twice the mean scaled by 3300/4095, each
    division truncating; it is at most 6600 mV and is reported to
    Zigbee as at most 66. *)
Theorem uncalibrated_sample_value
  (io : hal) (st : state) (cell r0 r1 r2 : Z) :
  adc_calibrated st = false ->
  adc_oneshot_read io (adc_reads st) = (ESP_OK, r0) ->
  adc_oneshot_read io (S (adc_reads st)) = (ESP_OK, r1) ->
  adc_oneshot_read io (S (S (adc_reads st))) = (ESP_OK, r2) ->
  0 <= r0 <= 4095 -> 0 <= r1 <= 4095 -> 0 <= r2 <= 4095 ->
  let mv := 2 * ((r0 + r1 + r2) / 3 * 3300 / 4095) in
  let call := battery_read_voltage io (Some cell) st in
  fst (fst call) = ESP_OK /\
  snd (fst call) = Some mv /\
  last_voltage_mv (snd call) = mv /\
  0 <= mv <= 6600 /\
  battery_get_zigbee_voltage (snd call) = mv / 100 /\
  battery_get_zigbee_voltage (snd call) <= 66.
Proof.
  intros Hc H0 H1 H2 B0 B1 B2 mv call. subst call.
  destruct (@uncalibrated_call io st cell r0 r1 r2 Hc H0 H1 H2 B0 B1 B2)
    as (Bm & E).
  fold mv in Bm, E. rewrite E.
  unfold battery_get_zigbee_voltage.
  cbn [fst snd sampled set_last last_voltage_mv last_percentage].
  rewrite Z.quot_div_nonneg by lia.
  assert (0 <= mv / 100 <= 66).
  { split; [apply Z.div_pos; lia | apply Z.div_le_upper_bound; lia]. }
  rewrite uint8_small by lia.
  repeat split; lia.
Qed.

Lemma uncalibrated_sample_value_witness :
  snd (fst (battery_read_voltage Bench.raw_adc (Some 0) boot)) = Some 3700.
Proof.
  destruct (@uncalibrated_sample_value Bench.raw_adc boot 0 2296 2296 2296)
    as (_ & H & _);
    [reflexivity | reflexivity | reflexivity | reflexivity
    | lia | lia | lia | exact H].
Defined.

(** *** The gate over the life of the driver *)






(** *** A conversion that fails *)

(** X8: When the conversion number [k] of a read (0, 1 or 2) is the first
    to fail, the read returns its error code, requests no further
    conversion and leaves the caller's cell as it was. *)
Theorem failed_conversion_stops_sampling
  (io : hal) (st : state) (cell : Z) (k : nat) :
  (k < 3)%nat ->
  (forall j, (j < k)%nat ->
     fst (adc_oneshot_read io (adc_reads st + j)%nat) = ESP_OK) ->
  fst (adc_oneshot_read io (adc_reads st + k)%nat) <> ESP_OK ->
  let call := battery_read_voltage io (Some cell) st in
  fst (fst call) = fst (adc_oneshot_read io (adc_reads st + k)%nat) /\
  snd (fst call) = Some cell /\
  adc_reads (snd call) = (adc_reads st + k + 1)%nat.
Proof.
  intros Hk Hok Hfail.
  unfold battery_read_voltage, battery_read_voltage_body.
  change (Z.to_nat 3) with 3%nat.
  unfold bind at 1. unfold modify at 1. unfold bind at 1.
  cbn [sample_loop]. unfold bind, get, modify, ret, leave.
  cbn [gpio_set_level adc_reads count_read].
  assert (K : k = 0%nat \/ k = 1%nat \/ k = 2%nat) by lia.
  destruct K as [-> | [-> | ->]].
  - rewrite Nat.add_0_r in *.
    destruct (adc_oneshot_read io (adc_reads st)) as [r raw]. cbn in *.
    destruct (Z.eqb_spec r ESP_OK); [contradiction|]. cbn.
    repeat split. lia.
  - pose proof (Hok 0%nat ltac:(lia)) as H0. rewrite Nat.add_0_r in H0.
    replace (adc_reads st + 1)%nat with (S (adc_reads st)) in * by lia.
    destruct (adc_oneshot_read io (adc_reads st)) as [r raw]. cbn in *.
    subst r. cbn.
    destruct (adc_oneshot_read io (S (adc_reads st))) as [r1 raw1]. cbn in *.
    destruct (Z.eqb_spec r1 ESP_OK); [contradiction|]. cbn.
    repeat split. lia.
  - pose proof (Hok 0%nat ltac:(lia)) as H0. rewrite Nat.add_0_r in H0.
    pose proof (Hok 1%nat ltac:(lia)) as H1.
    replace (adc_reads st + 1)%nat with (S (adc_reads st)) in * by lia.
    replace (adc_reads st + 2)%nat with (S (S (adc_reads st))) in * by lia.
    destruct (adc_oneshot_read io (adc_reads st)) as [r raw]. cbn in *.
    subst r. cbn.
    destruct (adc_oneshot_read io (S (adc_reads st))) as [r1 raw1]. cbn in *.
    subst r1. cbn.
    destruct (adc_oneshot_read io (S (S (adc_reads st)))) as [r2 raw2].
    cbn in *.
    destruct (Z.eqb_spec r2 ESP_OK); [contradiction|]. cbn.
    repeat split. lia.
Qed.

Lemma failed_conversion_stops_sampling_witness :
  let call := battery_read_voltage Boards.flaky_adc (Some 0) Boards.charged in
  fst (fst call) = ESP_FAIL /\ adc_reads (snd call) = 2%nat.
Proof.
  destruct (@failed_conversion_stops_sampling
              Boards.flaky_adc Boards.charged 0 1)
    as (H1 & _ & H3).
  - lia.
  - intros j Hj. assert (j = 0%nat) by lia. subst j. reflexivity.
  - discriminate.
  - split; [exact H1 | exact H3].
Defined.

End BatterySamples.

(** ** DPS368: coefficients and readings *)

Module Dps368Coefficients.
Import CInt Esp Float32 Dps368 Dps368Read CIntFacts BitFacts.

(** [sign_extend] at bit [n] of a value of [n + 1] bits. *)
Lemma sign_extend_signed (n c : Z) :
  0 <= n < 31 -> 0 <= c < 2 ^ (n + 1) ->
  sign_extend (2 ^ n) (2 ^ (n + 1)) c = signed (n + 1) c.
Proof.
  intros Hn Hc. unfold sign_extend, signed.
  rewrite land_sign_bit by lia.
  replace (n + 1 - 1) with n by lia.
  assert (P : 2 ^ (n + 1) <= 2 ^ 31) by (apply Z.pow_le_mono_r; lia).
  destruct (Z.ltb_spec c (2 ^ n)); cbn [negb]; [reflexivity|].
  unfold int32, sint. rewrite Z.mod_small; lia.
Qed.

Lemma signed_range (bits raw : Z) :
  0 < bits -> 0 <= raw < 2 ^ bits ->
  - 2 ^ (bits - 1) <= signed bits raw < 2 ^ (bits - 1).
Proof.
  intros Hb Hr. unfold signed.
  assert (E : 2 ^ bits = 2 * 2 ^ (bits - 1)).
  { rewrite <- Z.pow_succ_r by lia. f_equal. lia. }
  destruct (Z.ltb_spec raw (2 ^ (bits - 1))); lia.
Qed.

Lemma byte_div16 b : 0 <= b < 256 -> 0 <= b / 16 < 16.
Proof.
  intros H. split; [apply Z.div_pos; lia | apply Z.div_lt_upper_bound; lia].
Qed.

Lemma high_nibble b :
  0 <= b < 256 -> Z.land (Z.shiftr (uint32 b) 4) 0x0F = b / 16.
Proof.
  intros H. rewrite uint32_small by lia.
  rewrite Z.shiftr_div_pow2 by lia.
  change 0x0F with (Z.ones 4). rewrite Z.land_ones by lia.
  apply Z.mod_small. apply byte_div16, H.
Qed.

Lemma low_nibble b : 0 <= b < 256 -> Z.land (uint32 b) 0x0F = b mod 16.
Proof.
  intros H. rewrite uint32_small by lia.
  change 0x0F with (Z.ones 4). apply Z.land_ones. lia.
Qed.

(** Two bytes, high byte first, as a signed 16-bit value. *)
Lemma word16 (hi lo : Z) :
  0 <= hi < 256 -> 0 <= lo < 256 ->
  sign_extend 0x8000 0x10000
    (int32 (Z.lor (uint32 (Z.shiftl (uint32 hi) 8)) (uint32 lo))) =
  signed 16 (hi * 256 + lo).
Proof.
  intros Hh Hl.
  rewrite !(@uint32_small hi), (@uint32_small lo) by lia.
  rewrite (Z.shiftl_mul_pow2 hi 8) by lia.
  rewrite (@uint32_small (hi * 2 ^ 8)) by lia.
  rewrite <- (Z.shiftl_mul_pow2 hi 8) by lia.
  rewrite lor_shiftl by lia.
  change (2 ^ 8) with 256.
  rewrite int32_fits by lia.
  apply (@sign_extend_signed 15). lia. change (2 ^ (15 + 1)) with 65536. lia.
Qed.

(** X9: the parsed coefficients are the two's complement values of
    the fields the eighteen bytes pack: c0 and c1 of 12 bits, c00 and
    c10 of 20 bits, the others of 16 bits, each within its signed
    range. *)
Theorem coefficients_are_twos_complement (data : nat -> Z) :
  let B i := uint8 (data i) in
  let c := parse_coefficients B in
  (c0 c = signed 12 (B 0%nat * 16 + B 1%nat / 16) /\
   c1 c = signed 12 (B 1%nat mod 16 * 256 + B 2%nat) /\
   c00 c = signed 20 (B 3%nat * 4096 + B 4%nat * 16 + B 5%nat / 16) /\
   c10 c = signed 20 (B 5%nat mod 16 * 65536 + B 6%nat * 256 + B 7%nat) /\
   c01 c = signed 16 (B 8%nat * 256 + B 9%nat) /\
   c11 c = signed 16 (B 10%nat * 256 + B 11%nat) /\
   c20 c = signed 16 (B 12%nat * 256 + B 13%nat) /\
   c21 c = signed 16 (B 14%nat * 256 + B 15%nat) /\
   c30 c = signed 16 (B 16%nat * 256 + B 17%nat)) /\
  (- 2048 <= c0 c < 2048 /\ - 2048 <= c1 c < 2048 /\
   - 524288 <= c00 c < 524288 /\ - 524288 <= c10 c < 524288 /\
   - 32768 <= c01 c < 32768 /\ - 32768 <= c11 c < 32768 /\
   - 32768 <= c20 c < 32768 /\ - 32768 <= c21 c < 32768 /\
   - 32768 <= c30 c < 32768).
Proof.
  intros B c.
  assert (HB : forall i, 0 <= B i < 256) by (intros i; apply uint8_range).
  assert (E0 : c0 c = signed 12 (B 0%nat * 16 + B 1%nat / 16)).
  { cbn [c parse_coefficients c0].
    pose proof (HB 0%nat). pose proof (byte_div16 (HB 1%nat)).
    rewrite high_nibble by apply HB.
    rewrite (@uint32_small (B 0%nat)) by lia.
    rewrite (Z.shiftl_mul_pow2 (B 0%nat) 4) by lia.
    rewrite (@uint32_small (B 0%nat * 2 ^ 4)) by lia.
    rewrite <- (Z.shiftl_mul_pow2 (B 0%nat) 4) by lia.
    rewrite lor_shiftl by lia. change (2 ^ 4) with 16.
    rewrite int32_fits by lia.
    apply (@sign_extend_signed 11); [lia|].
    change (2 ^ (11 + 1)) with 4096. lia. }
  assert (E1 : c1 c = signed 12 (B 1%nat mod 16 * 256 + B 2%nat)).
  { cbn [c parse_coefficients c1].
    pose proof (HB 2%nat).
    pose proof (Z.mod_pos_bound (B 1%nat) 16 ltac:(lia)).
    rewrite low_nibble by apply HB.
    rewrite (@uint32_small (B 2%nat)) by lia.
    rewrite (Z.shiftl_mul_pow2 (B 1%nat mod 16) 8) by lia.
    rewrite (@uint32_small (B 1%nat mod 16 * 2 ^ 8)) by lia.
    rewrite <- (Z.shiftl_mul_pow2 (B 1%nat mod 16) 8) by lia.
    rewrite lor_shiftl by lia. change (2 ^ 8) with 256.
    rewrite int32_fits by lia.
    apply (@sign_extend_signed 11); [lia|].
    change (2 ^ (11 + 1)) with 4096. lia. }
  assert (E00 : c00 c =
                signed 20 (B 3%nat * 4096 + B 4%nat * 16 + B 5%nat / 16)).
  { cbn [c parse_coefficients c00].
    pose proof (HB 3%nat). pose proof (HB 4%nat).
    pose proof (byte_div16 (HB 5%nat)).
    rewrite high_nibble by apply HB.
    rewrite (@uint32_small (B 3%nat)), (@uint32_small (B 4%nat)) by lia.
    rewrite (Z.shiftl_mul_pow2 (B 3%nat) 12) by lia.
    rewrite (Z.shiftl_mul_pow2 (B 4%nat) 4) by lia.
    rewrite (@uint32_small (B 3%nat * 2 ^ 12)) by lia.
    rewrite (@uint32_small (B 4%nat * 2 ^ 4)) by lia.
    rewrite <- (Z.shiftl_mul_pow2 (B 3%nat) 12) by lia.
    rewrite (@lor_shiftl (B 3%nat) (B 4%nat * 2 ^ 4) 12) by lia.
    replace (B 3%nat * 2 ^ 12 + B 4%nat * 2 ^ 4)
      with ((B 3%nat * 256 + B 4%nat) * 2 ^ 4) by lia.
    rewrite <- (Z.shiftl_mul_pow2 (B 3%nat * 256 + B 4%nat) 4) by lia.
    rewrite lor_shiftl by lia. change (2 ^ 4) with 16.
    rewrite int32_fits by lia.
    replace (B 3%nat * 4096 + B 4%nat * 16 + B 5%nat / 16)
      with ((B 3%nat * 256 + B 4%nat) * 16 + B 5%nat / 16) by lia.
    apply (@sign_extend_signed 19); [lia|].
    change (2 ^ (19 + 1)) with 1048576. lia. }
  assert (E10 : c10 c =
                signed 20 (B 5%nat mod 16 * 65536 + B 6%nat * 256 + B 7%nat)).
  { cbn [c parse_coefficients c10].
    pose proof (HB 6%nat). pose proof (HB 7%nat).
    pose proof (Z.mod_pos_bound (B 5%nat) 16 ltac:(lia)).
    rewrite low_nibble by apply HB.
    rewrite (@uint32_small (B 6%nat)), (@uint32_small (B 7%nat)) by lia.
    rewrite (Z.shiftl_mul_pow2 (B 5%nat mod 16) 16) by lia.
    rewrite (Z.shiftl_mul_pow2 (B 6%nat) 8) by lia.
    rewrite (@uint32_small (B 5%nat mod 16 * 2 ^ 16)) by lia.
    rewrite (@uint32_small (B 6%nat * 2 ^ 8)) by lia.
    rewrite <- (Z.shiftl_mul_pow2 (B 5%nat mod 16) 16) by lia.
    rewrite (@lor_shiftl (B 5%nat mod 16) (B 6%nat * 2 ^ 8) 16) by lia.
    replace (B 5%nat mod 16 * 2 ^ 16 + B 6%nat * 2 ^ 8)
      with ((B 5%nat mod 16 * 256 + B 6%nat) * 2 ^ 8) by lia.
    rewrite <- (Z.shiftl_mul_pow2 (B 5%nat mod 16 * 256 + B 6%nat) 8) by lia.
    rewrite lor_shiftl by lia. change (2 ^ 8) with 256.
    rewrite int32_fits by lia.
    replace (B 5%nat mod 16 * 65536 + B 6%nat * 256 + B 7%nat)
      with ((B 5%nat mod 16 * 256 + B 6%nat) * 256 + B 7%nat) by lia.
    apply (@sign_extend_signed 19); [lia|].
    change (2 ^ (19 + 1)) with 1048576. lia. }
  assert (E01 : c01 c = signed 16 (B 8%nat * 256 + B 9%nat))
    by (apply word16; apply HB).
  assert (E11 : c11 c = signed 16 (B 10%nat * 256 + B 11%nat))
    by (apply word16; apply HB).
  assert (E20 : c20 c = signed 16 (B 12%nat * 256 + B 13%nat))
    by (apply word16; apply HB).
  assert (E21 : c21 c = signed 16 (B 14%nat * 256 + B 15%nat))
    by (apply word16; apply HB).
  assert (E30 : c30 c = signed 16 (B 16%nat * 256 + B 17%nat))
    by (apply word16; apply HB).
  split; [repeat split; assumption|].
  rewrite E0, E1, E00, E10, E01, E11, E20, E21, E30.
  pose proof (fun i => byte_div16 (HB i)) as D.
  pose proof (fun i => Z.mod_pos_bound (B i) 16 ltac:(lia)) as M.
  repeat split;
    first [ apply (@signed_range 12) | apply (@signed_range 20)
          | apply (@signed_range 16) ];
    try lia;
    repeat match goal with
           | |- context [B ?i] =>
               lazymatch goal with
               | _ : 0 <= B i < 256 |- _ => fail
               | _ => pose proof (HB i); pose proof (D i); pose proof (M i)
               end
           end;
    lia.
Qed.

End Dps368Coefficients.

(** ** binary32: what rounding never gives, and comparisons *)

Module Float32Signs.
Import Float32 Float32Arith Float32Facts.

Lemma all_from_spec (p : Z -> bool) (count : nat) : forall z,
  all_from count z p = true ->
  forall i, z <= i < z + Z.of_nat count -> p i = true.
Proof.
  induction count as [|count IH]; intros z H i Hi.
  - cbn in Hi. lia.
  - cbn [all_from] in H. apply andb_prop in H. destruct H as [Hz Hr].
    destruct (Z.eq_dec i z) as [->|N]; [exact Hz|].
    apply (IH (z + 1) Hr). lia.
Qed.

Lemma same_eq x y : same x y = true -> x = y.
Proof.
  destruct x as [s|s| |s m e], y as [s'|s'| |s' m' e']; cbn;
    try discriminate; intros H.
  - apply Bool.eqb_prop in H. congruence.
  - apply Bool.eqb_prop in H. congruence.
  - reflexivity.
  - apply andb_prop in H. destruct H as [H He].
    apply andb_prop in H. destruct H as [Hs Hm].
    apply Bool.eqb_prop in Hs. apply Pos.eqb_eq in Hm. apply Z.eqb_eq in He.
    congruence.
Qed.

Lemma shr_nonneg (mrs : shr_record) (e n : Z) :
  0 <= shr_m mrs -> 0 <= shr_m (fst (shr mrs e n)).
Proof.
  intros H. unfold shr. destruct n as [|p|p]; cbn [fst]; try assumption.
  rewrite iter_shr_1 by assumption.
  apply Z.div_pos; [assumption | apply Z.pow_pos_nonneg; lia].
Qed.

Lemma shr_fexp_nonneg (m e : Z) (l : location) :
  0 <= m -> 0 <= shr_m (fst (shr_fexp prec emax m e l)).
Proof.
  intros H. unfold shr_fexp. apply shr_nonneg.
  destruct l as [|[| |]]; exact H.
Qed.

Lemma round_nearest_even_nonneg (m : Z) (l : location) :
  0 <= m -> 0 <= round_nearest_even m l.
Proof.
  intros H. destruct l as [|[| |]]; cbn; try assumption.
  - destruct (Z.even m); lia.
  - lia.
Qed.

(** Rounding a mantissa that is not negative gives a zero, a finite
    number or an infinity of the sign asked for, never a NaN. *)
Lemma binary_round_aux_signed (s : bool) (m e : Z) (l : location) :
  0 <= m ->
  match binary_round_aux prec emax s m e l with
  | S754_zero s' | S754_finite s' _ _ | S754_infinity s' => s' = s
  | S754_nan => False
  end.
Proof.
  intros H. unfold binary_round_aux.
  pose proof (@shr_fexp_nonneg m e l H) as H1.
  destruct (shr_fexp prec emax m e l) as [mrs1 e1]. cbn [fst] in H1.
  pose proof (@round_nearest_even_nonneg (shr_m mrs1) (loc_of_shr_record mrs1) H1)
    as H2.
  pose proof (@shr_fexp_nonneg _ e1 loc_Exact H2) as H3.
  destruct (shr_fexp prec emax
              (round_nearest_even (shr_m mrs1) (loc_of_shr_record mrs1))
              e1 loc_Exact) as [mrs3 e3].
  cbn [fst] in H3.
  destruct (shr_m mrs3) as [|p|p]; [reflexivity| |lia].
  destruct (Z.leb e3 (emax - prec)); reflexivity.
Qed.

Lemma binary_round_aux_nonnegative (m e : Z) (l : location) :
  0 <= m -> nonnegative (binary_round_aux prec emax false m e l) = true.
Proof.
  intros H. pose proof (@binary_round_aux_signed false m e l H) as R.
  destruct (binary_round_aux prec emax false m e l) as [s|s| |s m' e'];
    try contradiction; subst s; reflexivity.
Qed.

Lemma binary_round_not_nan (s : bool) (m : positive) (e : Z) :
  is_nan (binary_round prec emax s m e) = false.
Proof.
  unfold binary_round.
  destruct (shl_align m e (fexp prec emax (Z.pos (digits2_pos m) + e)))
    as [mz ez].
  pose proof (@binary_round_aux_signed s (Z.pos mz) ez loc_Exact ltac:(lia))
    as R.
  destruct (binary_round_aux prec emax s (Z.pos mz) ez loc_Exact);
    try contradiction; reflexivity.
Qed.

Lemma binary_normalize_not_nan (m e : Z) (szero : bool) :
  is_nan (binary_normalize prec emax m e szero) = false.
Proof.
  destruct m as [|p|p]; cbn [binary_normalize];
    [reflexivity | apply binary_round_not_nan | apply binary_round_not_nan].
Qed.

Lemma of_int_nonnegative (z : Z) : 0 <= z -> nonnegative (of_int z) = true.
Proof.
  intros H. unfold of_int.
  destruct z as [|p|p]; [reflexivity | | lia].
  cbn [binary_normalize]. unfold binary_round.
  destruct (shl_align p 0 (fexp prec emax (Z.pos (digits2_pos p) + 0)))
    as [mz ez].
  apply binary_round_aux_nonnegative. lia.
Qed.

(** Divided by a positive finite number. *)
Lemma div_nonnegative (x : float) (m : positive) (e : Z) :
  nonnegative x = true ->
  nonnegative (div x (S754_finite false m e)) = true.
Proof.
  destruct x as [[|]|[|]| |[|] mx ex]; cbn [nonnegative]; try discriminate;
    intros _; try reflexivity.
  unfold div, SFdiv, SFdiv_core_binary. cbn [xorb].
  match goal with
  | |- context [IntDef.Z.div_eucl ?a _] => set (m' := a)
  end.
  assert (Hm : 0 <= m').
  { unfold m'.
    match goal with
    | |- 0 <= match ?s with _ => _ end => destruct s
    end; [lia | apply Z.shiftl_nonneg; lia | lia]. }
  clearbody m'.
  pose proof (Z.div_pos m' (Zpos m) Hm ltac:(lia)) as Hq.
  unfold Z.div in Hq.
  change (IntDef.Z.div_eucl m' (Zpos m)) with (Z.div_eucl m' (Zpos m)).
  destruct (Z.div_eucl m' (Zpos m)) as [q r]. cbn [fst] in Hq.
  apply binary_round_aux_nonnegative. exact Hq.
Qed.

(** A positive finite number times a number that is not negative. *)
Lemma mul_finite_nonnegative (m : positive) (e : Z) (y : float) :
  nonnegative y = true ->
  nonnegative (mul (S754_finite false m e) y) = true.
Proof.
  destruct y as [[|]|[|]| |[|] my ey]; cbn [nonnegative]; try discriminate;
    intros _; try reflexivity.
  unfold mul, SFmul. cbn [xorb].
  apply binary_round_aux_nonnegative. lia.
Qed.

(** A finite number plus a number that is not negative is a number. *)
Lemma add_finite_not_nan (s : bool) (m : positive) (e : Z) (y : float) :
  nonnegative y = true ->
  is_nan (add (S754_finite s m e) y) = false.
Proof.
  destruct y as [[|]|[|]| |[|] my ey]; cbn [nonnegative]; try discriminate;
    intros _; try reflexivity.
  unfold add, SFadd. apply binary_normalize_not_nan.
Qed.

(** [x < y] fails for numbers, not NaNs: then [y <= x]. *)
Lemma not_ltb_leb (x y : float) :
  is_nan x = false -> is_nan y = false ->
  ltb x y = false -> leb y x = true.
Proof.
  unfold ltb, leb, SFltb, SFleb.
  destruct x as [sx|sx| |sx mx ex], y as [sy|sy| |sy my ey]; cbn;
    try discriminate; intros _ _;
    try (destruct sx; try destruct sy; cbn; congruence).
  destruct sx, sy; cbn; try congruence.
  - rewrite (Z.compare_antisym ex ey).
    destruct (ex ?= ey); cbn; try congruence.
    change (Pos.compare_cont Eq my mx)
      with (Pos.compare_cont (CompOpp Eq) my mx).
    rewrite <- (Pos.compare_cont_antisym mx my Eq).
    destruct (Pos.compare_cont Eq mx my); cbn; congruence.
  - rewrite (Z.compare_antisym ex ey).
    destruct (ex ?= ey); cbn; try congruence.
    change (Pos.compare_cont Eq my mx)
      with (Pos.compare_cont (CompOpp Eq) my mx).
    rewrite <- (Pos.compare_cont_antisym mx my Eq).
    destruct (Pos.compare_cont Eq mx my); cbn; congruence.
Qed.

End Float32Signs.

(** ** DPS368: initialisation and readings *)

Module Dps368Readings.
Import CInt Esp Float32 Float32Arith Dps368 Dps368Read CIntFacts BitFacts Dps368Coefficients.

Ltac run_init :=
  unfold dps368_init, dps368_init_body, dps368_read_calibration,
    coefficient_bytes, product_id, dps368_write_reg,
    call, status, bind, check, modify, get, ret, leave.

#[local] Arguments parse_coefficients : simpl never.

(** The statics after a dps368_init that returned ESP_OK. *)
Lemma init_ok_state (io : hal) (i2c_bus : bool) (st : state) :
  fst (dps368_init io i2c_bus st) = ESP_OK ->
  snd (dps368_init io i2c_bus st) =
  set_coef (parse_coefficients (coefficient_bytes io)) (set_dev true st).
Proof.
  run_init.
  destruct i2c_bus; simpl; [|discriminate].
  destruct (i2c_bus_device_create io) eqn:Ec; simpl; [|discriminate].
  destruct (dps368_read_reg io DPS368_REG_PROD_ID 1) as [r data]; simpl.
  destruct (Z.eqb_spec r ESP_OK) as [Er|Er]; simpl; [|intros E; contradiction].
  destruct (data 0%nat =? 16); simpl; [|discriminate].
  destruct (dps368_read_reg io DPS368_REG_COEF 18) as [r' coef]; simpl.
  destruct (r' =? ESP_OK) eqn:Er'; simpl;
    [|rewrite Er'; simpl; intros E; rewrite E in Er'; discriminate].
  do 3 (match goal with
        | |- context [i2c_bus_write_byte io ?a ?b =? ESP_OK] =>
            destruct (Z.eqb_spec (i2c_bus_write_byte io a b) ESP_OK);
            simpl; [|intros E; contradiction]
        end).
  intros _. reflexivity.
Qed.

(** X10: a dps368_init that returns ESP_OK has stored the handle, set
    [calibrated] and loaded the coefficients parsed from the eighteen
    bytes at register 0x10; from then on a temperature reading
    returns the status of its bus read. *)
Theorem init_success_calibrates (io : hal) (i2c_bus : bool) (st : state) :
  fst (dps368_init io i2c_bus st) = ESP_OK ->
  let st' := snd (dps368_init io i2c_bus st) in
  dps368_dev st' = true /\
  calibrated st' = true /\
  coef st' = parse_coefficients (coefficient_bytes io) /\
  (forall (io' : hal) (cell : float),
     fst (dps368_read_temperature io' (Some cell) st') =
     fst (dps368_read_reg io' DPS368_REG_TMP_B2 3)).
Proof.
  intros H st'. subst st'. rewrite (init_ok_state io i2c_bus st H).
  repeat split.
  intros io' cell. unfold dps368_read_temperature.
  cbn [set_coef set_dev dps368_dev calibrated negb].
  destruct (dps368_read_reg io' DPS368_REG_TMP_B2 3) as [q d].
  destruct (Z.eqb_spec q ESP_OK) as [Eq|Eq]; cbn [negb fst]; congruence.
Qed.

Lemma init_success_calibrates_witness :
  let probe := dps368_init Boards.dps368_present true boot in
  fst probe = ESP_OK /\
  calibrated (snd probe) = true /\
  coef (snd probe) = parse_coefficients (coefficient_bytes Boards.dps368_present).
Proof.
  assert (E : fst (dps368_init Boards.dps368_present true boot) = ESP_OK)
    by reflexivity.
  pose proof (@init_success_calibrates Boards.dps368_present true boot E)
    as (_ & Hc & Hk & _).
  cbv zeta. split; [exact E|]. split; [exact Hc | exact Hk].
Defined.

Lemma reading_ok_calibrated (io : hal) (st : state) (cell : float) :
  fst (dps368_read_temperature io (Some cell) st) = ESP_OK \/
  fst (dps368_read_pressure io (Some cell) st) = ESP_OK ->
  dps368_dev st = true /\ calibrated st = true.
Proof.
  unfold dps368_read_temperature, dps368_read_pressure.
  destruct (dps368_dev st), (calibrated st); cbn [negb fst]; intros [E|E];
    try discriminate; split; reflexivity.
Qed.

(** X11: a reading returns ESP_OK only with a device handle and loaded
    coefficients: without a handle it returns ESP_ERR_INVALID_ARG,
    with a handle and no calibration ESP_ERR_INVALID_STATE, and on
    every error the caller's cell is left as it was. *)
Theorem readings_need_calibration (io : hal) (st : state) (cell : float) :
  let t := dps368_read_temperature io (Some cell) st in
  let p := dps368_read_pressure io (Some cell) st in
  (fst t = ESP_OK -> dps368_dev st = true /\ calibrated st = true) /\
  (fst p = ESP_OK -> dps368_dev st = true /\ calibrated st = true) /\
  (fst t <> ESP_OK -> snd t = Some cell) /\
  (fst p <> ESP_OK -> snd p = Some cell) /\
  (dps368_dev st = false ->
   fst t = ESP_ERR_INVALID_ARG /\ fst p = ESP_ERR_INVALID_ARG) /\
  (dps368_dev st = true -> calibrated st = false ->
   fst t = ESP_ERR_INVALID_STATE /\ fst p = ESP_ERR_INVALID_STATE).
Proof.
  unfold dps368_read_temperature, dps368_read_pressure.
  destruct (dps368_dev st), (calibrated st); cbn [negb fst snd];
    try (repeat split; intros; try discriminate; try reflexivity;
         try contradiction; fail).
  destruct (dps368_read_reg io DPS368_REG_TMP_B2 3) as [r d].
  destruct (dps368_read_reg io DPS368_REG_PSR_B2 3) as [r' d'].
  cbv beta iota.
  destruct (Z.eqb_spec r ESP_OK) as [E|E], (Z.eqb_spec r' ESP_OK) as [E'|E'];
    cbn [negb fst snd]; repeat split; intros; try discriminate;
    try reflexivity; try contradiction.
Qed.

(** X12: a device whose product ID is not 0x10 is never read: after
    dps368_init on it from the initial statics, no reading returns
    ESP_OK, whatever the bus then answers. *)
Theorem wrong_product_never_read (io : hal) (i2c_bus : bool) :
  product_id io <> 0x10 ->
  let st' := snd (dps368_init io i2c_bus boot) in
  fst (dps368_init io i2c_bus boot) <> ESP_OK /\
  forall (io' : hal) (cell : float),
    fst (dps368_read_temperature io' (Some cell) st') <> ESP_OK /\
    fst (dps368_read_pressure io' (Some cell) st') <> ESP_OK.
Proof.
  intros Hp.
  assert (Hc : calibrated (snd (dps368_init io i2c_bus boot)) = false).
  { revert Hp. run_init.
    destruct i2c_bus; simpl; [|reflexivity].
    destruct (i2c_bus_device_create io); simpl; [|reflexivity].
    destruct (dps368_read_reg io DPS368_REG_PROD_ID 1) as [r data]; simpl.
    destruct (r =? ESP_OK); simpl; [|reflexivity].
    destruct (Z.eqb_spec (data 0%nat) 16) as [Ep|Ep]; simpl; [|reflexivity].
    intros N. contradiction. }
  split.
  - intros E. apply Hp.
    apply (SensorFacts.dps368_init_ok io i2c_bus boot E).
  - intros io' cell.
    split; intros E;
      [ pose proof (@reading_ok_calibrated io' _ cell (or_introl E)) as [_ R]
      | pose proof (@reading_ok_calibrated io' _ cell (or_intror E)) as [_ R] ];
      congruence.
Qed.

Lemma wrong_product_never_read_witness :
  product_id Bench.not_a_dps368 <> 0x10 /\
  fst (dps368_read_temperature Boards.dps368_present (Some zero)
         (snd (dps368_init Bench.not_a_dps368 true boot))) <> ESP_OK.
Proof.
  assert (N : product_id Bench.not_a_dps368 <> 0x10)
    by (vm_compute; discriminate).
  split; [exact N|].
  apply (@wrong_product_never_read Bench.not_a_dps368 true N).
Defined.

(** Three bytes, high byte first, as a signed 24-bit value. *)
Lemma raw24_signed (data : nat -> Z) :
  (forall i, 0 <= data i < 256) ->
  raw24 data =
  signed 24 (data 0%nat * 65536 + data 1%nat * 256 + data 2%nat).
Proof.
  intros HB. unfold raw24.
  pose proof (HB 0%nat). pose proof (HB 1%nat). pose proof (HB 2%nat).
  rewrite !(@uint32_small (data 0%nat)), !(@uint32_small (data 1%nat)),
    !(@uint32_small (data 2%nat)) by lia.
  rewrite (Z.shiftl_mul_pow2 (data 0%nat) 16) by lia.
  rewrite (Z.shiftl_mul_pow2 (data 1%nat) 8) by lia.
  rewrite (@uint32_small (data 0%nat * 2 ^ 16)) by lia.
  rewrite (@uint32_small (data 1%nat * 2 ^ 8)) by lia.
  rewrite <- (Z.shiftl_mul_pow2 (data 0%nat) 16) by lia.
  rewrite (@lor_shiftl (data 0%nat) (data 1%nat * 2 ^ 8) 16) by lia.
  replace (data 0%nat * 2 ^ 16 + data 1%nat * 2 ^ 8)
    with ((data 0%nat * 256 + data 1%nat) * 2 ^ 8) by lia.
  rewrite <- (Z.shiftl_mul_pow2 (data 0%nat * 256 + data 1%nat) 8) by lia.
  rewrite lor_shiftl by lia. change (2 ^ 8) with 256.
  rewrite int32_fits by lia.
  replace (data 0%nat * 65536 + data 1%nat * 256 + data 2%nat)
    with ((data 0%nat * 256 + data 1%nat) * 256 + data 2%nat) by lia.
  apply (@sign_extend_signed 23); [lia|].
  change (2 ^ (23 + 1)) with 16777216. lia.
Qed.

(** X13: the temperature dps368_read_temperature stores, with a handle,
    loaded coefficients and a successful read, is
    c0 * 0.5 + c1 * (raw / 524288) in binary32, where raw is the
    two's complement value of the three bytes read, high byte first,
    a number from -8388608 to 8388607, and 0.5f is exactly one
    half. *)
Theorem temperature_from_signed_reading (io : hal) (st : state)
  (cell : float) :
  dps368_dev st = true -> calibrated st = true ->
  fst (dps368_read_reg io DPS368_REG_TMP_B2 3) = ESP_OK ->
  let data := snd (dps368_read_reg io DPS368_REG_TMP_B2 3) in
  let raw :=
    signed 24 (data 0%nat * 65536 + data 1%nat * 256 + data 2%nat) in
  dps368_read_temperature io (Some cell) st =
  (ESP_OK,
   Some (add (mul (of_int (c0 (coef st))) (literal 5 10))
             (mul (of_int (c1 (coef st)))
                  (div (of_int raw) (of_int 524288))))) /\
  - 8388608 <= raw < 8388608 /\
  scaled 1 (literal 5 10) = Some 1.
Proof.
  intros Hd Hc Hr data raw.
  assert (HB : forall i, 0 <= data i < 256).
  { intros i. unfold data, dps368_read_reg.
    destruct (i2c_bus_read_bytes io DPS368_REG_TMP_B2 3) as [r d].
    cbn [snd]. apply uint8_range. }
  split; [|split].
  - unfold dps368_read_temperature. rewrite Hd, Hc. cbn [negb].
    fold data in raw. unfold raw. rewrite <- (@raw24_signed data HB). unfold data.
    destruct (dps368_read_reg io DPS368_REG_TMP_B2 3) as [r d].
    cbn [fst snd] in *. subst r.
    assert (Z.eqb ESP_OK ESP_OK = true) as -> by reflexivity.
    reflexivity.
  - pose proof (HB 0%nat). pose proof (HB 1%nat). pose proof (HB 2%nat).
    apply (@signed_range 24); lia.
  - vm_compute. reflexivity.
Qed.

Lemma temperature_from_signed_reading_witness :
  let io := Boards.dps368_present in
  let st := snd (dps368_init io true boot) in
  dps368_dev st = true /\ calibrated st = true /\
  fst (dps368_read_temperature io (Some zero) st) = ESP_OK.
Proof.
  cbv zeta.
  pose proof (@temperature_from_signed_reading Boards.dps368_present
                (snd (dps368_init Boards.dps368_present true boot)) zero
                eq_refl eq_refl eq_refl) as (E & _).
  split; [reflexivity|]. split; [reflexivity|].
  cbv zeta in E. rewrite E. reflexivity.
Defined.

End Dps368Readings.


(** ** AS5600: angle, degrees and wind direction *)

Module As5600Facts.
Import CInt Esp Float32 Float32Arith As5600 CIntFacts Float32Signs.
Import BitFacts.

(** The two masking statements of as5600_read_angle_raw on two bytes. *)
Lemma angle_of_bytes (hi lo : Z) :
  0 <= hi < 256 -> 0 <= lo < 256 ->
  uint16 (Z.land (uint16 (Z.lor (Z.shiftl (uint16 hi) 8) lo)) 0x0FFF) =
  (hi * 256 + lo) mod 4096.
Proof.
  intros Hh Hl.
  rewrite (@uint16_small hi) by lia.
  rewrite lor_shiftl by lia. change (2 ^ 8) with 256.
  rewrite (@uint16_small (hi * 256 + lo)) by lia.
  change 0x0FFF with (Z.ones 12). rewrite Z.land_ones by lia.
  change (2 ^ 12) with 4096.
  pose proof (Z.mod_pos_bound (hi * 256 + lo) 4096 ltac:(lia)).
  apply uint16_small. lia.
Qed.

Lemma read_angle_raw_cases (io : hal) (st : state) (cell : Z) :
  as5600_read_angle_raw io (Some cell) st =
  if negb (as5600_dev st) then (ESP_ERR_INVALID_ARG, Some cell)
  else if negb (fst (as5600_read_reg io AS5600_REG_ANGLE_H 2) =? ESP_OK)
       then (fst (as5600_read_reg io AS5600_REG_ANGLE_H 2), Some cell)
       else (ESP_OK, Some (angle_bits io)).
Proof.
  unfold as5600_read_angle_raw, angle_bits.
  destruct (as5600_dev st); cbn [negb]; [|reflexivity].
  unfold as5600_read_reg.
  destruct (i2c_bus_read_bytes io AS5600_REG_ANGLE_H 2) as [r data].
  cbn [fst snd].
  destruct (negb (r =? ESP_OK)); [reflexivity|].
  rewrite angle_of_bytes by apply uint8_range. reflexivity.
Qed.

(** X14: as5600_read_angle_raw stores the low twelve bits of the two
    bytes read, high byte first: a value in 0 .. 4095 in which the
    top four bits of the first byte play no part.  Without a handle
    it returns ESP_ERR_INVALID_ARG, and on every error the caller's
    cell is left as it was. *)
Theorem raw_angle_is_twelve_bits (io : hal) (st : state) (cell : Z) :
  let r := as5600_read_angle_raw io (Some cell) st in
  let data := snd (as5600_read_reg io AS5600_REG_ANGLE_H 2) in
  (fst r = ESP_OK ->
   snd r = Some (data 0%nat mod 16 * 256 + data 1%nat) /\
   0 <= data 0%nat mod 16 * 256 + data 1%nat <= 4095) /\
  (fst r <> ESP_OK -> snd r = Some cell) /\
  (as5600_dev st = false -> fst r = ESP_ERR_INVALID_ARG).
Proof.
  cbv zeta. rewrite read_angle_raw_cases.
  assert (E : angle_bits io =
              snd (as5600_read_reg io AS5600_REG_ANGLE_H 2) 0%nat mod 16 * 256 +
              snd (as5600_read_reg io AS5600_REG_ANGLE_H 2) 1%nat /\
              0 <= angle_bits io <= 4095).
  { unfold angle_bits, as5600_read_reg.
    destruct (i2c_bus_read_bytes io AS5600_REG_ANGLE_H 2) as [r data].
    cbn [snd].
    pose proof (uint8_range (data 0%nat)) as H0.
    pose proof (uint8_range (data 1%nat)) as H1.
    pose proof (Z.mod_pos_bound (uint8 (data 0%nat)) 16 ltac:(lia)) as Hm.
    pose proof (Z.div_mod (uint8 (data 0%nat)) 16 ltac:(lia)) as Hd.
    assert (M : (uint8 (data 0%nat) * 256 + uint8 (data 1%nat)) mod 4096 =
                uint8 (data 0%nat) mod 16 * 256 + uint8 (data 1%nat)).
    { symmetry. apply Z.mod_unique with (uint8 (data 0%nat) / 16); lia. }
    rewrite M. split; [reflexivity | lia]. }
  destruct E as [E B]. rewrite <- E.
  destruct (as5600_dev st); cbn [negb fst snd].
  - destruct (Z.eqb_spec (fst (as5600_read_reg io AS5600_REG_ANGLE_H 2)) ESP_OK)
      as [Er|Er]; cbn [negb fst snd].
    + repeat split; intros; try lia; try discriminate; try contradiction;
        reflexivity.
    + repeat split; intros; try lia; try discriminate; try contradiction;
        reflexivity.
  - repeat split; intros; try lia; try discriminate; reflexivity.
Qed.

Lemma degrees_table : all_from 4096 0 degrees_checked = true.
Proof. vm_compute. reflexivity. Qed.

Lemma degrees_of_angle (raw_angle : Z) :
  0 <= raw_angle <= 4095 ->
  let x := degrees_of raw_angle in
  scaled 12 x = Some (raw_angle * 360) /\
  leb (of_int 0) x = true /\ ltb x (of_int 360) = true /\
  ltb x (of_int 0) = false /\ leb (of_int 360) x = false /\
  add x WIND_DIRECTION_OFFSET_DEG = x.
Proof.
  intros H x.
  pose proof (@all_from_spec degrees_checked 4096 0 degrees_table raw_angle
                ltac:(cbn; lia)) as T.
  unfold degrees_checked in T. fold x in T.
  repeat (apply andb_prop in T; let T' := fresh "T" in destruct T as [T T']).
  repeat split.
  - destruct (scaled 12 x) as [v|]; [|discriminate].
    apply Z.eqb_eq in T. congruence.
  - assumption.
  - assumption.
  - apply negb_true_iff. assumption.
  - apply negb_true_iff. assumption.
  - apply same_eq. assumption.
Qed.

Lemma angle_bits_range (io : hal) : 0 <= angle_bits io <= 4095.
Proof.
  unfold angle_bits.
  pose proof (Z.mod_pos_bound
    (snd (as5600_read_reg io AS5600_REG_ANGLE_H 2) 0%nat * 256 +
     snd (as5600_read_reg io AS5600_REG_ANGLE_H 2) 1%nat) 4096 ltac:(lia)).
  lia.
Qed.

Lemma read_angle_degrees_cases (io : hal) (st : state) (cell : float) :
  as5600_read_angle_degrees io (Some cell) st =
  if negb (as5600_dev st) then (ESP_ERR_INVALID_ARG, Some cell)
  else if negb (fst (as5600_read_reg io AS5600_REG_ANGLE_H 2) =? ESP_OK)
       then (fst (as5600_read_reg io AS5600_REG_ANGLE_H 2), Some cell)
       else (ESP_OK, Some (degrees_of (angle_bits io))).
Proof.
  unfold as5600_read_angle_degrees. rewrite read_angle_raw_cases.
  destruct (as5600_dev st); cbn [negb]; [|reflexivity].
  destruct (negb (fst (as5600_read_reg io AS5600_REG_ANGLE_H 2) =? ESP_OK))
    eqn:E.
  - rewrite E. reflexivity.
  - reflexivity.
Qed.

(** X15: the degrees as5600_read_angle_degrees stores are exact: the
    binary32 value is the raw angle times 360 / 4096 with no rounding
    (4096 times it is the integer raw * 360), and it lies in
    [0, 360). *)
Theorem angle_degrees_exact (io : hal) (st : state) (cell : float) :
  fst (as5600_read_angle_degrees io (Some cell) st) = ESP_OK ->
  exists x : float,
    snd (as5600_read_angle_degrees io (Some cell) st) = Some x /\
    scaled 12 x = Some (angle_bits io * 360) /\
    leb (of_int 0) x = true /\ ltb x (of_int 360) = true.
Proof.
  rewrite read_angle_degrees_cases.
  destruct (as5600_dev st); cbn [negb fst snd]; [|discriminate].
  destruct (Z.eqb_spec (fst (as5600_read_reg io AS5600_REG_ANGLE_H 2)) ESP_OK)
    as [Er|Er]; cbn [negb fst snd]; [|intros N; contradiction].
  intros _. exists (degrees_of (angle_bits io)).
  destruct (@degrees_of_angle (angle_bits io) (angle_bits_range io))
    as (Hs & H0 & H360 & _).
  repeat split; assumption.
Qed.

(** X16: in as5600_get_wind_direction neither normalising loop ever
    iterates: with the offset 0.0f the function returns, after one
    test of each loop condition, exactly what
    as5600_read_angle_degrees returns, status and value. *)
Theorem wind_direction_is_angle (io : hal) (st : state) (cell : float)
  (fuel : nat) :
  (0 < fuel)%nat ->
  as5600_get_wind_direction io fuel (Some cell) st =
  Some (as5600_read_angle_degrees io (Some cell) st).
Proof.
  intros Hf. destruct fuel as [|fuel]; [lia|].
  unfold as5600_get_wind_direction.
  rewrite !read_angle_degrees_cases.
  destruct (as5600_dev st); cbn [negb]; [|reflexivity].
  destruct (Z.eqb_spec (fst (as5600_read_reg io AS5600_REG_ANGLE_H 2)) ESP_OK)
    as [Er|Er]; cbn [negb].
  - destruct (@degrees_of_angle (angle_bits io) (angle_bits_range io))
      as (_ & _ & _ & Hlt & Hle & Ha).
    cbv zeta in Ha, Hlt, Hle.
    assert (Z.eqb ESP_OK ESP_OK = true) as -> by reflexivity.
    cbn [negb]. cbv zeta. rewrite Ha.
    cbn [raise_from_negative]. rewrite Hlt.
    cbn [lower_from_360]. rewrite Hle. reflexivity.
  - destruct (Z.eqb_spec (fst (as5600_read_reg io AS5600_REG_ANGLE_H 2)) ESP_OK)
      as [Er'|_]; [contradiction|].
    reflexivity.
Qed.

(** A vane at a quarter turn: raw angle 0x400, 90 degrees. *)
Lemma angle_degrees_exact_witness :
  let io := Bench.vane 0x20 0x04 0x00 in
  let st := snd (as5600_init io true boot) in
  fst (as5600_read_angle_degrees io (Some zero) st) = ESP_OK /\
  exists x : float,
    snd (as5600_read_angle_degrees io (Some zero) st) = Some x /\
    scaled 12 x = Some (angle_bits io * 360) /\
    leb (of_int 0) x = true /\ ltb x (of_int 360) = true.
Proof.
  cbv zeta.
  assert (E : fst (as5600_read_angle_degrees (Bench.vane 0x20 0x04 0x00)
                     (Some zero)
                     (snd (as5600_init (Bench.vane 0x20 0x04 0x00) true boot)))
              = ESP_OK) by (vm_compute; reflexivity).
  split; [exact E|].
  apply (@angle_degrees_exact (Bench.vane 0x20 0x04 0x00) _ zero E).
Defined.

Lemma wind_direction_is_angle_witness :
  let io := Bench.vane 0x20 0x04 0x00 in
  let st := snd (as5600_init io true boot) in
  (0 < 1)%nat /\
  as5600_get_wind_direction io 1 (Some zero) st =
  Some (as5600_read_angle_degrees io (Some zero) st).
Proof.
  cbv zeta. split; [lia|].
  apply (@wind_direction_is_angle (Bench.vane 0x20 0x04 0x00) _ zero 1%nat).
  lia.
Defined.

(** *** as5600_init *)

Lemma field_ok_table : all_from 256 0 field_ok_checked = true.
Proof. vm_compute. reflexivity. Qed.

(** X17: as5600_init reports no magnet fault to its caller: with a bus
    handle, a device handle and a status byte read, it returns ESP_OK
    and keeps the handle for every value of the status byte, logging
    one line about the magnet and then "initialized"; the line is
    "field strength OK" exactly when status & 0x38 is 0x20; and
    as5600_check_magnet then reports a magnet, whatever the status
    was. *)
Theorem init_only_logs_magnet_faults (io : hal) (st : state) :
  i2c_bus_device_create io = true ->
  fst (i2c_bus_read_bytes io AS5600_REG_STATUS 1) = ESP_OK ->
  let status := snd (as5600_read_reg io AS5600_REG_STATUS 1) 0%nat in
  let st' := snd (as5600_init io true st) in
  fst (as5600_init io true st) = ESP_OK /\
  as5600_dev st' = true /\
  (exists line, log st' = log st ++ [line; InfoInitialized] /\
                (line = InfoFieldOk <-> Z.land status 0x38 = 0x20)) /\
  as5600_check_magnet (Some false) st' = (ESP_OK, Some true).
Proof.
  intros Hc Hr.
  unfold as5600_init, as5600_init_body, as5600_check_magnet, as5600_read_reg,
    status, bind, modify, get, ret, leave.
  cbn [negb]. cbn [set_dev as5600_dev]. rewrite Hc. cbn [negb].
  destruct (i2c_bus_read_bytes io AS5600_REG_STATUS 1) as [r data].
  cbn [fst snd] in *. subst r.
  assert (Z.eqb ESP_OK ESP_OK = true) as -> by reflexivity. cbn [negb].
  pose proof (uint8_range (data 0%nat)) as Hb.
  pose proof (@all_from_spec field_ok_checked 256 0 field_ok_table
                (uint8 (data 0%nat)) ltac:(cbn; lia)) as T.
  unfold field_ok_checked in T. apply Bool.eqb_prop in T.
  destruct (Z.land (uint8 (data 0%nat)) AS5600_STATUS_MD =? 0),
    (Z.land (uint8 (data 0%nat)) AS5600_STATUS_MH =? 0),
    (Z.land (uint8 (data 0%nat)) AS5600_STATUS_ML =? 0);
    cbn [negb andb] in T; symmetry in T;
    (apply Z.eqb_eq in T || apply Z.eqb_neq in T);
    cbn [negb fst snd esp_log set_dev as5600_dev log];
    (split; [reflexivity|]); (split; [reflexivity|]);
    (split; [|reflexivity]);
    eexists; rewrite <- app_assoc; cbn [app];
    (split; [reflexivity|]);
    (split; intros; solve [assumption | reflexivity | discriminate
                          | contradiction]).
Qed.

(** A vane with no magnet: the status register reads 0x00. *)
Lemma init_only_logs_magnet_faults_witness :
  let io := Bench.vane 0x00 0x04 0x00 in
  i2c_bus_device_create io = true /\
  fst (i2c_bus_read_bytes io AS5600_REG_STATUS 1) = ESP_OK /\
  fst (as5600_init io true boot) = ESP_OK /\
  as5600_check_magnet (Some false) (snd (as5600_init io true boot)) =
  (ESP_OK, Some true).
Proof.
  cbv zeta.
  pose proof (@init_only_logs_magnet_faults (Bench.vane 0x00 0x04 0x00) boot
                eq_refl eq_refl) as (H1 & _ & _ & H4).
  split; [reflexivity|]. split; [reflexivity|]. split; [exact H1 | exact H4].
Defined.

End As5600Facts.

(** ** SHT41: checksum, measurement and probe *)

Module Sht41Facts.
Import CInt Esp EspCodes Float32 Float32Arith Sht41 CIntFacts Float32Signs.

Unset Implicit Arguments.

Lemma crc8_bit_byte (crc : Z) : byte (crc8_bit crc).
Proof. unfold crc8_bit. destruct (negb _); apply uint8_range. Qed.

Lemma crc8_turns_byte (n : nat) (crc : Z) :
  byte crc -> byte (Nat.iter n crc8_bit crc).
Proof.
  intros H. destruct n as [|n]; [exact H|]. cbn [Nat.iter nat_rect].
  apply crc8_bit_byte.
Qed.

Lemma crc8_unbit_table :
  all_from 256 0 (fun crc => crc8_unbit (crc8_bit crc) =? crc) = true.
Proof. vm_compute. reflexivity. Qed.

Lemma crc8_unbit_bit (crc : Z) : byte crc -> crc8_unbit (crc8_bit crc) = crc.
Proof.
  intros H. apply Z.eqb_eq.
  apply (@all_from_spec (fun crc => crc8_unbit (crc8_bit crc) =? crc)
           256 0 crc8_unbit_table).
  unfold byte in H. cbn. lia.
Qed.

Lemma crc8_turns_injective (n : nat) (x y : Z) :
  byte x -> byte y ->
  Nat.iter n crc8_bit x = Nat.iter n crc8_bit y -> x = y.
Proof.
  intros Hx Hy. induction n as [|n IH]; [exact (fun E => E)|].
  cbn [Nat.iter nat_rect]. intros E. apply IH.
  rewrite <- (@crc8_unbit_bit (Nat.iter n crc8_bit x))
    by (apply crc8_turns_byte; exact Hx).
  rewrite <- (@crc8_unbit_bit (Nat.iter n crc8_bit y))
    by (apply crc8_turns_byte; exact Hy).
  unfold Nat.iter. rewrite E. reflexivity.
Qed.

Lemma lxor_byte (x y : Z) : byte x -> byte y -> byte (Z.lxor x y).
Proof.
  unfold byte. intros Hx Hy.
  assert (N : 0 <= Z.lxor x y) by (apply Z.lxor_nonneg; lia).
  split; [exact N|].
  destruct (Z.eq_dec (Z.lxor x y) 0) as [->|Nz]; [lia|].
  change 256 with (2 ^ 8). apply Z.log2_lt_pow2; [lia|].
  pose proof (Z.log2_lxor x y ltac:(lia) ltac:(lia)) as L.
  assert (Lx : Z.log2 x < 8).
  { destruct (Z.eq_dec x 0) as [->|]; [cbn; lia|].
    apply Z.log2_lt_pow2; lia. }
  assert (Ly : Z.log2 y < 8).
  { destruct (Z.eq_dec y 0) as [->|]; [cbn; lia|].
    apply Z.log2_lt_pow2; lia. }
  lia.
Qed.

Lemma lxor_cancel_l (c x y : Z) : Z.lxor c x = Z.lxor c y -> x = y.
Proof.
  intros E. apply Z.lxor_eq.
  assert (H : Z.lxor (Z.lxor c x) (Z.lxor c y) = 0)
    by (rewrite E; apply Z.lxor_nilpotent).
  rewrite <- H.
  rewrite (Z.lxor_comm c x), Z.lxor_assoc, <- (Z.lxor_assoc c c y),
    Z.lxor_nilpotent, Z.lxor_0_l.
  reflexivity.
Qed.

Lemma lxor_cancel_r (b x y : Z) : Z.lxor x b = Z.lxor y b -> x = y.
Proof. rewrite !(Z.lxor_comm _ b). apply lxor_cancel_l. Qed.

Lemma crc8_byte_byte (crc b : Z) : byte crc -> byte b -> byte (crc8_byte crc b).
Proof.
  intros Hc Hb. unfold crc8_byte. apply crc8_turns_byte, lxor_byte; assumption.
Qed.

(** A different byte in gives a different checksum out. *)
Lemma crc8_byte_injective_data (crc x y : Z) :
  byte crc -> byte x -> byte y ->
  crc8_byte crc x = crc8_byte crc y -> x = y.
Proof.
  intros Hc Hx Hy E. unfold crc8_byte in E.
  apply crc8_turns_injective in E; try (apply lxor_byte; assumption).
  apply lxor_cancel_l with crc. exact E.
Qed.

(** Different checksums so far stay different. *)
Lemma crc8_byte_injective_crc (b x y : Z) :
  byte b -> byte x -> byte y ->
  crc8_byte x b = crc8_byte y b -> x = y.
Proof.
  intros Hb Hx Hy E. unfold crc8_byte in E.
  apply crc8_turns_injective in E; try (apply lxor_byte; assumption).
  apply lxor_cancel_r with b. exact E.
Qed.

Lemma crc8_fold_byte (data : list Z) : forall crc,
  Forall byte data -> byte crc -> byte (fold_left crc8_byte data crc).
Proof.
  induction data as [|b data IH]; intros crc Hd Hc; [exact Hc|].
  inversion Hd as [|? ? Hb Hd']; subst. cbn [fold_left].
  apply IH; [assumption|]. apply crc8_byte_byte; assumption.
Qed.

Lemma crc8_fold_injective (data : list Z) : forall x y,
  Forall byte data -> byte x -> byte y ->
  fold_left crc8_byte data x = fold_left crc8_byte data y -> x = y.
Proof.
  induction data as [|b data IH]; intros x y Hd Hx Hy E; [exact E|].
  inversion Hd as [|? ? Hb Hd']; subst. cbn [fold_left] in E.
  apply IH in E; try assumption; try (apply crc8_byte_byte; assumption).
  apply crc8_byte_injective_crc with b; assumption.
Qed.

Lemma crc8_one_byte_differs (before after : list Z) (x y : Z) :
  Forall byte before -> Forall byte after -> byte x -> byte y ->
  sht41_crc8 (before ++ x :: after) = sht41_crc8 (before ++ y :: after) ->
  x = y.
Proof.
  intros Hb Ha Hx Hy E. unfold sht41_crc8 in E.
  rewrite !fold_left_app in E. cbn [fold_left] in E.
  assert (Hc : byte (fold_left crc8_byte before 255))
    by (apply crc8_fold_byte; [assumption | unfold byte; lia]).
  apply crc8_fold_injective in E; try assumption;
    try (apply crc8_byte_byte; assumption).
  apply crc8_byte_injective_data with (fold_left crc8_byte before 255);
    assumption.
Qed.

(** X18: sht41_crc8 detects every corruption confined to one byte: two
    byte strings of any length that differ in exactly one position
    never have the same checksum; and the checksum is a byte. *)
Theorem crc_detects_byte_corruption (before after : list Z) (x y : Z) :
  Forall byte before -> Forall byte after -> byte x -> byte y ->
  x <> y ->
  sht41_crc8 (before ++ x :: after) <> sht41_crc8 (before ++ y :: after) /\
  byte (sht41_crc8 (before ++ x :: after)).
Proof.
  intros Hb Ha Hx Hy N. split.
  - intros E. apply N.
    apply crc8_one_byte_differs with before after; assumption.
  - unfold sht41_crc8. apply crc8_fold_byte; [|unfold byte; lia].
    apply Forall_app. split; [assumption|]. constructor; assumption.
Qed.

(** One bit flipped in the second byte of 0xBEEF. *)
Lemma crc_detects_byte_corruption_witness :
  Forall byte [0xBE] /\ byte 0xEF /\ byte 0xEE /\
  sht41_crc8 ([0xBE] ++ 0xEF :: []) <> sht41_crc8 ([0xBE] ++ 0xEE :: []).
Proof.
  assert (B : Forall byte [0xBE])
    by (constructor; [unfold byte; lia | constructor]).
  assert (X : byte 0xEF) by (unfold byte; lia).
  assert (Y : byte 0xEE) by (unfold byte; lia).
  split; [exact B|]. split; [exact X|]. split; [exact Y|].
  apply (@crc_detects_byte_corruption [0xBE] [] 0xEF 0xEE B (Forall_nil _) X Y).
  lia.
Defined.

(** *** The conversions *)

Lemma clamp_is_percent (h : float) :
  is_nan h = false -> percent (clamp_humidity h) = true.
Proof.
  intros Hn. unfold percent, clamp_humidity.
  destruct (ltb h (of_int 0)) eqn:E0.
  - vm_compute. reflexivity.
  - pose proof (@not_ltb_leb h (of_int 0) Hn eq_refl E0) as L0.
    destruct (ltb (of_int 100) h) eqn:E100.
    + vm_compute. reflexivity.
    + rewrite L0. cbn [andb].
      apply (@not_ltb_leb (of_int 100) h eq_refl Hn E100).
Qed.

Lemma ratio_nonnegative (scale raw : Z) :
  0 <= raw ->
  match of_int scale with S754_finite false _ _ => True | _ => False end ->
  nonnegative (mul (of_int scale) (div (of_int raw) (of_int 65535))) = true.
Proof.
  intros Hr Hs.
  destruct (of_int scale) as [| | |[|] m e]; try contradiction.
  apply mul_finite_nonnegative.
  change (of_int 65535) with (S754_finite false 16776960 (-8)).
  apply div_nonnegative, of_int_nonnegative, Hr.
Qed.

Lemma humidity_of_not_nan (raw : Z) :
  0 <= raw -> is_nan (humidity_of raw) = false.
Proof.
  intros H. unfold humidity_of.
  change (opp (of_int 6)) with (S754_finite true 12582912 (-21)).
  apply add_finite_not_nan. apply ratio_nonnegative; [exact H | vm_compute; exact I].
Qed.

Lemma temperature_table :
  all_from (Pos.to_nat 65536) 0 temperature_checked = true.
Proof. vm_compute. reflexivity. Qed.

Lemma temperature_in_range (raw : Z) :
  0 <= raw <= 65535 -> sensor_range (temperature_of raw) = true.
Proof.
  intros H.
  apply (@all_from_spec temperature_checked (Pos.to_nat 65536) 0
           temperature_table).
  rewrite positive_nat_Z. lia.
Qed.

Lemma sensor_range_not_nan (t : float) :
  sensor_range t = true -> is_nan t = false.
Proof.
  unfold sensor_range. destruct t; try reflexivity.
  rewrite andb_false_r. discriminate.
Qed.

(** X19: the two conversions of sht41_trigger_measurement stay within
    the ranges of the sensor for every 16-bit word, rounding
    included: the temperature -45 + 175 * raw / 65535 is from -45 to
    130, both ends reached exactly at the words 0 and 65535, and the
    clamped humidity is from 0 to 100, reached at 0 and 65535. *)
Theorem conversions_within_sensor_range (raw : Z) :
  0 <= raw <= 65535 ->
  sensor_range (temperature_of raw) = true /\
  percent (clamp_humidity (humidity_of raw)) = true /\
  temperature_of 0 = opp (of_int 45) /\
  temperature_of 65535 = of_int 130 /\
  clamp_humidity (humidity_of 0) = of_int 0 /\
  clamp_humidity (humidity_of 65535) = of_int 100.
Proof.
  intros H. split; [apply temperature_in_range, H|].
  split; [apply clamp_is_percent, humidity_of_not_nan; lia|].
  repeat split; vm_compute; reflexivity.
Qed.

(** The word 0x6666: 25 degrees, 44 percent. *)
Lemma conversions_within_sensor_range_witness :
  0 <= 0x6666 <= 65535 /\
  sensor_range (temperature_of 0x6666) = true /\
  percent (clamp_humidity (humidity_of 0x6666)) = true.
Proof.
  assert (H : 0 <= 0x6666 <= 65535) by lia.
  destruct (conversions_within_sensor_range 0x6666 H) as (Ht & Hh & _).
  split; [exact H|]. split; [exact Ht | exact Hh].
Defined.

(** *** sht41_trigger_measurement *)

#[local] Arguments sht41_crc8 : simpl never.
#[local] Arguments temperature_of : simpl never.
#[local] Arguments humidity_of : simpl never.
#[local] Arguments clamp_humidity : simpl never.

Lemma trigger_cases (io : hal) (st : state) :
  sht41_trigger_measurement io st =
  if negb (s_dev st) then (ESP_ERR_NOT_FOUND, st) else
  if negb (i2c_bus_write_bytes io SHT41_CMD_MEASURE_HIGH_PRECISION =? ESP_OK)
  then (i2c_bus_write_bytes io SHT41_CMD_MEASURE_HIGH_PRECISION, st) else
  if negb (fst (i2c_bus_read_bytes io 6) =? ESP_OK)
  then (fst (i2c_bus_read_bytes io 6), st) else
  if negb (sht41_crc8 [frame io 0%nat; frame io 1%nat] =? frame io 2%nat)
  then (ESP_ERR_INVALID_CRC, st) else
  if negb (sht41_crc8 [frame io 3%nat; frame io 4%nat] =? frame io 5%nat)
  then (ESP_ERR_INVALID_CRC, st) else
  (ESP_OK,
   set_last (temperature_of (temp_word io))
            (clamp_humidity (humidity_of (hum_word io))) st).
Proof.
  unfold sht41_trigger_measurement, sht41_trigger_measurement_body,
    temp_word, hum_word, frame, status, bind, check, modify, get, ret, leave.
  destruct (s_dev st); cbn [negb]; [|reflexivity].
  destruct (i2c_bus_write_bytes io SHT41_CMD_MEASURE_HIGH_PRECISION =? ESP_OK);
    cbn [negb]; [|reflexivity].
  destruct (i2c_bus_read_bytes io 6) as [r data]. cbn [fst snd].
  destruct (r =? ESP_OK); cbn [negb]; [|reflexivity].
  destruct (sht41_crc8 [uint8 (data 0%nat); uint8 (data 1%nat)]
            =? uint8 (data 2%nat)); cbn [negb]; [|reflexivity].
  destruct (sht41_crc8 [uint8 (data 3%nat); uint8 (data 4%nat)]
            =? uint8 (data 5%nat)); cbn [negb]; reflexivity.
Qed.

Lemma word_range (hi lo : Z) :
  0 <= uint16 (Z.lor (Z.shiftl hi 8) lo) <= 65535.
Proof.
  pose proof (Z.mod_pos_bound (Z.lor (Z.shiftl hi 8) lo) (2 ^ 16) ltac:(lia)).
  unfold uint16. lia.
Qed.

(** X20: sht41_trigger_measurement is all or nothing.  On any error
    (no handle, a failed write or read, a checksum mismatch) the
    statics are exactly as before, so the last good temperature and
    humidity stay readable.  When it returns ESP_OK both checksums of
    the frame matched, the temperature stored is the conversion of
    the first word and lies in -45 .. 130, and the humidity stored
    lies in 0 .. 100. *)
Theorem measurement_all_or_nothing (io : hal) (st : state) :
  let r := sht41_trigger_measurement io st in
  (fst r <> ESP_OK -> snd r = st) /\
  (fst r = ESP_OK ->
   sht41_crc8 [frame io 0%nat; frame io 1%nat] = frame io 2%nat /\
   sht41_crc8 [frame io 3%nat; frame io 4%nat] = frame io 5%nat /\
   s_last_temperature (snd r) = temperature_of (temp_word io) /\
   sensor_range (s_last_temperature (snd r)) = true /\
   percent (s_last_humidity (snd r)) = true /\
   s_dev (snd r) = s_dev st /\ handles (snd r) = handles st).
Proof.
  cbv zeta. rewrite trigger_cases.
  destruct (s_dev st) eqn:Hd; cbn [negb fst snd];
    [|split; [reflexivity | discriminate]].
  destruct (Z.eqb_spec (i2c_bus_write_bytes io SHT41_CMD_MEASURE_HIGH_PRECISION)
              ESP_OK) as [Ew|Ew]; cbn [negb fst snd];
    [|split; [reflexivity | intros; contradiction]].
  destruct (Z.eqb_spec (fst (i2c_bus_read_bytes io 6)) ESP_OK) as [Er|Er];
    cbn [negb fst snd]; [|split; [reflexivity | intros; contradiction]].
  destruct (Z.eqb_spec (sht41_crc8 [frame io 0%nat; frame io 1%nat])
              (frame io 2%nat)) as [Et|Et]; cbn [negb fst snd];
    [|split; [reflexivity | discriminate]].
  destruct (Z.eqb_spec (sht41_crc8 [frame io 3%nat; frame io 4%nat])
              (frame io 5%nat)) as [Eh|Eh]; cbn [negb fst snd];
    [|split; [reflexivity | discriminate]].
  split; [intros N; contradiction|]. intros _.
  cbn [set_last s_last_temperature s_last_humidity s_dev handles].
  repeat split; try assumption; try reflexivity.
  - apply temperature_in_range, word_range.
  - apply clamp_is_percent, humidity_of_not_nan, word_range.
Qed.

(** Two words with the same checksum and one byte in common. *)
Lemma crc8_pair (a b a' b' : Z) :
  byte a -> byte b -> byte a' -> byte b' ->
  sht41_crc8 [a; b] = sht41_crc8 [a'; b'] ->
  (b = b' -> a = a') /\ (a = a' -> b = b').
Proof.
  intros Ha Hb Ha' Hb' E. split; intros ->.
  - change [a; b'] with ([] ++ a :: [b']) in E.
    change [a'; b'] with ([] ++ a' :: [b']) in E.
    apply crc8_one_byte_differs with [] [b']; try assumption.
    + constructor.
    + constructor; [assumption | constructor].
  - change [a'; b] with ([a'] ++ b :: []) in E.
    change [a'; b'] with ([a'] ++ b' :: []) in E.
    apply crc8_one_byte_differs with [a'] []; try assumption.
    + constructor; [assumption | constructor].
    + constructor.
Qed.

(** X21: a frame that differs from a frame with two valid checksums in
    exactly one of its six bytes is rejected: the measurement returns
    ESP_ERR_INVALID_CRC and keeps the last values. *)
Theorem corrupted_frame_rejected (io : hal) (st : state) (good : nat -> Z)
  (i : nat) :
  s_dev st = true ->
  i2c_bus_write_bytes io SHT41_CMD_MEASURE_HIGH_PRECISION = ESP_OK ->
  fst (i2c_bus_read_bytes io 6) = ESP_OK ->
  (forall j, byte (good j)) ->
  sht41_crc8 [good 0%nat; good 1%nat] = good 2%nat ->
  sht41_crc8 [good 3%nat; good 4%nat] = good 5%nat ->
  (i < 6)%nat ->
  frame io i <> good i ->
  (forall j, (j < 6)%nat -> j <> i -> frame io j = good j) ->
  sht41_trigger_measurement io st = (ESP_ERR_INVALID_CRC, st).
Proof.
  intros Hd Hw Hr Hg Gt Gh Hi Hne Hsame.
  rewrite trigger_cases.
  set (stored := set_last _ _ st). clearbody stored.
  rewrite Hd, Hw, Hr.
  assert (Z.eqb ESP_OK ESP_OK = true) as -> by reflexivity. cbn [negb].
  assert (Hf : forall j, byte (frame io j)) by (intros j; apply uint8_range).
  pose proof crc8_pair as One.
  destruct i as [|[|[|[|[|[|i]]]]]]; try lia.
  - (* first temperature byte *)
    destruct (Z.eqb_spec (sht41_crc8 [frame io 0%nat; frame io 1%nat])
                (frame io 2%nat)) as [E|E]; [|reflexivity].
    exfalso. apply Hne.
    rewrite (Hsame 2%nat) in E by lia. rewrite <- Gt in E.
    apply (One _ _ _ _ (Hf _) (Hf _) (Hg _) (Hg _) E).
    apply Hsame; lia.
  - destruct (Z.eqb_spec (sht41_crc8 [frame io 0%nat; frame io 1%nat])
                (frame io 2%nat)) as [E|E]; [|reflexivity].
    exfalso. apply Hne.
    rewrite (Hsame 2%nat) in E by lia. rewrite <- Gt in E.
    apply (One _ _ _ _ (Hf _) (Hf _) (Hg _) (Hg _) E).
    apply Hsame; lia.
  - destruct (Z.eqb_spec (sht41_crc8 [frame io 0%nat; frame io 1%nat])
                (frame io 2%nat)) as [E|E]; [|reflexivity].
    exfalso. apply Hne. rewrite <- E, <- Gt.
    rewrite (Hsame 0%nat), (Hsame 1%nat) by lia. reflexivity.
  - destruct (negb (sht41_crc8 [frame io 0%nat; frame io 1%nat]
                    =? frame io 2%nat)); [reflexivity|].
    destruct (Z.eqb_spec (sht41_crc8 [frame io 3%nat; frame io 4%nat])
                (frame io 5%nat)) as [E|E]; [|reflexivity].
    exfalso. apply Hne.
    rewrite (Hsame 5%nat) in E by lia. rewrite <- Gh in E.
    apply (One _ _ _ _ (Hf _) (Hf _) (Hg _) (Hg _) E).
    apply Hsame; lia.
  - destruct (negb (sht41_crc8 [frame io 0%nat; frame io 1%nat]
                    =? frame io 2%nat)); [reflexivity|].
    destruct (Z.eqb_spec (sht41_crc8 [frame io 3%nat; frame io 4%nat])
                (frame io 5%nat)) as [E|E]; [|reflexivity].
    exfalso. apply Hne.
    rewrite (Hsame 5%nat) in E by lia. rewrite <- Gh in E.
    apply (One _ _ _ _ (Hf _) (Hf _) (Hg _) (Hg _) E).
    apply Hsame; lia.
  - destruct (negb (sht41_crc8 [frame io 0%nat; frame io 1%nat]
                    =? frame io 2%nat)); [reflexivity|].
    destruct (Z.eqb_spec (sht41_crc8 [frame io 3%nat; frame io 4%nat])
                (frame io 5%nat)) as [E|E]; [|reflexivity].
    exfalso. apply Hne. rewrite <- E, <- Gh.
    rewrite (Hsame 3%nat), (Hsame 4%nat) by lia. reflexivity.
Qed.

Lemma corrupted_frame_rejected_witness :
  let io := Bench.sht41_answering Bench.bent_beef in
  let st := snd (sht41_init io true boot) in
  s_dev st = true /\
  frame io 1%nat <> nth 1%nat Bench.beef 0 /\
  sht41_trigger_measurement io st = (ESP_ERR_INVALID_CRC, st).
Proof.
  cbv zeta.
  assert (N : frame (Bench.sht41_answering Bench.bent_beef) 1%nat <>
              nth 1%nat Bench.beef 0) by (vm_compute; discriminate).
  split; [reflexivity|]. split; [exact N|].
  apply (@corrupted_frame_rejected (Bench.sht41_answering Bench.bent_beef) _
           (fun j => nth j Bench.beef 0) 1%nat).
  - reflexivity.
  - reflexivity.
  - reflexivity.
  - intros j. unfold byte.
    do 6 (destruct j as [|j]; [cbn; lia|]). destruct j; cbn; lia.
  - vm_compute. reflexivity.
  - vm_compute. reflexivity.
  - lia.
  - exact N.
  - intros j Hj Nj.
    do 6 (destruct j as [|j]; [try reflexivity; lia|]). lia.
Defined.

(** *** sht41_init and the statics over time *)

Lemma delete_created (st : state) :
  i2c_bus_device_delete (set_handles (S (handles st)) st) = st.
Proof. destruct st. reflexivity. Qed.

Lemma init_cases (io : hal) (i2c_bus : bool) (st : state) :
  sht41_init io i2c_bus st =
  if negb i2c_bus then (ESP_ERR_INVALID_ARG, st) else
  if negb (i2c_bus_device_create io) then (ESP_ERR_NOT_FOUND, st) else
  if negb (i2c_bus_write_bytes io SHT41_CMD_SOFT_RESET =? ESP_OK)
  then (ESP_ERR_NOT_FOUND, st) else
  if negb (i2c_bus_write_bytes io SHT41_CMD_MEASURE_HIGH_PRECISION =? ESP_OK)
  then (ESP_ERR_NOT_FOUND, st) else
  (ESP_OK, set_s_dev true (set_handles (S (handles st)) st)).
Proof.
  unfold sht41_init, sht41_init_body, status, bind, check, modify, get, ret,
    leave.
  destruct i2c_bus; cbn [negb]; [|reflexivity].
  destruct (i2c_bus_device_create io); cbn [negb]; [|reflexivity].
  destruct (i2c_bus_write_bytes io SHT41_CMD_SOFT_RESET =? ESP_OK);
    cbn [negb]; [|rewrite delete_created; reflexivity].
  destruct (i2c_bus_write_bytes io SHT41_CMD_MEASURE_HIGH_PRECISION =? ESP_OK);
    cbn [negb]; [reflexivity | rewrite delete_created; reflexivity].
Qed.

(** X22: sht41_init either succeeds or leaves no trace.  It returns
    ESP_OK, ESP_ERR_INVALID_ARG or ESP_ERR_NOT_FOUND and nothing else
    (the status of a failed write is not passed on).  On ESP_OK the
    reset and the probe command were both written, the handle is kept
    and one more device handle exists; on any error the device handle
    it created has been deleted and the statics, an earlier handle
    included, are as before.  It never deletes the handle of an
    earlier success. *)
Theorem init_succeeds_or_leaves_no_trace (io : hal) (i2c_bus : bool)
  (st : state) :
  let r := sht41_init io i2c_bus st in
  (fst r = ESP_OK \/ fst r = ESP_ERR_INVALID_ARG \/ fst r = ESP_ERR_NOT_FOUND) /\
  (fst r = ESP_OK ->
   i2c_bus = true /\ i2c_bus_device_create io = true /\
   i2c_bus_write_bytes io SHT41_CMD_SOFT_RESET = ESP_OK /\
   i2c_bus_write_bytes io SHT41_CMD_MEASURE_HIGH_PRECISION = ESP_OK /\
   s_dev (snd r) = true /\ handles (snd r) = S (handles st) /\
   s_last_temperature (snd r) = s_last_temperature st /\
   s_last_humidity (snd r) = s_last_humidity st) /\
  (fst r <> ESP_OK -> snd r = st).
Proof.
  cbv zeta. rewrite init_cases.
  destruct i2c_bus; cbn [negb fst snd];
    [|split; [auto | split; [discriminate | reflexivity]]].
  destruct (i2c_bus_device_create io); cbn [negb fst snd];
    [|split; [auto | split; [discriminate | reflexivity]]].
  destruct (Z.eqb_spec (i2c_bus_write_bytes io SHT41_CMD_SOFT_RESET) ESP_OK)
    as [E1|E1]; cbn [negb fst snd];
    [|split; [auto | split; [discriminate | reflexivity]]].
  destruct (Z.eqb_spec (i2c_bus_write_bytes io SHT41_CMD_MEASURE_HIGH_PRECISION)
              ESP_OK) as [E2|E2]; cbn [negb fst snd];
    [|split; [auto | split; [discriminate | reflexivity]]].
  split; [auto|]. split; [|intros N; contradiction].
  intros _. repeat split; assumption.
Qed.

Lemma step_plausible (st : state) (c : hal * call) :
  plausible st -> plausible (step st c).
Proof.
  intros H. destruct c as [io [i2c_bus|]]; cbn [step].
  - rewrite init_cases.
    destruct (negb i2c_bus); [exact H|].
    destruct (negb (i2c_bus_device_create io)); [exact H|].
    destruct (negb _); [exact H|].
    destruct (negb _); [exact H|].
    exact H.
  - rewrite trigger_cases.
    destruct (negb (s_dev st)); [exact H|].
    destruct (negb _); [exact H|].
    destruct (negb _); [exact H|].
    destruct (negb _); [exact H|].
    destruct (negb _); [exact H|].
    cbn [snd]. unfold plausible.
    cbn [set_last s_last_temperature s_last_humidity]. split.
    + apply clamp_is_percent, humidity_of_not_nan, word_range.
    + apply temperature_in_range, word_range.
Qed.

Lemma run_plausible (calls : list (hal * call)) : forall st,
  plausible st -> plausible (run calls st).
Proof.
  induction calls as [|c calls IH]; intros st H; [exact H|].
  cbn [run fold_left]. apply IH, step_plausible, H.
Qed.

(** X23: what sht41_read_humidity hands out is always a percentage.
    After any sequence of sht41_init and sht41_trigger_measurement
    calls from the initial statics, whatever the bus did in each, a
    read either returns ESP_ERR_NOT_FOUND and leaves the caller's
    cell alone, or returns ESP_OK with a humidity from 0 to 100; and
    sht41_read_temperature then hands out a temperature from -45 to
    130, never a NaN. *)
Theorem humidity_read_is_percent (calls : list (hal * call))
  (cell : float) :
  let st := run calls boot in
  let h := sht41_read_humidity (Some cell) st in
  let t := sht41_read_temperature (Some cell) st in
  fst h = fst t /\
  (fst h = ESP_OK ->
   (exists x, snd h = Some x /\ percent x = true) /\
   (exists x, snd t = Some x /\ sensor_range x = true /\ is_nan x = false)) /\
  (fst h <> ESP_OK ->
   fst h = ESP_ERR_NOT_FOUND /\ snd h = Some cell /\ snd t = Some cell).
Proof.
  cbv zeta.
  assert (P : plausible (run calls boot)).
  { apply run_plausible. split; vm_compute; reflexivity. }
  destruct P as [Ph Pt].
  unfold sht41_read_humidity, sht41_read_temperature.
  destruct (s_dev (run calls boot)); cbn [negb fst snd].
  - split; [reflexivity|]. split; [|intros N; contradiction].
    intros _. split; eexists.
    + split; [reflexivity | assumption].
    + split; [reflexivity|]. split; [assumption|].
      apply sensor_range_not_nan. assumption.
  - split; [reflexivity|]. split; [discriminate|].
    intros _. repeat split.
Qed.

End Sht41Facts.

Set Implicit Arguments.

(** ** VEML7700: registers, power switch and lux *)

Module Veml7700Facts.
Import CInt Esp Float32 Float32Arith Veml7700 CIntFacts Float32Signs.
Import BitFacts.

Lemma bytes_word_range (data : nat -> Z) : 0 <= bytes_word data < 65536.
Proof. unfold bytes_word, uint16. apply Z.mod_pos_bound. lia. Qed.

(** The two bytes of a 16-bit word, read back low byte first. *)
Lemma word_round_trip (reg v : Z) :
  0 <= v < 65536 -> bytes_word (answer (word_bytes reg v)) = v.
Proof.
  intros H. unfold bytes_word, answer, word_bytes. cbn [byte0 byte1].
  change 0xFF with (Z.ones 8). rewrite !Z.land_ones by lia.
  rewrite Z.shiftr_div_pow2 by lia. change (2 ^ 8) with 256.
  assert (Hq : 0 <= v / 256 < 256).
  { split; [apply Z.div_pos; lia | apply Z.div_lt_upper_bound; lia]. }
  pose proof (Z.mod_pos_bound v 256 ltac:(lia)) as Hm.
  rewrite (Z.mod_small (v / 256) 256) by lia.
  rewrite !(@uint8_small (v mod 256)), !(@uint8_small (v / 256)) by lia.
  rewrite Z.lor_comm, lor_shiftl by lia. change (2 ^ 8) with 256.
  pose proof (Z.div_mod v 256 ltac:(lia)) as D.
  rewrite uint16_small by lia. lia.
Qed.

(** X24: veml7700_write_reg and veml7700_read_reg agree on the byte
    order: when the device answers a read with the two bytes a write
    of a 16-bit value sent, the read returns ESP_OK and that value;
    a failed read stores nothing. *)
Theorem register_round_trip (io : hal) (reg v : Z) :
  0 <= v < 65536 ->
  (i2c_bus_read_bytes io reg = (ESP_OK, answer (word_bytes reg v)) ->
   veml7700_read_reg io reg = (ESP_OK, Some v)) /\
  (fst (i2c_bus_read_bytes io reg) <> ESP_OK ->
   veml7700_read_reg io reg = (fst (i2c_bus_read_bytes io reg), None)) /\
  0 <= byte0 (word_bytes reg v) < 256 /\
  0 <= byte1 (word_bytes reg v) < 256.
Proof.
  intros H. unfold veml7700_read_reg. repeat split.
  - intros ->. cbn. rewrite word_round_trip by exact H. reflexivity.
  - destruct (i2c_bus_read_bytes io reg) as [r data]. cbn [fst].
    intros N. destruct (Z.eqb_spec r ESP_OK); [contradiction | reflexivity].
  - apply uint8_range.
  - apply uint8_range.
  - apply uint8_range.
  - apply uint8_range.
Qed.

Lemma register_round_trip_witness :
  0 <= 0x1234 < 65536 /\
  veml7700_read_reg (Bench.light 0x1234) VEML7700_REG_ALS = (ESP_OK, Some 0x1234).
Proof.
  assert (H : 0 <= 0x1234 < 65536) by lia.
  split; [exact H|].
  apply (@register_round_trip (Bench.light 0x1234) VEML7700_REG_ALS 0x1234 H).
  reflexivity.
Defined.

(** Bit [n] of a configuration word with its lowest bit set or cleared. *)
Lemma set_shutdown_bit (c n : Z) :
  0 <= c < 65536 -> 0 <= n ->
  Z.testbit (uint16 (Z.lor c VEML7700_ALS_SD)) n =
  if n =? 0 then true else Z.testbit c n.
Proof.
  intros Hc Hn. unfold uint16, VEML7700_ALS_SD.
  destruct (Z.lt_ge_cases n 16) as [L|G].
  - rewrite Z.mod_pow2_bits_low by lia.
    rewrite Z.lor_spec. change 1 with (2 ^ 0) at 1.
    rewrite Z.pow2_bits_eqb by lia.
    rewrite (Z.eqb_sym 0 n).
    destruct (n =? 0); [apply orb_true_r | apply orb_false_r].
  - rewrite Z.mod_pow2_bits_high by lia.
    destruct (Z.eqb_spec n 0); [lia|].
    symmetry. rewrite <- (Z.mod_small c (2 ^ 16)) by (change (2 ^ 16) with 65536; lia).
    apply Z.mod_pow2_bits_high. lia.
Qed.

Lemma clear_shutdown_bit (c n : Z) :
  0 <= c < 65536 -> 0 <= n ->
  Z.testbit (uint16 (Z.land c (Z.lnot VEML7700_ALS_SD))) n =
  if n =? 0 then false else Z.testbit c n.
Proof.
  intros Hc Hn. unfold uint16, VEML7700_ALS_SD.
  destruct (Z.lt_ge_cases n 16) as [L|G].
  - rewrite Z.mod_pow2_bits_low by lia.
    rewrite Z.land_spec, Z.lnot_spec by lia. change 1 with (2 ^ 0) at 1.
    rewrite Z.pow2_bits_eqb by lia.
    rewrite (Z.eqb_sym 0 n).
    destruct (n =? 0); [apply andb_false_r | apply andb_true_r].
  - rewrite Z.mod_pow2_bits_high by lia.
    destruct (Z.eqb_spec n 0); [lia|].
    symmetry. rewrite <- (Z.mod_small c (2 ^ 16)) by (change (2 ^ 16) with 65536; lia).
    apply Z.mod_pow2_bits_high. lia.
Qed.

Lemma power_down_cases (io : hal) (st : state) :
  veml7700_power_down io st =
  if negb (veml7700_dev st) then (ESP_ERR_INVALID_STATE, st) else
  if negb (fst (i2c_bus_read_bytes io VEML7700_REG_ALS_CONF) =? ESP_OK)
  then (fst (i2c_bus_read_bytes io VEML7700_REG_ALS_CONF), st) else
  let t := word_bytes VEML7700_REG_ALS_CONF
             (uint16 (Z.lor (configuration io) VEML7700_ALS_SD)) in
  (i2c_bus_write_bytes io t, send t st).
Proof.
  unfold veml7700_power_down, veml7700_power_down_body, veml7700_read_reg,
    veml7700_write_reg, configuration, status, bind, modify, get, ret, leave.
  destruct (veml7700_dev st); cbn [negb]; [|reflexivity].
  destruct (i2c_bus_read_bytes io VEML7700_REG_ALS_CONF) as [r data].
  cbn [fst snd]. destruct (r =? ESP_OK); reflexivity.
Qed.

Lemma power_up_cases (io : hal) (st : state) :
  veml7700_power_up io st =
  if negb (veml7700_dev st) then (ESP_ERR_INVALID_STATE, st) else
  if negb (fst (i2c_bus_read_bytes io VEML7700_REG_ALS_CONF) =? ESP_OK)
  then (fst (i2c_bus_read_bytes io VEML7700_REG_ALS_CONF), st) else
  let t := word_bytes VEML7700_REG_ALS_CONF
             (uint16 (Z.land (configuration io) (Z.lnot VEML7700_ALS_SD))) in
  (i2c_bus_write_bytes io t, send t st).
Proof.
  unfold veml7700_power_up, veml7700_power_up_body, veml7700_read_reg,
    veml7700_write_reg, configuration, status, bind, modify, get, ret, leave.
  destruct (veml7700_dev st); cbn [negb]; [|reflexivity].
  destruct (i2c_bus_read_bytes io VEML7700_REG_ALS_CONF) as [r data].
  cbn [fst snd]. destruct (r =? ESP_OK); reflexivity.
Qed.

Lemma last_sent_send (t : transfer) (st : state) :
  last_sent (send t st) = Some t.
Proof.
  unfold last_sent, send. cbn [sent]. rewrite map_app. cbn [map].
  apply last_last.
Qed.

(** X25: the power switch touches one bit.  With a handle and a
    configuration word read, veml7700_power_down and
    veml7700_power_up each issue exactly one write, to the
    configuration register, and return its status; the word written
    has bit 0 (shut down) set, respectively cleared, and every other
    bit as it was read.  Without a handle they return
    ESP_ERR_INVALID_STATE, and on a failed read its status, with
    nothing written. *)
Theorem power_switch_touches_one_bit (io : hal) (st : state) :
  let down := veml7700_power_down io st in
  let up := veml7700_power_up io st in
  (veml7700_dev st = true ->
   fst (i2c_bus_read_bytes io VEML7700_REG_ALS_CONF) = ESP_OK ->
   exists t_down t_up,
     sent (snd down) = sent st ++ [t_down] /\
     sent (snd up) = sent st ++ [t_up] /\
     fst down = i2c_bus_write_bytes io t_down /\
     fst up = i2c_bus_write_bytes io t_up /\
     to_reg t_down = VEML7700_REG_ALS_CONF /\
     to_reg t_up = VEML7700_REG_ALS_CONF /\
     forall n, 0 <= n ->
       Z.testbit (bytes_word (answer t_down)) n =
         (if n =? 0 then true else Z.testbit (configuration io) n) /\
       Z.testbit (bytes_word (answer t_up)) n =
         (if n =? 0 then false else Z.testbit (configuration io) n)) /\
  (veml7700_dev st = false ->
   down = (ESP_ERR_INVALID_STATE, st) /\ up = (ESP_ERR_INVALID_STATE, st)) /\
  (veml7700_dev st = true ->
   fst (i2c_bus_read_bytes io VEML7700_REG_ALS_CONF) <> ESP_OK ->
   down = (fst (i2c_bus_read_bytes io VEML7700_REG_ALS_CONF), st) /\
   up = (fst (i2c_bus_read_bytes io VEML7700_REG_ALS_CONF), st)).
Proof.
  cbv zeta. rewrite power_down_cases, power_up_cases.
  pose proof (bytes_word_range
                (snd (i2c_bus_read_bytes io VEML7700_REG_ALS_CONF))) as Hc.
  fold (configuration io) in Hc.
  split; [|split].
  - intros -> ->.
    assert (Z.eqb ESP_OK ESP_OK = true) as -> by reflexivity.
    cbn [negb fst snd]. cbv zeta.
    eexists. eexists.
    split; [reflexivity|]. split; [reflexivity|].
    split; [reflexivity|]. split; [reflexivity|].
    split; [reflexivity|]. split; [reflexivity|].
    intros n Hn.
    rewrite !word_round_trip by apply uint16_range.
    split; [apply set_shutdown_bit | apply clear_shutdown_bit]; assumption.
  - intros ->. split; reflexivity.
  - intros -> N.
    destruct (Z.eqb_spec (fst (i2c_bus_read_bytes io VEML7700_REG_ALS_CONF))
                ESP_OK); [contradiction|].
    split; reflexivity.
Qed.

(** X26: veml7700_power_up undoes veml7700_power_down.  When the device
    answers the read of veml7700_power_up with what
    veml7700_power_down last wrote, the word veml7700_power_up writes
    is the configuration read before the shut-down with bit 0
    cleared: the very same word if the sensor was awake. *)
Theorem power_up_undoes_power_down (io io' : hal) (st : state) :
  veml7700_dev st = true ->
  fst (i2c_bus_read_bytes io VEML7700_REG_ALS_CONF) = ESP_OK ->
  (forall t, last_sent (snd (veml7700_power_down io st)) = Some t ->
             i2c_bus_read_bytes io' VEML7700_REG_ALS_CONF = (ESP_OK, answer t)) ->
  exists t,
    last_sent (snd (veml7700_power_up io' (snd (veml7700_power_down io st))))
      = Some t /\
    to_reg t = VEML7700_REG_ALS_CONF /\
    (forall n, 0 <= n ->
       Z.testbit (bytes_word (answer t)) n =
       if n =? 0 then false else Z.testbit (configuration io) n) /\
    (Z.testbit (configuration io) 0 = false ->
     bytes_word (answer t) = configuration io).
Proof.
  intros Hd Hr Hdev.
  pose proof (bytes_word_range
                (snd (i2c_bus_read_bytes io VEML7700_REG_ALS_CONF))) as Hc.
  fold (configuration io) in Hc.
  rewrite power_down_cases in *. rewrite Hd, Hr in *.
  assert (E0 : Z.eqb ESP_OK ESP_OK = true) by reflexivity.
  rewrite E0 in *. cbn [negb snd] in *. cbv zeta in *.
  specialize (Hdev _ (last_sent_send _ st)).
  assert (Ec : configuration io' =
               uint16 (Z.lor (configuration io) VEML7700_ALS_SD)).
  { unfold configuration at 1. rewrite Hdev. cbn [snd].
    apply word_round_trip, uint16_range. }
  rewrite power_up_cases. cbn [send veml7700_dev]. rewrite Hd.
  rewrite Hdev. cbn [fst snd negb]. rewrite E0.
  cbn [negb]. cbv zeta. cbn [snd].
  eexists. split; [apply last_sent_send|]. split; [reflexivity|].
  rewrite !word_round_trip by apply uint16_range. rewrite Ec.
  assert (B : forall n, 0 <= n ->
            Z.testbit
              (uint16 (Z.land (uint16 (Z.lor (configuration io) VEML7700_ALS_SD))
                              (Z.lnot VEML7700_ALS_SD))) n =
            if n =? 0 then false else Z.testbit (configuration io) n).
  { intros n Hn. rewrite clear_shutdown_bit by (try apply uint16_range; lia).
    rewrite set_shutdown_bit by assumption.
    destruct (n =? 0); reflexivity. }
  split; [exact B|].
  intros Z0. apply Z.bits_inj'. intros n Hn. rewrite B by assumption.
  destruct (Z.eqb_spec n 0) as [->|]; [symmetry; exact Z0 | reflexivity].
Qed.

(** A sensor configured with 0x0810, shut down and woken again. *)
Lemma power_up_undoes_power_down_witness :
  let io := Bench.light 0x0810 in
  let io' := Bench.light 0x0811 in
  let st := snd (veml7700_init io true boot) in
  veml7700_dev st = true /\
  exists t,
    last_sent (snd (veml7700_power_up io' (snd (veml7700_power_down io st))))
      = Some t /\
    bytes_word (answer t) = 0x0810.
Proof.
  cbv zeta.
  split; [reflexivity|].
  destruct (@power_up_undoes_power_down (Bench.light 0x0810)
              (Bench.light 0x0811)
              (snd (veml7700_init (Bench.light 0x0810) true boot))
              eq_refl eq_refl) as (t & Ht & _ & _ & Hw).
  - intros t Ht. vm_compute in Ht. injection Ht as <-. reflexivity.
  - exists t. split; [exact Ht|]. apply Hw. reflexivity.
Defined.

Lemma step_keeps_resolution (st : state) (c : hal * call) :
  current_resolution st = literal 36 10000 ->
  current_resolution (step st c) = literal 36 10000.
Proof.
  intros H. destruct c as [io [i2c_bus| |]]; cbn [step].
  - unfold veml7700_init, veml7700_init_body, veml7700_write_reg,
      status, bind, check, modify, get, ret, leave.
    destruct i2c_bus; cbn [negb snd]; [|exact H].
    cbn [set_dev veml7700_dev].
    destruct (i2c_bus_device_create io); cbn [negb snd]; [|exact H].
    destruct (_ =? ESP_OK); cbn [snd]; [reflexivity | exact H].
  - rewrite power_down_cases.
    destruct (negb _); [exact H|]. destruct (negb _); exact H.
  - rewrite power_up_cases.
    destruct (negb _); [exact H|]. destruct (negb _); exact H.
Qed.

Lemma run_keeps_resolution (calls : list (hal * call)) : forall st,
  current_resolution st = literal 36 10000 ->
  current_resolution (run calls st) = literal 36 10000.
Proof.
  induction calls as [|c calls IH]; intros st H; [exact H|].
  cbn [run fold_left]. apply IH, step_keeps_resolution, H.
Qed.

(** X27: after any sequence of veml7700_init, veml7700_power_down and
    veml7700_power_up calls from the initial statics, whatever the
    bus did in each, the resolution is still 0.0036f and
    veml7700_read_lux hands out the 16-bit count read times 0.0036f,
    never a negative number and never a NaN; on any error the
    caller's cell is left as it was, and without a handle the error
    is ESP_ERR_INVALID_ARG. *)
Theorem lux_is_count_times_resolution (calls : list (hal * call))
  (io : hal) (cell : float) :
  let st := run calls boot in
  let r := veml7700_read_lux io (Some cell) st in
  let count := bytes_word (snd (i2c_bus_read_bytes io VEML7700_REG_ALS)) in
  current_resolution st = literal 36 10000 /\
  (fst r = ESP_OK ->
   snd r = Some (mul (of_int count) (literal 36 10000)) /\
   0 <= count <= 65535 /\
   nonnegative (mul (of_int count) (literal 36 10000)) = true) /\
  (fst r <> ESP_OK -> snd r = Some cell) /\
  (veml7700_dev st = false -> fst r = ESP_ERR_INVALID_ARG).
Proof.
  cbv zeta.
  pose proof (@run_keeps_resolution calls boot eq_refl) as Hres.
  split; [exact Hres|].
  generalize dependent (run calls boot). intros st Hres.
  pose proof (bytes_word_range
                (snd (i2c_bus_read_bytes io VEML7700_REG_ALS))) as Hc.
  unfold veml7700_read_lux, veml7700_read_als_raw, veml7700_read_reg.
  rewrite Hres.
  destruct (veml7700_dev st); cbn [negb].
  - destruct (i2c_bus_read_bytes io VEML7700_REG_ALS) as [q data].
    cbn [fst snd] in *.
    destruct (Z.eqb_spec q ESP_OK) as [->|Eq].
    + assert (Z.eqb ESP_OK ESP_OK = true) as -> by reflexivity.
      cbn [negb fst snd].
      split; [|split; [intros N; contradiction | discriminate]].
      intros _. split; [reflexivity|]. split; [lia|].
      change (literal 36 10000) with (S754_finite false 15461882 (-32)).
      generalize (@of_int_nonnegative
                    (bytes_word data) (proj1 Hc)).
      destruct (of_int (bytes_word data)) as [[|]|[|]| |[|] m e];
        cbn [nonnegative]; try discriminate; intros _; try reflexivity.
      unfold mul, SFmul. cbn [xorb].
      apply binary_round_aux_nonnegative. lia.
    + cbn [fst snd].
      destruct (Z.eqb_spec q ESP_OK) as [|_]; [contradiction|].
      cbn [negb fst snd].
      split; [intros N; contradiction|]. split; [reflexivity | discriminate].
  - cbn [fst snd].
    assert (Z.eqb ESP_ERR_INVALID_ARG ESP_OK = false) as -> by reflexivity.
    cbn [negb fst snd].
    split; [discriminate|]. split; reflexivity.
Qed.

End Veml7700Facts.
